(** * Booking, session lifecycle and video-call negotiation of the therapy app

    A shallow embedding of the client code that books therapist slots
    (pages/patient/Therapists.tsx), drives the session status
    (pages/therapist/Sessions.tsx, in its two versions), manages the slots
    (hooks/useTherapistSlots.ts, pages/therapist/Slots.tsx) and negotiates
    video calls (pages/patient/Sessions.tsx, pages/therapist/Sessions.tsx,
    components/VideoSDKCall.tsx).

    The Firestore database is a record of finite maps from document ids to
    documents.  Every handler of a page is a computation in a small state and
    exception monad over the browser of one client: the database it talks to,
    the React state of the page, the alerts shown, the console and the timers
    it has scheduled.  What the environment decides (the id Firestore gives a
    new document, the clock, the answer of the call provider) is an argument
    of the handler.

    A handler is one computation, run to its end: the statements about a
    handler say what it writes and shows.  What a page offers is a function
    of its state, and for the patient's page also of the time at which it
    was last rendered; that page is modelled on the screen as well, with its
    renders and the requests that wait for the store. *)

From Stdlib Require Import ZArith String.
From stdpp Require Import gmap strings list fin_maps.

Local Open Scope string_scope.
Local Open Scope list_scope.
Local Open Scope Z_scope.

(** ** Documents *)

Inductive SessionStatus := pending | confirmed | completed | cancelled.
Inductive VideoCallStatus := active | ended | scheduled.
Inductive RequestStatus := requested | accepted | declined.

Global Instance SessionStatus_eq_dec : EqDecision SessionStatus.
Proof. solve_decision. Defined.
Global Instance VideoCallStatus_eq_dec : EqDecision VideoCallStatus.
Proof. solve_decision. Defined.
Global Instance RequestStatus_eq_dec : EqDecision RequestStatus.
Proof. solve_decision. Defined.

(** Timestamps ([serverTimestamp()], [new Date()], [Date.now()]) are
    milliseconds since the epoch. *)
Definition Timestamp := Z.

(** The [videoCallRequest] map of a session.  [requested] is the status the
    source spells ['pending'] (the name is taken by the session status).
    [requestedAt] and [requestedBy] are optional because an update of the
    field path ['videoCallRequest.status'] on a session without request
    creates the map with the written fields only. *)
Record VideoCallRequest := {
  request_status : RequestStatus;
  requestedAt : option Timestamp;
  respondedAt : option Timestamp;
  requestedBy : option string }.

(** A document of the [sessions] collection. *)
Record Session := {
  patientId : string;
  therapistId : string;
  slotId : option string;
  date : string;
  time : string;
  status : SessionStatus;
  createdAt : option Timestamp;
  updatedAt : option Timestamp;
  patientName : option string;
  therapistName : option string;
  notes : option string;
  videoCallRoomId : option string;
  meetingId : option string;
  videoCallStarted : option Timestamp;
  videoCallEnded : option Timestamp;
  videoCallStatus : option VideoCallStatus;
  videoCallRequest : option VideoCallRequest }.

(** A document of the [therapistSlots] collection ([SlotDoc]); [null] and an
    absent field are both [None]. *)
Record Slot := {
  slot_therapistId : string;
  slot_date : string;
  timeRange : string;
  isBooked : bool;
  bookedBy : option string;
  bookedAt : option Timestamp }.

(** A document of the [sessionNotes] collection. *)
Record SessionNote := {
  note_sessionId : string;
  note_therapistId : string;
  note_patientId : string;
  content : string;
  note_createdAt : Timestamp }.

(** The database: one finite map per collection. *)
Module Db.
Record t := {
  sessions : gmap string Session;
  therapistSlots : gmap string Slot;
  sessionNotes : gmap string SessionNote }.
End Db.
Abbreviation Firestore := Db.t.

Definition with_sessions (f : gmap string Session → gmap string Session)
    (d : Firestore) : Firestore :=
  {| Db.sessions := f (Db.sessions d);
     Db.therapistSlots := Db.therapistSlots d;
     Db.sessionNotes := Db.sessionNotes d |}.

Definition with_slots (f : gmap string Slot → gmap string Slot)
    (d : Firestore) : Firestore :=
  {| Db.sessions := Db.sessions d;
     Db.therapistSlots := f (Db.therapistSlots d);
     Db.sessionNotes := Db.sessionNotes d |}.

Definition with_notes (f : gmap string SessionNote → gmap string SessionNote)
    (d : Firestore) : Firestore :=
  {| Db.sessions := Db.sessions d;
     Db.therapistSlots := Db.therapistSlots d;
     Db.sessionNotes := f (Db.sessionNotes d) |}.

(** ** Field updates of a session ([{ ...s, field: v }]) *)

Definition set_status (v : SessionStatus) (s : Session) : Session :=
  {| patientId := patientId s; therapistId := therapistId s;
     slotId := slotId s; date := date s; time := time s; status := v;
     createdAt := createdAt s; updatedAt := updatedAt s;
     patientName := patientName s; therapistName := therapistName s;
     notes := notes s; videoCallRoomId := videoCallRoomId s;
     meetingId := meetingId s; videoCallStarted := videoCallStarted s;
     videoCallEnded := videoCallEnded s;
     videoCallStatus := videoCallStatus s;
     videoCallRequest := videoCallRequest s |}.

Definition set_updatedAt (v : option Timestamp) (s : Session) : Session :=
  {| patientId := patientId s; therapistId := therapistId s;
     slotId := slotId s; date := date s; time := time s; status := status s;
     createdAt := createdAt s; updatedAt := v; patientName := patientName s;
     therapistName := therapistName s; notes := notes s;
     videoCallRoomId := videoCallRoomId s; meetingId := meetingId s;
     videoCallStarted := videoCallStarted s;
     videoCallEnded := videoCallEnded s;
     videoCallStatus := videoCallStatus s;
     videoCallRequest := videoCallRequest s |}.

Definition set_videoCallRoomId (v : option string) (s : Session) : Session :=
  {| patientId := patientId s; therapistId := therapistId s;
     slotId := slotId s; date := date s; time := time s; status := status s;
     createdAt := createdAt s; updatedAt := updatedAt s;
     patientName := patientName s; therapistName := therapistName s;
     notes := notes s; videoCallRoomId := v; meetingId := meetingId s;
     videoCallStarted := videoCallStarted s;
     videoCallEnded := videoCallEnded s;
     videoCallStatus := videoCallStatus s;
     videoCallRequest := videoCallRequest s |}.

Definition set_meetingId (v : option string) (s : Session) : Session :=
  {| patientId := patientId s; therapistId := therapistId s;
     slotId := slotId s; date := date s; time := time s; status := status s;
     createdAt := createdAt s; updatedAt := updatedAt s;
     patientName := patientName s; therapistName := therapistName s;
     notes := notes s; videoCallRoomId := videoCallRoomId s; meetingId := v;
     videoCallStarted := videoCallStarted s;
     videoCallEnded := videoCallEnded s;
     videoCallStatus := videoCallStatus s;
     videoCallRequest := videoCallRequest s |}.

Definition set_videoCallStarted (v : option Timestamp) (s : Session) : Session :=
  {| patientId := patientId s; therapistId := therapistId s;
     slotId := slotId s; date := date s; time := time s; status := status s;
     createdAt := createdAt s; updatedAt := updatedAt s;
     patientName := patientName s; therapistName := therapistName s;
     notes := notes s; videoCallRoomId := videoCallRoomId s;
     meetingId := meetingId s; videoCallStarted := v;
     videoCallEnded := videoCallEnded s;
     videoCallStatus := videoCallStatus s;
     videoCallRequest := videoCallRequest s |}.

Definition set_videoCallEnded (v : option Timestamp) (s : Session) : Session :=
  {| patientId := patientId s; therapistId := therapistId s;
     slotId := slotId s; date := date s; time := time s; status := status s;
     createdAt := createdAt s; updatedAt := updatedAt s;
     patientName := patientName s; therapistName := therapistName s;
     notes := notes s; videoCallRoomId := videoCallRoomId s;
     meetingId := meetingId s; videoCallStarted := videoCallStarted s;
     videoCallEnded := v; videoCallStatus := videoCallStatus s;
     videoCallRequest := videoCallRequest s |}.

Definition set_videoCallStatus (v : option VideoCallStatus) (s : Session) : Session :=
  {| patientId := patientId s; therapistId := therapistId s;
     slotId := slotId s; date := date s; time := time s; status := status s;
     createdAt := createdAt s; updatedAt := updatedAt s;
     patientName := patientName s; therapistName := therapistName s;
     notes := notes s; videoCallRoomId := videoCallRoomId s;
     meetingId := meetingId s; videoCallStarted := videoCallStarted s;
     videoCallEnded := videoCallEnded s; videoCallStatus := v;
     videoCallRequest := videoCallRequest s |}.

Definition set_videoCallRequest (v : option VideoCallRequest) (s : Session) : Session :=
  {| patientId := patientId s; therapistId := therapistId s;
     slotId := slotId s; date := date s; time := time s; status := status s;
     createdAt := createdAt s; updatedAt := updatedAt s;
     patientName := patientName s; therapistName := therapistName s;
     notes := notes s; videoCallRoomId := videoCallRoomId s;
     meetingId := meetingId s; videoCallStarted := videoCallStarted s;
     videoCallEnded := videoCallEnded s;
     videoCallStatus := videoCallStatus s; videoCallRequest := v |}.

(** ** The browser of one client and its monad *)

Inductive Task :=
  | LoadSlots
  | StartVideoCall (sessionId patientId patientName : string).

(** [P] is the React state of the page; [timers] are the [setTimeout]
    callbacks not yet run, [requests] the HTTP requests sent to the call
    provider. *)
Record Client (P : Type) := {
  db : Firestore;
  page : P;
  alerts : list string;
  console : list string;
  timers : list (nat * Task);
  requests : list string }.
Arguments db {P} _.
Arguments page {P} _.
Arguments alerts {P} _.
Arguments console {P} _.
Arguments timers {P} _.
Arguments requests {P} _.

Inductive Outcome (A : Type) :=
  | Returned (a : A)
  | Thrown (e : string).
Arguments Returned {A} a.
Arguments Thrown {A} e.

Definition M (P A : Type) : Type := Client P → Outcome A * Client P.

Section Monad.
Context {P : Type}.

Definition ret {A} (a : A) : M P A := λ c, (Returned a, c).

Definition bind {A B} (m : M P A) (k : A → M P B) : M P B :=
  λ c, match m c with
       | (Returned a, c') => k a c'
       | (Thrown e, c') => (Thrown e, c')
       end.

Definition throw {A} (e : string) : M P A := λ c, (Thrown e, c).

(** [try m catch h] *)
Definition try_catch {A} (m : M P A) (h : string → M P A) : M P A :=
  λ c, match m c with
       | (Returned a, c') => (Returned a, c')
       | (Thrown e, c') => h e c'
       end.

(** [m finally f]: [f] runs whatever [m] did, and the outcome is [m]'s. *)
Definition finally {A} (m : M P A) (f : M P unit) : M P A :=
  λ c, match m c with
       | (o, c') =>
           match f c' with
           | (Returned _, c'') => (o, c'')
           | (Thrown e, c'') => (Thrown e, c'')
           end
       end.

Definition get_page : M P P := λ c, (Returned (page c), c).

Definition set_page (f : P → P) : M P unit :=
  λ c, (Returned tt,
        {| db := db c; page := f (page c); alerts := alerts c;
           console := console c; timers := timers c;
           requests := requests c |}).

Definition get_db : M P Firestore := λ c, (Returned (db c), c).

Definition set_db (f : Firestore → Firestore) : M P unit :=
  λ c, (Returned tt,
        {| db := f (db c); page := page c; alerts := alerts c;
           console := console c; timers := timers c;
           requests := requests c |}).

Definition alert (msg : string) : M P unit :=
  λ c, (Returned tt,
        {| db := db c; page := page c; alerts := alerts c ++ [msg];
           console := console c; timers := timers c;
           requests := requests c |}).

Definition console_error (msg : string) : M P unit :=
  λ c, (Returned tt,
        {| db := db c; page := page c; alerts := alerts c;
           console := console c ++ [msg]; timers := timers c;
           requests := requests c |}).

Definition setTimeout (t : Task) (delay : nat) : M P unit :=
  λ c, (Returned tt,
        {| db := db c; page := page c; alerts := alerts c;
           console := console c; timers := timers c ++ [(delay, t)];
           requests := requests c |}).

(** An HTTP request sent to the call provider. *)
Definition http_request (r : string) : M P unit :=
  λ c, (Returned tt,
        {| db := db c; page := page c; alerts := alerts c;
           console := console c; timers := timers c;
           requests := requests c ++ [r] |}).
End Monad.

Notation "'let*' x ':=' m 'in' k" := (bind m (λ x, k))
  (at level 10, x name, m at level 100, k at level 200, only parsing).
Notation "m ';;' k" := (bind m (λ _, k))
  (at level 100, k at level 200, right associativity, only parsing).

(** ** Firestore calls *)

Section Firestore.
Context {P : Type}.

(** [addDoc(collection(db, 'sessions'), d)]; [newId] is the id Firestore
    generates for the document. *)
Definition addDoc_session (newId : string) (d : Session) : M P unit :=
  set_db (with_sessions (insert newId d)).

Definition addDoc_slot (newId : string) (d : Slot) : M P unit :=
  set_db (with_slots (insert newId d)).

Definition addDoc_note (newId : string) (d : SessionNote) : M P unit :=
  set_db (with_notes (insert newId d)).

(** [updateDoc(doc(db, 'sessions', id), fields)]: the written fields are
    the function [upd]; the call is rejected when the document does not
    exist. *)
Definition updateDoc_session (id : string) (upd : Session → Session)
    : M P unit :=
  let* d := get_db in
  match Db.sessions d !! id with
  | Some s => set_db (with_sessions (insert id (upd s)))
  | None => throw "No document to update"
  end.

Definition updateDoc_slot (id : string) (upd : Slot → Slot) : M P unit :=
  let* d := get_db in
  match Db.therapistSlots d !! id with
  | Some s => set_db (with_slots (insert id (upd s)))
  | None => throw "No document to update"
  end.

(** [deleteDoc(doc(db, 'therapistSlots', id))] succeeds also when there
    is no such document. *)
Definition deleteDoc_slot (id : string) : M P unit :=
  set_db (with_slots (delete id)).
End Firestore.

(** A document as a page holds it: [{ id: doc.id, ...doc.data() }]. *)
Definition Local (D : Type) : Type := string * D.

(** JavaScript truthiness of a string. *)
Definition truthy (s : string) : bool :=
  match s with EmptyString => false | _ => true end.

(** Truthiness of an optional string ([undefined] is falsy). *)
Definition truthy_opt (o : option string) : bool :=
  match o with Some s => truthy s | None => false end.

(** * pages/patient/Therapists.tsx *)

Record User := { user_id : string; user_name : string }.
Record Therapist := { therapist_id : string; therapist_name : string }.

(** [slot.timeRange.split(' - ')[0]]: what stands before the first
    separator, the whole string when there is none. *)
Fixpoint split_first (sep s : string) : string :=
  match s with
  | EmptyString => EmptyString
  | String c s' =>
      if String.prefix sep s then EmptyString
      else String c (split_first sep s')
  end.

Module Therapists.

Record State := {
  user : option User;
  selectedTherapist : option Therapist;
  availableSlots : list (Local Slot);
  booking : bool }.

Definition setBooking (b : bool) (p : State) : State :=
  {| user := user p; selectedTherapist := selectedTherapist p;
     availableSlots := availableSlots p; booking := b |}.

Definition setAvailableSlots (f : list (Local Slot) → list (Local Slot))
    (p : State) : State :=
  {| user := user p; selectedTherapist := selectedTherapist p;
     availableSlots := f (availableSlots p); booking := booking p |}.

Definition setSelectedTherapist (t : option Therapist) (p : State) : State :=
  {| user := user p; selectedTherapist := t;
     availableSlots := availableSlots p; booking := booking p |}.

(** The slots a query for [therapistId] and [date] returns. *)
Definition query_slots (tid dateStr : string) (d : Firestore)
    : list (Local Slot) :=
  filter (λ x : Local Slot,
            slot_therapistId x.2 = tid ∧ slot_date x.2 = dateStr)
         (map_to_list (Db.therapistSlots d)).

(** [loadSlots]; [dateStr] is [formatDateForFirestore(selectedDate)], or
    [None] when no date is selected. *)
Definition loadSlots (dateStr : option string) : M State unit :=
  let* p := get_page in
  match selectedTherapist p, dateStr with
  | Some t, Some ds =>
      let* d := get_db in
      let slots := query_slots (therapist_id t) ds d in
      set_page (setAvailableSlots
                  (λ _, filter (λ x : Local Slot, isBooked x.2 = false) slots))
  | _, _ => ret tt
  end.

(** The session document [bookSession] adds. *)
Definition new_session (u : User) (t : Therapist) (slot : Local Slot)
    (now : Timestamp) : Session :=
  {| patientId := user_id u;
     therapistId := therapist_id t;
     slotId := Some slot.1;
     date := slot_date slot.2;
     time := split_first " - " (timeRange slot.2);
     status := pending;
     createdAt := Some now;
     updatedAt := None;
     patientName := Some (user_name u);
     therapistName := Some (therapist_name t);
     notes := None;
     videoCallRoomId := None;
     meetingId := None;
     videoCallStarted := None;
     videoCallEnded := None;
     videoCallStatus := None;
     videoCallRequest := None |}.

(** The fields [bookSession] writes on the slot. *)
Definition mark_booked (uid : string) (now : Timestamp) (s : Slot) : Slot :=
  {| slot_therapistId := slot_therapistId s; slot_date := slot_date s;
     timeRange := timeRange s;
     isBooked := true; bookedBy := Some uid; bookedAt := Some now |}.

(** [bookSession(slot)]; [newId] is the id of the session document that
    Firestore creates, [now] the server time. *)
Definition bookSession (newId : string) (now : Timestamp)
    (slot : Local Slot) : M State unit :=
  let* p := get_page in
  match user p, selectedTherapist p with
  | Some u, Some t =>
      if negb (truthy (user_id u)) || booking p then ret tt
      else
        set_page (setBooking true);;
        finally
          (try_catch
             (addDoc_session newId (new_session u t slot now);;
              updateDoc_slot slot.1 (mark_booked (user_id u) now);;
              set_page (setAvailableSlots
                          (filter (λ s : Local Slot, s.1 ≠ slot.1)));;
              setTimeout LoadSlots 1000;;
              alert "Session booked successfully! Waiting for therapist confirmation.";;
              set_page (setSelectedTherapist None))
             (λ e,
                console_error "Booking error:";;
                alert "Failed to book session. Please try again."))
          (set_page (setBooking false))
  | _, _ => ret tt
  end.

End Therapists.

(** * pages/patient/Dashboard.tsx

    The dashboard books with the same two writes. *)

Module Dashboard.

Record State := {
  user : option User;
  selectedTherapist : option Therapist;
  selectedDate : option string;
  availableSlots : list (Local Slot);
  booking : bool }.

Definition setBooking (b : bool) (p : State) : State :=
  {| user := user p; selectedTherapist := selectedTherapist p;
     selectedDate := selectedDate p;
     availableSlots := availableSlots p; booking := b |}.

Definition setAvailableSlots (f : list (Local Slot) → list (Local Slot))
    (p : State) : State :=
  {| user := user p; selectedTherapist := selectedTherapist p;
     selectedDate := selectedDate p;
     availableSlots := f (availableSlots p); booking := booking p |}.

Definition setSelectedTherapist (t : option Therapist) (p : State) : State :=
  {| user := user p; selectedTherapist := t;
     selectedDate := selectedDate p;
     availableSlots := availableSlots p; booking := booking p |}.

Definition setSelectedDate (d : option string) (p : State) : State :=
  {| user := user p; selectedTherapist := selectedTherapist p;
     selectedDate := d;
     availableSlots := availableSlots p; booking := booking p |}.

Definition bookSession (newId : string) (now : Timestamp)
    (slot : Local Slot) : M State unit :=
  let* p := get_page in
  match user p, selectedTherapist p with
  | Some u, Some t =>
      if negb (truthy (user_id u)) || booking p then ret tt
      else
        set_page (setBooking true);;
        finally
          (try_catch
             (addDoc_session newId (Therapists.new_session u t slot now);;
              updateDoc_slot slot.1
                (Therapists.mark_booked (user_id u) now);;
              set_page (setAvailableSlots
                          (filter (λ s : Local Slot, s.1 ≠ slot.1)));;
              alert "Session booked successfully! Waiting for therapist confirmation.";;
              set_page (setSelectedTherapist None);;
              set_page (setSelectedDate None);;
              set_page (setAvailableSlots (λ _, [])))
             (λ e,
                console_error "Booking error:";;
                alert "Failed to book session. Please try again."))
          (set_page (setBooking false))
  | _, _ => ret tt
  end.

End Dashboard.

(** * components/VideoSDKCall.tsx *)

(** What the call provider does with [POST /v2/rooms]: the request fails
    (or its body cannot be read as an object), or an object comes back, with
    or without a [roomId]. *)
Inductive ProviderAnswer :=
  | FetchFails (e : string)
  | Responds (roomId : option string).

(** [authToken], read from the environment of the build. *)
Definition getAuthToken {P} (authToken : string) : M P string :=
  ret authToken.

Definition createMeeting {P} (answer : ProviderAnswer) (token : string)
    : M P (option string) :=
  http_request "POST https://api.videosdk.live/v2/rooms";;
  match answer with
  | FetchFails e => throw e
  | Responds roomId => ret roomId
  end.

(** The provider gives no room: [createMeeting] throws, or what it returns
    is falsy. *)
Definition provisioning_fails (a : ProviderAnswer) : Prop :=
  match a with
  | FetchFails _ => True
  | Responds roomId => truthy_opt roomId = false
  end.

(** * pages/therapist/Sessions.tsx *)

(** The type of [newStatus] in [updateSessionStatus],
    ['confirmed' | 'completed' | 'cancelled']. *)
Inductive NewStatus := to_confirmed | to_completed | to_cancelled.

Definition status_of (n : NewStatus) : SessionStatus :=
  match n with
  | to_confirmed => confirmed
  | to_completed => completed
  | to_cancelled => cancelled
  end.

(** The type of [response] in [respondToVideoCallRequest],
    ['accepted' | 'declined']. *)
Inductive Response := resp_accepted | resp_declined.

Definition request_status_of (r : Response) : RequestStatus :=
  match r with
  | resp_accepted => accepted
  | resp_declined => declined
  end.

(** [sessions.find(s => s.id === sessionId)] *)
Definition find_session (sessionId : string) (l : list (Local Session))
    : option Session :=
  snd <$> List.find (λ x : Local Session, String.eqb x.1 sessionId) l.
Arguments find_session : simpl never.

(** [prev.map(s => s.id === sessionId ? f(s) : s)] *)
Definition map_session (sessionId : string) (f : Session → Session)
    (l : list (Local Session)) : list (Local Session) :=
  (λ x : Local Session,
     if String.eqb x.1 sessionId then (x.1, f x.2) else x) <$> l.
Arguments map_session : simpl never.

(** The fields a cancellation writes on the slot. *)
Definition release (s : Slot) : Slot :=
  {| slot_therapistId := slot_therapistId s; slot_date := slot_date s;
     timeRange := timeRange s;
     isBooked := false; bookedBy := None; bookedAt := None |}.

(** [{ status: newStatus, updatedAt: serverTimestamp() }] *)
Definition write_status (n : NewStatus) (now : Timestamp) (s : Session)
    : Session :=
  set_updatedAt (Some now) (set_status (status_of n) s).

(** The fields [startVideoCall] writes on the session. *)
Definition write_call_started (room : string) (now : Timestamp) (s : Session)
    : Session :=
  set_meetingId (Some room)
    (set_videoCallRoomId (Some room)
       (set_videoCallStatus (Some active)
          (set_videoCallStarted (Some now) s))).

(** [{ ...s, videoCallStatus: 'active', videoCallRoomId, meetingId }] *)
Definition local_call_started (room : string) (s : Session) : Session :=
  set_meetingId (Some room)
    (set_videoCallRoomId (Some room) (set_videoCallStatus (Some active) s)).

(** [{ videoCallEnded: serverTimestamp(), videoCallStatus: 'ended' }] *)
Definition write_call_ended (now : Timestamp) (s : Session) : Session :=
  set_videoCallStatus (Some ended) (set_videoCallEnded (Some now) s).

(** The update of the field paths ['videoCallRequest.status'] and
    ['videoCallRequest.respondedAt']. *)
Definition write_response (r : Response) (now : Timestamp) (s : Session)
    : Session :=
  set_videoCallRequest
    (Some match videoCallRequest s with
          | Some q =>
              {| request_status := request_status_of r;
                 requestedAt := requestedAt q;
                 respondedAt := Some now;
                 requestedBy := requestedBy q |}
          | None =>
              {| request_status := request_status_of r;
                 requestedAt := None;
                 respondedAt := Some now;
                 requestedBy := None |}
          end) s.

(** The local counterpart: a session without request keeps none. *)
Definition local_response (r : Response) (now : Timestamp) (s : Session)
    : Session :=
  set_videoCallRequest
    (match videoCallRequest s with
     | Some q =>
         Some {| request_status := request_status_of r;
                 requestedAt := requestedAt q;
                 respondedAt := Some now;
                 requestedBy := requestedBy q |}
     | None => None
     end) s.

Definition same_id (o : option string) (id : string) : bool :=
  match o with Some x => String.eqb x id | None => false end.

Definition request_pending (s : Session) : bool :=
  match videoCallRequest s with
  | Some q => bool_decide (request_status q = requested)
  | None => false
  end.

Module TherapistSessions.

Record Patient := { patient_name : option string }.

Record ActiveVideoCall := {
  call_sessionId : string;
  call_patientName : string;
  call_patientId : string;
  call_meetingId : option string }.

Record State := {
  user : option User;
  sessions : list (Local Session);
  loading : bool;
  patients : gmap string Patient;
  sessionNotes : gmap string string;
  updating : option string;
  activeVideoCall : option ActiveVideoCall;
  videoCallLoading : option string }.

Definition setSessions (f : list (Local Session) → list (Local Session))
    (p : State) : State :=
  {| user := user p; sessions := f (sessions p); loading := loading p;
     patients := patients p;
     sessionNotes := sessionNotes p; updating := updating p;
     activeVideoCall := activeVideoCall p;
     videoCallLoading := videoCallLoading p |}.

Definition setUpdating (u : option string) (p : State) : State :=
  {| user := user p; sessions := sessions p; loading := loading p;
     patients := patients p;
     sessionNotes := sessionNotes p; updating := u;
     activeVideoCall := activeVideoCall p;
     videoCallLoading := videoCallLoading p |}.

Definition setActiveVideoCall (a : option ActiveVideoCall) (p : State)
    : State :=
  {| user := user p; sessions := sessions p; loading := loading p;
     patients := patients p;
     sessionNotes := sessionNotes p; updating := updating p;
     activeVideoCall := a;
     videoCallLoading := videoCallLoading p |}.

Definition setVideoCallLoading (v : option string) (p : State) : State :=
  {| user := user p; sessions := sessions p; loading := loading p;
     patients := patients p;
     sessionNotes := sessionNotes p; updating := updating p;
     activeVideoCall := activeVideoCall p;
     videoCallLoading := v |}.

(** The [addDoc] of the session notes.  [user.id] on a missing user is a
    [TypeError]; Firestore rejects the [undefined] that
    [sessions.find(...)?.patientId] is when the session is not held. *)
Definition save_notes (p : State) (noteId : string) (now : Timestamp)
    (sessionId text : string) : M State unit :=
  match user p with
  | None => throw "TypeError: user is null"
  | Some u =>
      match find_session sessionId (sessions p) with
      | None => throw "Unsupported field value: undefined"
      | Some s =>
          addDoc_note noteId
            {| note_sessionId := sessionId;
               note_therapistId := user_id u;
               note_patientId := patientId s;
               content := text;
               note_createdAt := now |}
      end
  end.

(** [updateSessionStatus(sessionId, newStatus)]; [noteId] is the id
    Firestore gives the notes document, if one is added. *)
Definition updateSessionStatus (noteId : string) (now : Timestamp)
    (sessionId : string) (newStatus : NewStatus) : M State unit :=
  set_page (setUpdating (Some sessionId));;
  finally
    (try_catch
       (let* p := get_page in
        let session := find_session sessionId (sessions p) in
        updateDoc_session sessionId (write_status newStatus now);;
        (* If session is cancelled, make the slot available again *)
        match newStatus, session ≫= slotId with
        | to_cancelled, Some slot =>
            if truthy slot then
              try_catch (updateDoc_slot slot release)
                (λ e, console_error "Error updating slot availability:")
            else ret tt
        | _, _ => ret tt
        end;;
        set_page (setSessions
                    (map_session sessionId (set_status (status_of newStatus))));;
        match newStatus, sessionNotes p !! sessionId with
        | to_completed, Some text =>
            if truthy text then save_notes p noteId now sessionId text
            else ret tt
        | _, _ => ret tt
        end)
       (λ e,
          console_error "Error updating session:";;
          alert "Failed to update session status"))
    (set_page (setUpdating None)).

(** [startVideoCall(sessionId, patientId, patientName)]; [authToken] is
    the token of the build, [answer] what the provider does with the
    request. *)
Definition startVideoCall (authToken : string) (answer : ProviderAnswer)
    (now : Timestamp) (sessionId patientId patientName : string)
    : M State unit :=
  set_page (setVideoCallLoading (Some sessionId));;
  finally
    (try_catch
       (let* token := getAuthToken authToken in
        let* meetingId := createMeeting answer token in
        match meetingId with
        | Some room =>
            if truthy room then
              updateDoc_session sessionId (write_call_started room now);;
              set_page (setSessions
                          (map_session sessionId (local_call_started room)));;
              set_page (setActiveVideoCall
                          (Some {| call_sessionId := sessionId;
                                   call_patientName := patientName;
                                   call_patientId := patientId;
                                   call_meetingId := Some room |}))
            else throw "Failed to create meeting room"
        | None => throw "Failed to create meeting room"
        end)
       (λ e,
          console_error "Error starting video call:";;
          alert "Failed to start video call. Please try again."))
    (set_page (setVideoCallLoading None)).

(** [respondToVideoCallRequest(sessionId, response, patientId,
    patientName)] *)
Definition respondToVideoCallRequest (now : Timestamp)
    (sessionId : string) (response : Response)
    (patientId patientName : string) : M State unit :=
  set_page (setVideoCallLoading (Some sessionId));;
  finally
    (try_catch
       (updateDoc_session sessionId (write_response response now);;
        set_page (setSessions
                    (map_session sessionId (local_response response now)));;
        match response with
        | resp_accepted =>
            (* Automatically start the video call when accepted *)
            setTimeout (StartVideoCall sessionId patientId patientName) 500
        | resp_declined =>
            alert ("Video call request declined for " +:+ patientName +:+ ".")
        end)
       (λ e,
          console_error "Error responding to video call request:";;
          alert "Failed to respond to video call request. Please try again."))
    (set_page (setVideoCallLoading None)).

(** [endVideoCall()] *)
Definition endVideoCall (now : Timestamp) : M State unit :=
  let* p := get_page in
  match activeVideoCall p with
  | None => ret tt
  | Some a =>
      set_page (setVideoCallLoading (Some (call_sessionId a)));;
      finally
        (try_catch
           (updateDoc_session (call_sessionId a) (write_call_ended now);;
            set_page (setActiveVideoCall None))
           (λ e,
              console_error "Error ending video call:";;
              alert "Failed to end video call properly."))
        (set_page (setVideoCallLoading None))
  end.

(** ** What the page renders *)

Inductive Click :=
  | AcceptBooking (sessionId : string)
  | DeclineBooking (sessionId : string)
  | AcceptCall (sessionId patientId patientName : string)
  | DeclineCall (sessionId patientId : string)
  | StartCall (sessionId patientId patientName : string)
  | EndCall
  | MarkComplete (sessionId : string).

Global Instance Click_eq_dec : EqDecision Click.
Proof. solve_decision. Defined.

(** [session.patientName || patient?.name || 'Patient'] *)
Definition display_name (p : State) (s : Session) : string :=
  if truthy_opt (patientName s) then default "Patient" (patientName s)
  else
    match patients p !! patientId s ≫= patient_name with
    | Some n => if truthy n then n else "Patient"
    | None => "Patient"
    end.

(** The buttons of the card of one session that can be pressed: those
    that are rendered and not [disabled]. *)
Definition session_buttons (p : State) (x : Local Session) : list Click :=
  let id := x.1 in
  let s := x.2 in
  match status s with
  | pending =>
      if same_id (updating p) id then []
      else [AcceptBooking id; DeclineBooking id]
  | confirmed =>
      (if request_pending s && negb (same_id (videoCallLoading p) id)
       then [AcceptCall id (patientId s) (display_name p s);
             DeclineCall id (patientId s)]
       else [])
      ++ (if same_id (call_sessionId <$> activeVideoCall p) id
          then if same_id (videoCallLoading p) id then [] else [EndCall]
          else if same_id (videoCallLoading p) id
                  || same_id (updating p) id
                  || request_pending s
               then []
               else [StartCall id (patientId s) (display_name p s)])
      ++ (if same_id (updating p) id || same_id (videoCallLoading p) id
          then []
          else [MarkComplete id])
  | completed | cancelled => []
  end.

(** No card is rendered while the sessions load, nor while there is no
    user or no session; the call component, rendered while a call is
    active, ends the call through [onCallEnd]. *)
Definition buttons (p : State) : list Click :=
  if loading p then []
  else
    match user p, sessions p with
    | Some u, _ :: _ =>
        if truthy (user_id u) then
          (sessions p ≫= session_buttons p)
          ++ (if activeVideoCall p is Some _ then [EndCall] else [])
        else []
    | _, _ => []
    end.

(** The session a button of the call negotiation acts on. *)
Definition call_session (k : Click) : option string :=
  match k with
  | AcceptCall id _ _ | DeclineCall id _ | StartCall id _ _ => Some id
  | AcceptBooking _ | DeclineBooking _ | MarkComplete _ | EndCall => None
  end.

(** What a press runs. *)
Definition press (authToken : string) (answer : ProviderAnswer)
    (noteId : string) (now : Timestamp) (k : Click) : M State unit :=
  match k with
  | AcceptBooking id => updateSessionStatus noteId now id to_confirmed
  | DeclineBooking id => updateSessionStatus noteId now id to_cancelled
  | MarkComplete id => updateSessionStatus noteId now id to_completed
  | AcceptCall id pid name =>
      respondToVideoCallRequest now id resp_accepted pid name
  | DeclineCall id pid =>
      respondToVideoCallRequest now id resp_declined pid EmptyString
  | StartCall id pid name => startVideoCall authToken answer now id pid name
  | EndCall => endVideoCall now
  end.

(** The status a button of a booking asks for, and for which session. *)
Definition status_change (k : Click) : option (string * NewStatus) :=
  match k with
  | AcceptBooking id => Some (id, to_confirmed)
  | DeclineBooking id => Some (id, to_cancelled)
  | MarkComplete id => Some (id, to_completed)
  | AcceptCall _ _ _ | DeclineCall _ _ | StartCall _ _ _ | EndCall => None
  end.

(** A timer of the page fires. *)
Definition fire (authToken : string) (answer : ProviderAnswer)
    (now : Timestamp) (t : Task) : M State unit :=
  match t with
  | StartVideoCall id pid name =>
      startVideoCall authToken answer now id pid name
  | LoadSlots => ret tt
  end.

(** ** Loading the sessions *)

Definition setLoading (b : bool) (p : State) : State :=
  {| user := user p; sessions := sessions p; loading := b;
     patients := patients p;
     sessionNotes := sessionNotes p; updating := updating p;
     activeVideoCall := activeVideoCall p;
     videoCallLoading := videoCallLoading p |}.

Definition setPatients (m : gmap string Patient) (p : State) : State :=
  {| user := user p; sessions := sessions p; loading := loading p;
     patients := m;
     sessionNotes := sessionNotes p; updating := updating p;
     activeVideoCall := activeVideoCall p;
     videoCallLoading := videoCallLoading p |}.

(** The state of the page when it is mounted. *)
Definition initial (u : option User) : State :=
  {| user := u; sessions := []; loading := true; patients := ∅;
     sessionNotes := ∅; updating := None; activeVideoCall := None;
     videoCallLoading := None |}.

(** [query(sessionsRef, where('therapistId', '==', user.id))] *)
Definition query_sessions (uid : string) (d : Firestore)
    : list (Local Session) :=
  filter (λ x : Local Session, therapistId x.2 = uid)
    (map_to_list (Db.sessions d)).

(** The effect that loads the sessions, run to its end (it is not
    cancelled by a change of the user).  The sessions are read once, with
    [getDocs].  [sort] is the sort by date, which depends on how the
    browser reads the dates of the sessions; [users] is what the collection
    [users] holds of the patients. *)
Definition load (sort : list (Local Session) → list (Local Session))
    (users : gmap string Patient) : M State unit :=
  let* p := get_page in
  match user p with
  | Some u =>
      if truthy (user_id u) then
        finally
          (try_catch
             (let* d := get_db in
              let sessionData := sort (query_sessions (user_id u) d) in
              set_page (setSessions (λ _, sessionData));;
              (* Fetch patient details for all unique patients *)
              let patientIds :=
                (λ x : Local Session, patientId x.2) <$> sessionData in
              set_page (setPatients
                          (filter (λ kv : string * Patient,
                                     kv.1 ∈ patientIds) users)))
             (λ e, console_error "Error loading sessions:"))
          (set_page (setLoading false))
      else ret tt
  | None => ret tt
  end.

End TherapistSessions.

(** * pages/therapist/Sessions.tsx, the version without video calls

    The repository holds a second version of the page (among its unnamed
    files): the same status handler, without the release of the slot. *)

Module TherapistSessionsOld.

Record State := {
  user : option User;
  sessions : list (Local Session);
  loading : bool;
  sessionNotes : gmap string string;
  updating : option string }.

Definition setSessions (f : list (Local Session) → list (Local Session))
    (p : State) : State :=
  {| user := user p; sessions := f (sessions p); loading := loading p;
     sessionNotes := sessionNotes p; updating := updating p |}.

Definition setUpdating (u : option string) (p : State) : State :=
  {| user := user p; sessions := sessions p; loading := loading p;
     sessionNotes := sessionNotes p; updating := u |}.

Definition save_notes (p : State) (noteId : string) (now : Timestamp)
    (sessionId text : string) : M State unit :=
  match user p with
  | None => throw "TypeError: user is null"
  | Some u =>
      match find_session sessionId (sessions p) with
      | None => throw "Unsupported field value: undefined"
      | Some s =>
          addDoc_note noteId
            {| note_sessionId := sessionId;
               note_therapistId := user_id u;
               note_patientId := patientId s;
               content := text;
               note_createdAt := now |}
      end
  end.

Definition updateSessionStatus (noteId : string) (now : Timestamp)
    (sessionId : string) (newStatus : NewStatus) : M State unit :=
  set_page (setUpdating (Some sessionId));;
  finally
    (try_catch
       (let* p := get_page in
        updateDoc_session sessionId (write_status newStatus now);;
        set_page (setSessions
                    (map_session sessionId (set_status (status_of newStatus))));;
        match newStatus, sessionNotes p !! sessionId with
        | to_completed, Some text =>
            if truthy text then save_notes p noteId now sessionId text
            else ret tt
        | _, _ => ret tt
        end)
       (λ e,
          console_error "Error updating session:";;
          alert "Failed to update session status"))
    (set_page (setUpdating None)).

Inductive Click :=
  | AcceptBooking (sessionId : string)
  | DeclineBooking (sessionId : string)
  | MarkComplete (sessionId : string).

Global Instance Click_eq_dec : EqDecision Click.
Proof. solve_decision. Defined.

Definition session_buttons (p : State) (x : Local Session) : list Click :=
  let id := x.1 in
  match status x.2 with
  | pending =>
      if same_id (updating p) id then []
      else [AcceptBooking id; DeclineBooking id]
  | confirmed =>
      if same_id (updating p) id then [] else [MarkComplete id]
  | completed | cancelled => []
  end.

(** No card is rendered while the sessions load. *)
Definition buttons (p : State) : list Click :=
  if loading p then [] else sessions p ≫= session_buttons p.

Definition press (noteId : string) (now : Timestamp) (k : Click)
    : M State unit :=
  match k with
  | AcceptBooking id => updateSessionStatus noteId now id to_confirmed
  | DeclineBooking id => updateSessionStatus noteId now id to_cancelled
  | MarkComplete id => updateSessionStatus noteId now id to_completed
  end.

End TherapistSessionsOld.

(** * pages/patient/Sessions.tsx *)

(** [{ status: 'pending', requestedAt: new Date(), requestedBy }]: the
    whole [videoCallRequest] field is replaced. *)
Definition write_request (uid : string) (now : Timestamp) (s : Session)
    : Session :=
  set_videoCallRequest
    (Some {| request_status := requested;
             requestedAt := Some now;
             respondedAt := None;
             requestedBy := Some uid |}) s.

(** The cooldown test of the page: [requestedAt < fiveMinutesAgo], with
    [fiveMinutesAgo = new Date(Date.now() - 5 * 60 * 1000)].  The test is
    made while the page is rendered: [rendered] is what [Date.now()] gives
    then.  A request without date gives an invalid date, which compares
    false. *)
Definition canRequestAgain (rendered : Timestamp) (q : VideoCallRequest)
    : bool :=
  match requestedAt q with
  | Some t => bool_decide (t < rendered - 5 * 60 * 1000)
  | None => false
  end.

(** [session.meetingId || session.videoCallRoomId] *)
Definition stored_room (s : Session) : option string :=
  if truthy_opt (meetingId s) then meetingId s
  else if truthy_opt (videoCallRoomId s) then videoCallRoomId s
  else None.

Module PatientSessions.

Record TherapistInfo := { info_name : option string }.

Record ActiveVideoCall := {
  call_sessionId : string;
  call_therapistName : string;
  call_therapistId : string;
  call_meetingId : string }.

Record State := {
  user : option User;
  sessions : list (Local Session);
  loading : bool;
  therapists : gmap string TherapistInfo;
  activeVideoCall : option ActiveVideoCall;
  requestingVideoCall : option string;
  roomIdInput : gmap string string }.

Definition setSessions (f : list (Local Session) → list (Local Session))
    (p : State) : State :=
  {| user := user p; sessions := f (sessions p); loading := loading p;
     therapists := therapists p; activeVideoCall := activeVideoCall p;
     requestingVideoCall := requestingVideoCall p;
     roomIdInput := roomIdInput p |}.

Definition setActiveVideoCall (a : option ActiveVideoCall) (p : State)
    : State :=
  {| user := user p; sessions := sessions p; loading := loading p;
     therapists := therapists p; activeVideoCall := a;
     requestingVideoCall := requestingVideoCall p;
     roomIdInput := roomIdInput p |}.

Definition setRequestingVideoCall (r : option string) (p : State) : State :=
  {| user := user p; sessions := sessions p; loading := loading p;
     therapists := therapists p; activeVideoCall := activeVideoCall p;
     requestingVideoCall := r;
     roomIdInput := roomIdInput p |}.

(** [requestVideoCall(sessionId, therapistId, therapistName)].  Firestore
    rejects the [undefined] that [user?.id] is without user. *)
Definition requestVideoCall (now : Timestamp)
    (sessionId therapistId therapistName : string) : M State unit :=
  set_page (setRequestingVideoCall (Some sessionId));;
  finally
    (try_catch
       (let* p := get_page in
        match user p with
        | None => throw "Unsupported field value: undefined"
        | Some u =>
            updateDoc_session sessionId (write_request (user_id u) now);;
            set_page (setSessions
                        (map_session sessionId
                           (write_request (user_id u) now)));;
            alert ("Video call request sent to " +:+ therapistName
                   +:+ "! They will receive a notification and can accept or decline your request.")
        end)
       (λ e,
          console_error "Error requesting video call:";;
          alert "Failed to send video call request. Please try again."))
    (set_page (setRequestingVideoCall None)).

(** [joinVideoCall(sessionId, therapistId, therapistName, meetingId)] *)
Definition joinVideoCall
    (sessionId therapistId therapistName meetingId : string)
    : M State unit :=
  set_page (setActiveVideoCall
              (Some {| call_sessionId := sessionId;
                       call_therapistName := therapistName;
                       call_therapistId := therapistId;
                       call_meetingId := meetingId |})).

(** [endVideoCall()] *)
Definition endVideoCall : M State unit :=
  set_page (setActiveVideoCall None).

(** ** What the page renders *)

Inductive Click :=
  | RequestCall (sessionId therapistId therapistName : string)
  | JoinCall (sessionId therapistId therapistName meetingId : string)
  | EndCall.

Global Instance Click_eq_dec : EqDecision Click.
Proof. solve_decision. Defined.

(** [session.therapistName || therapists[session.therapistId]?.name ||
    'Therapist'] *)
Definition display_name (p : State) (s : Session) : string :=
  if truthy_opt (therapistName s) then default "Therapist" (therapistName s)
  else
    match therapists p !! therapistId s ≫= info_name with
    | Some n => if truthy n then n else "Therapist"
    | None => "Therapist"
    end.

(** The join button: with the room of the session when it has one, else
    with the room typed in, if any. *)
Definition join_buttons (p : State) (x : Local Session) : list Click :=
  let id := x.1 in
  let s := x.2 in
  match stored_room s with
  | Some room => [JoinCall id (therapistId s) (display_name p s) room]
  | None =>
      match roomIdInput p !! id with
      | Some room =>
          if truthy room
          then [JoinCall id (therapistId s) (display_name p s) room]
          else []
      | None => []
      end
  end.

Definition request_button (p : State) (x : Local Session) : Click :=
  RequestCall x.1 (therapistId x.2) (display_name p x.2).

(** The buttons of the card of one session that can be pressed, as the
    render made at the time [rendered] computes them. *)
Definition session_buttons (p : State) (rendered : Timestamp)
    (x : Local Session) : list Click :=
  let id := x.1 in
  let s := x.2 in
  match status s with
  | confirmed =>
      match videoCallRequest s with
      | None =>
          (* No request sent yet - show request button *)
          if same_id (requestingVideoCall p) id then []
          else [request_button p x]
      | Some q =>
          match request_status q with
          | requested =>
              (* Request pending - check if 5 minutes have passed *)
              if canRequestAgain rendered q then
                if same_id (requestingVideoCall p) id then []
                else [request_button p x]
              else []
          | accepted => join_buttons p x
          | declined =>
              (* Request declined - allow new request *)
              [request_button p x]
          end
      end
  | pending | completed | cancelled => []
  end.

(** The buttons of the page as the render made at the time [rendered]
    computes them.  No card is rendered while the sessions load; the call
    component, rendered while a call with a room is joined, ends it through
    [onCallEnd]. *)
Definition buttons (p : State) (rendered : Timestamp) : list Click :=
  if loading p then []
  else
    (sessions p ≫= session_buttons p rendered)
    ++ (match activeVideoCall p with
        | Some a => if truthy (call_meetingId a) then [EndCall] else []
        | None => []
        end).

(** The session a button of the call negotiation acts on. *)
Definition call_session (k : Click) : option string :=
  match k with
  | RequestCall id _ _ | JoinCall id _ _ _ => Some id
  | EndCall => None
  end.

Definition press (now : Timestamp) (k : Click) : M State unit :=
  match k with
  | RequestCall id tid name => requestVideoCall now id tid name
  | JoinCall id tid name room => joinVideoCall id tid name room
  | EndCall => endVideoCall
  end.

(** ** Loading the sessions *)

Definition setLoading (b : bool) (p : State) : State :=
  {| user := user p; sessions := sessions p; loading := b;
     therapists := therapists p; activeVideoCall := activeVideoCall p;
     requestingVideoCall := requestingVideoCall p;
     roomIdInput := roomIdInput p |}.

Definition setTherapists (t : gmap string TherapistInfo) (p : State) : State :=
  {| user := user p; sessions := sessions p; loading := loading p;
     therapists := t; activeVideoCall := activeVideoCall p;
     requestingVideoCall := requestingVideoCall p;
     roomIdInput := roomIdInput p |}.

Definition setRoomIdInput (f : gmap string string → gmap string string)
    (p : State) : State :=
  {| user := user p; sessions := sessions p; loading := loading p;
     therapists := therapists p; activeVideoCall := activeVideoCall p;
     requestingVideoCall := requestingVideoCall p;
     roomIdInput := f (roomIdInput p) |}.

(** The state of the page when it is mounted. *)
Definition initial (u : option User) : State :=
  {| user := u; sessions := []; loading := true; therapists := ∅;
     activeVideoCall := None; requestingVideoCall := None;
     roomIdInput := ∅ |}.

(** [query(sessionsRef, where('patientId', '==', user.id))] *)
Definition query_sessions (uid : string) (d : Firestore)
    : list (Local Session) :=
  filter (λ x : Local Session, patientId x.2 = uid)
    (map_to_list (Db.sessions d)).

(** The effect that loads the sessions, run to its end (it is not
    cancelled by a change of the user).  The sessions are read once, with
    [getDocs]; the page does not subscribe to them.  [sort] is the sort by
    date, which depends on how the browser reads the dates of the sessions;
    [users] is what the collection [users] holds of the therapists. *)
Definition load (sort : list (Local Session) → list (Local Session))
    (users : gmap string TherapistInfo) : M State unit :=
  let* p := get_page in
  match user p with
  | Some u =>
      if truthy (user_id u) then
        finally
          (try_catch
             (let* d := get_db in
              let sessionData := sort (query_sessions (user_id u) d) in
              set_page (setSessions (λ _, sessionData));;
              (* Fetch therapist details for all unique therapists *)
              let therapistIds :=
                (λ x : Local Session, therapistId x.2) <$> sessionData in
              set_page (setTherapists
                          (filter (λ kv : string * TherapistInfo,
                                     kv.1 ∈ therapistIds) users)))
             (λ e, console_error "Error loading sessions:"))
          (set_page (setLoading false))
      else ret tt
  | None => ret tt
  end.

End PatientSessions.

(** * The patient's page on the screen

    The page computes its buttons while React renders it, from its state
    and from [Date.now()] at that moment.  React renders the page again
    when its state changes.  The page sets no timer and subscribes to
    nothing: neither the passing of time nor the writes of other clients
    change what it shows.  The user is the one logged in when the page was
    opened. *)

Module PatientScreen.
Import PatientSessions.

(** A call of [requestVideoCall] that waits for its [updateDoc]: the
    arguments of the call, the [user] the handler holds, and the
    [new Date()] of the fields it writes. *)
Record Sending := {
  sending_session : string;
  sending_therapistName : string;
  sending_by : User;
  sending_at : Timestamp }.

(** The browser, the time of the last render, the time it is, and the
    requests that are on their way. *)
Record Screen := {
  shown : Client State;
  renderedAt : Timestamp;
  clock : Timestamp;
  sending : list Sending }.

(** The buttons on the screen are those of the last render. *)
Definition buttons (v : Screen) : list Click :=
  PatientSessions.buttons (page (shown v)) (renderedAt v).

(** The card of a session has the input of a room id when its request is
    accepted and the session stores no room. *)
Definition room_input (x : Local Session) : list string :=
  match status x.2, videoCallRequest x.2 with
  | confirmed, Some q =>
      match request_status q, stored_room x.2 with
      | accepted, None => [x.1]
      | _, _ => []
      end
  | _, _ => []
  end.

Definition room_inputs (v : Screen) : list string :=
  if loading (page (shown v)) then []
  else sessions (page (shown v)) ≫= room_input.

(** Time passes. *)
Definition wait (d : Z) (v : Screen) : Screen :=
  {| shown := shown v; renderedAt := renderedAt v; clock := clock v + d;
     sending := sending v |}.

(** Other clients write to the store, which becomes [d]. *)
Definition others (d : Firestore) (v : Screen) : Screen :=
  {| shown := {| db := d; page := page (shown v);
                 alerts := alerts (shown v); console := console (shown v);
                 timers := timers (shown v);
                 requests := requests (shown v) |};
     renderedAt := renderedAt v; clock := clock v; sending := sending v |}.

(** The state of the page has changed: the page is rendered again. *)
Definition shows (c : Client State) (l : list Sending) (v : Screen) : Screen :=
  {| shown := c; renderedAt := clock v; clock := clock v; sending := l |}.

(** A press runs its handler up to the first [await].  [joinVideoCall] and
    [endVideoCall] have none; [requestVideoCall] sets [requestingVideoCall]
    and calls [updateDoc], which without user rejects the [undefined] at
    once, so that the handler ends there. *)
Definition click (k : Click) (v : Screen) : Screen :=
  match k, user (page (shown v)) with
  | RequestCall id tid name, Some u =>
      shows (set_page (setRequestingVideoCall (Some id)) (shown v)).2
        (sending v ++ [{| sending_session := id;
                          sending_therapistName := name;
                          sending_by := u;
                          sending_at := clock v |}])
        v
  | _, _ => shows (press (clock v) k (shown v)).2 (sending v) v
  end.

(** The rest of [requestVideoCall]: the write arrives, or is rejected,
    and the handler goes on at the time [now]. *)
Definition settle (now : Timestamp) (t : Sending) : M State unit :=
  finally
    (try_catch
       (updateDoc_session (sending_session t)
          (write_request (user_id (sending_by t)) (sending_at t));;
        set_page (setSessions
                    (map_session (sending_session t)
                       (write_request (user_id (sending_by t)) now)));;
        alert ("Video call request sent to " +:+ sending_therapistName t
               +:+ "! They will receive a notification and can accept or decline your request."))
       (λ e,
          console_error "Error requesting video call:";;
          alert "Failed to send video call request. Please try again."))
    (set_page (setRequestingVideoCall None)).

(** [setRoomIdInput(prev => ({ ...prev, [session.id]: e.target.value }))] *)
Definition typeRoomId (id text : string) : M State unit :=
  set_page (setRoomIdInput (insert id text)).

(** What happens to the page once it is loaded. *)
Inductive step : Screen → Screen → Prop :=
  | step_wait v d : 0 ≤ d → step v (wait d v)
  | step_others v d : step v (others d v)
  | step_click v k : k ∈ buttons v → step v (click k v)
  | step_settle v i t :
      sending v !! i = Some t →
      step v (shows (settle (clock v) t (shown v)).2 (delete i (sending v)) v)
  | step_type v id text :
      id ∈ room_inputs v →
      step v (shows (typeRoomId id text (shown v)).2 (sending v) v).

End PatientScreen.

(** * hooks/useTherapistSlots.ts and pages/therapist/Slots.tsx *)

Module TherapistSlots.

Record State := {
  slots : list (Local Slot);
  loading : bool;
  error : option string }.

Definition setSlots (f : list (Local Slot) → list (Local Slot))
    (p : State) : State :=
  {| slots := f (slots p); loading := loading p; error := error p |}.

(** [removeSlot(slotId)] *)
Definition removeSlot (slotId : string) : M State unit :=
  deleteDoc_slot slotId;;
  set_page (setSlots (filter (λ s : Local Slot, s.1 ≠ slotId))).

(** [handleRemoveSlot(slotId)]; [confirmed] is the answer to the
    [confirm] dialog. *)
Definition handleRemoveSlot (answer : bool) (slotId : string)
    : M State unit :=
  if answer then
    try_catch (removeSlot slotId)
      (λ e,
         console_error "Error removing slot:";;
         alert "Failed to remove slot. Please try again.")
  else ret tt.

(** The remove buttons that can be pressed: [disabled={slot.isBooked}],
    and no list while the slots load. *)
Definition remove_buttons (p : State) : list string :=
  if loading p then []
  else fst <$> filter (λ s : Local Slot, isBooked s.2 = false) (slots p).

End TherapistSlots.

(** * Two bookings of one slot

    [bookSession] awaits twice: the [addDoc] of the session and the
    [updateDoc] of the slot.  Another client can write to the database
    between the two.  A booking that has passed the guard of [bookSession]
    is followed here from await to await, and two of them are run in any
    order of their steps. *)

Module Race.

Inductive Pc := AtAddDoc | AtUpdateDoc | Succeeded | Failed.

Global Instance Pc_eq_dec : EqDecision Pc.
Proof. solve_decision. Defined.

Record Booking := {
  patient : User;
  therapist : Therapist;
  slot : Local Slot;
  sessionId : string;
  clock : Timestamp;
  pc : Pc }.

Definition at_pc (q : Pc) (b : Booking) : Booking :=
  {| patient := patient b; therapist := therapist b; slot := slot b;
     sessionId := sessionId b; clock := clock b; pc := q |}.

Definition session_of (b : Booking) : Session :=
  Therapists.new_session (patient b) (therapist b) (slot b) (clock b).

(** One step of a booking: up to its next await. *)
Definition advance (b : Booking) (d : Firestore) : Booking * Firestore :=
  match pc b with
  | AtAddDoc =>
      (at_pc AtUpdateDoc b,
       with_sessions (insert (sessionId b) (session_of b)) d)
  | AtUpdateDoc =>
      match Db.therapistSlots d !! (slot b).1 with
      | Some s =>
          (at_pc Succeeded b,
           with_slots
             (insert (slot b).1
                (Therapists.mark_booked (user_id (patient b)) (clock b) s))
             d)
      | None => (at_pc Failed b, d)
      end
  | Succeeded | Failed => (b, d)
  end.

Inductive Turn := First | Second.

Record World := {
  first : Booking;
  second : Booking;
  store : Firestore }.

Definition turn (t : Turn) (w : World) : World :=
  match t with
  | First =>
      let r := advance (first w) (store w) in
      {| first := r.1; second := second w; store := r.2 |}
  | Second =>
      let r := advance (second w) (store w) in
      {| first := first w; second := r.1; store := r.2 |}
  end.

Definition run (schedule : list Turn) (w : World) : World :=
  foldl (λ w t, turn t w) w schedule.

Definition finished (b : Booking) : Prop :=
  pc b = Succeeded ∨ pc b = Failed.

(** The booking [bookSession] starts on a page that passes its guard. *)
Definition start (u : User) (t : Therapist) (sl : Local Slot)
    (newId : string) (now : Timestamp) : Booking :=
  {| patient := u; therapist := t; slot := sl; sessionId := newId;
     clock := now; pc := AtAddDoc |}.

(** What holds between the steps of two bookings [b1] and [b2] of one
    slot. *)
Record Inv (b1 b2 : Booking) (w : World) : Prop := {
  inv_first : at_pc (pc b1) (first w) = b1;
  inv_second : at_pc (pc b2) (second w) = b2;
  inv_slot : is_Some (Db.therapistSlots (store w) !! (slot b1).1);
  inv_first_alive : pc (first w) ≠ Failed;
  inv_second_alive : pc (second w) ≠ Failed;
  inv_first_session :
    pc (first w) ≠ AtAddDoc →
    Db.sessions (store w) !! sessionId b1 = Some (session_of b1);
  inv_second_session :
    pc (second w) ≠ AtAddDoc →
    Db.sessions (store w) !! sessionId b2 = Some (session_of b2);
  inv_booked :
    pc (first w) = Succeeded ∨ pc (second w) = Succeeded →
    ∃ s, Db.therapistSlots (store w) !! (slot b1).1 = Some s
         ∧ isBooked s = true
         ∧ (bookedBy s = Some (user_id (patient b1))
            ∨ bookedBy s = Some (user_id (patient b2))) }.

End Race.

(** * The order of the status *)

(** The moves of the status that the buttons make. *)
Inductive move : SessionStatus → SessionStatus → Prop :=
  | move_confirm : move pending confirmed
  | move_decline : move pending cancelled
  | move_complete : move confirmed completed.

(** * Every write to the sessions and the slots

    A handler of some page runs, on any state of that page.  The other
    writes of the application (the creation of a slot, the registration and
    profile pages) leave the sessions alone; they are the last rule. *)
Inductive db_step : Firestore → Firestore → Prop :=
  | db_bookSession (c : Client Therapists.State) newId now slot :
      db_step (db c) (db (Therapists.bookSession newId now slot c).2)
  | db_dashboard_bookSession (c : Client Dashboard.State) newId now slot :
      db_step (db c) (db (Dashboard.bookSession newId now slot c).2)
  | db_therapist_press (c : Client TherapistSessions.State)
        authToken answer noteId now k :
      db_step (db c)
        (db (TherapistSessions.press authToken answer noteId now k c).2)
  | db_therapist_fire (c : Client TherapistSessions.State)
        authToken answer now t :
      db_step (db c) (db (TherapistSessions.fire authToken answer now t c).2)
  | db_therapist_old_press (c : Client TherapistSessionsOld.State)
        noteId now k :
      db_step (db c) (db (TherapistSessionsOld.press noteId now k c).2)
  | db_patient_press (c : Client PatientSessions.State) now k :
      db_step (db c) (db (PatientSessions.press now k c).2)
  | db_removeSlot (c : Client TherapistSlots.State) answer slotId :
      db_step (db c) (db (TherapistSlots.handleRemoveSlot answer slotId c).2)
  | db_other d d' :
      Db.sessions d' = Db.sessions d →
      db_step d d'.

(** The database starts without session. *)
Definition reachable (d : Firestore) : Prop :=
  ∃ d0, Db.sessions d0 = ∅ ∧ rtc db_step d0 d.

(** A session whose call is active has a room. *)
Definition active_has_room (s : Session) : Prop :=
  videoCallStatus s = Some active →
  ∃ room, videoCallRoomId s = Some room ∧ meetingId s = Some room
          ∧ truthy room = true.

Definition call_invariant (d : Firestore) : Prop :=
  map_Forall (λ _ s, active_has_room s) (Db.sessions d).

(** A session whose call is active has an accepted request. *)
Definition active_is_accepted (s : Session) : Prop :=
  videoCallStatus s = Some active →
  ∃ q, videoCallRequest s = Some q ∧ request_status q = accepted.

(** * hooks/useTherapistSlots.ts: loading and adding slots

    The hook is called with [user?.id] and the selected date; [ymd] is
    [formatDateForFirestore(date)].  The slots are sorted with
    [localeCompare], which depends on the locale of the browser: the sort
    is the argument [sort] of the functions below. *)

Module UseTherapistSlots.
Import TherapistSlots.

Definition setLoading (b : bool) (p : State) : State :=
  {| slots := slots p; loading := b; error := error p |}.

Definition setError (e : option string) (p : State) : State :=
  {| slots := slots p; loading := loading p; error := e |}.

(** [e?.message || fallback] *)
Definition message_or (fallback e : string) : string :=
  if truthy e then e else fallback.

(** The effect that loads the slots of the day, run to its end (it is not
    cancelled by a change of the therapist or the day). *)
Definition load (sort : list (Local Slot) → list (Local Slot))
    (therapistId ymd : option string) : M State unit :=
  match therapistId, ymd with
  | Some tid, Some day =>
      if truthy tid && truthy day then
        set_page (setLoading true);;
        set_page (setError None);;
        finally
          (try_catch
             (let* d := get_db in
              set_page (setSlots (λ _, sort (Therapists.query_slots tid day d))))
             (λ e, set_page (setError (Some (message_or "Failed to load slots" e)))))
          (set_page (setLoading false))
      else ret tt
  | _, _ => ret tt
  end.

(** The slots of the therapist on that day with the same time range. *)
Definition existing_slots (tid day range : string) (d : Firestore)
    : list (Local Slot) :=
  filter (λ x : Local Slot, timeRange x.2 = range)
    (Therapists.query_slots tid day d).

(** The document [addSlot] adds; its [createdAt], which no code reads, is
    left out. *)
Definition new_slot (tid day range : string) : Slot :=
  {| slot_therapistId := tid; slot_date := day; timeRange := range;
     isBooked := false; bookedBy := None; bookedAt := None |}.

Definition missing_ids {A} : M State A :=
  console_error "Missing therapistId or date:";;
  throw "Missing therapist ID or date".

(** [addSlot(timeRange)]; [newId] is the id Firestore gives the slot.  The
    pause of 500 ms between the [addDoc] and the second query changes
    nothing of this browser and is not written. *)
Definition addSlot (sort : list (Local Slot) → list (Local Slot))
    (therapistId ymd : option string) (newId : string) (range : string)
    : M State unit :=
  match therapistId, ymd with
  | Some tid, Some day =>
      if truthy tid && truthy day then
        try_catch
          (let* d := get_db in
           (* Check if slot already exists *)
           match existing_slots tid day range d with
           | _ :: _ =>
               throw "A slot with this time range already exists for this date"
           | [] =>
               addDoc_slot newId (new_slot tid day range);;
               (* refresh by re-querying *)
               let* d' := get_db in
               set_page (setSlots
                           (λ _, sort (Therapists.query_slots tid day d')))
           end)
          (λ e, console_error "Error in addSlot:";; throw e)
      else missing_ids
  | _, _ => missing_ids
  end.

End UseTherapistSlots.

(** * pages/therapist/Slots.tsx: the dialog that adds a slot *)

(** A handler of a hook, run inside the page that uses the hook. *)
Definition zoom {P Q A} (get : Q → P) (set : P → Q → Q) (m : M P A)
    : M Q A :=
  λ c,
    let r := m {| db := db c; page := get (page c); alerts := alerts c;
                  console := console c; timers := timers c;
                  requests := requests c |} in
    (r.1,
     {| db := db r.2; page := set (page r.2) (page c); alerts := alerts r.2;
        console := console r.2; timers := timers r.2;
        requests := requests r.2 |}).

Module SlotsPage.

Record State := {
  user : option User;
  date : option string;
  isAddDialogOpen : bool;
  startTime : string;
  endTime : string;
  adding : bool;
  hook : TherapistSlots.State }.

Definition setIsAddDialogOpen (b : bool) (p : State) : State :=
  {| user := user p; date := date p; isAddDialogOpen := b;
     startTime := startTime p; endTime := endTime p; adding := adding p;
     hook := hook p |}.

Definition setStartTime (t : string) (p : State) : State :=
  {| user := user p; date := date p; isAddDialogOpen := isAddDialogOpen p;
     startTime := t; endTime := endTime p; adding := adding p;
     hook := hook p |}.

Definition setEndTime (t : string) (p : State) : State :=
  {| user := user p; date := date p; isAddDialogOpen := isAddDialogOpen p;
     startTime := startTime p; endTime := t; adding := adding p;
     hook := hook p |}.

Definition setAdding (b : bool) (p : State) : State :=
  {| user := user p; date := date p; isAddDialogOpen := isAddDialogOpen p;
     startTime := startTime p; endTime := endTime p; adding := b;
     hook := hook p |}.

Definition setHook (h : TherapistSlots.State) (p : State) : State :=
  {| user := user p; date := date p; isAddDialogOpen := isAddDialogOpen p;
     startTime := startTime p; endTime := endTime p; adding := adding p;
     hook := h |}.

Definition timeOptions : list string :=
  ["08:00"; "09:00"; "10:00"; "11:00"; "12:00";
   "13:00"; "14:00"; "15:00"; "16:00"; "17:00"; "18:00"].

(** [`${startTime} - ${endTime}`] *)
Definition time_range (start stop : string) : string :=
  start +:+ " - " +:+ stop.

(** [addSlot] of the hook, called with [user?.id] and the date. *)
Definition addSlot (sort : list (Local Slot) → list (Local Slot))
    (newId range : string) : M State unit :=
  let* p := get_page in
  zoom hook setHook
    (UseTherapistSlots.addSlot sort (user_id <$> user p) (date p) newId range).

(** [handleAddSlot()] *)
Definition handleAddSlot (sort : list (Local Slot) → list (Local Slot))
    (newId : string) : M State unit :=
  let* p := get_page in
  if negb (truthy (startTime p)) || negb (truthy (endTime p)) then
    alert "Please select both start and end times."
  else if negb (truthy_opt (user_id <$> user p)) then
    alert "User not authenticated. Please log in again."
  else if negb (bool_decide (is_Some (date p))) then
    alert "Please select a date first."
  else
    set_page (setAdding true);;
    finally
      (try_catch
         (addSlot sort newId (time_range (startTime p) (endTime p));;
          set_page (setIsAddDialogOpen false);;
          set_page (setStartTime EmptyString);;
          set_page (setEndTime EmptyString);;
          alert "Time slot added successfully!")
         (λ e,
            console_error "Error adding slot:";;
            alert ("Error: "
                   +:+ UseTherapistSlots.message_or
                         "Failed to add slot. Please try again." e)))
      (set_page (setAdding false)).

(** ** What the dialog renders *)

Inductive Click :=
  | OpenDialog
  | SelectStart (t : string)
  | SelectEnd (t : string)
  | CancelDialog
  | DismissDialog
  | AddSlot.

Global Instance Click_eq_dec : EqDecision Click.
Proof. solve_decision. Defined.

(** [disabled={startTime && time <= startTime}] on the options of the end
    time. *)
Definition end_disabled (p : State) (t : string) : bool :=
  truthy (startTime p) && String.leb t (startTime p).

(** What can be pressed: the button that opens the dialog; in the open
    dialog, every start time, the end times that are not disabled, the
    cancel button, the dismissal of the dialog ([onOpenChange]), and the
    add button unless [!startTime || !endTime || adding]. *)
Definition buttons (p : State) : list Click :=
  OpenDialog
  :: (if isAddDialogOpen p then
        (SelectStart <$> timeOptions)
        ++ (SelectEnd <$> filter (λ t, end_disabled p t = false) timeOptions)
        ++ [CancelDialog; DismissDialog]
        ++ (if negb (truthy (startTime p)) || negb (truthy (endTime p))
               || adding p
            then [] else [AddSlot])
      else []).

Definition press (sort : list (Local Slot) → list (Local Slot))
    (newId : string) (k : Click) : M State unit :=
  match k with
  | OpenDialog => set_page (setIsAddDialogOpen true)
  | SelectStart t => set_page (setStartTime t)
  | SelectEnd t => set_page (setEndTime t)
  | CancelDialog =>
      set_page (setIsAddDialogOpen false);;
      set_page (setStartTime EmptyString);;
      set_page (setEndTime EmptyString)
  | DismissDialog => set_page (setIsAddDialogOpen false)
  | AddSlot => handleAddSlot sort newId
  end.

End SlotsPage.

(** No two slots of one therapist have the same day and time range. *)
Definition no_duplicate_slots (d : Firestore) : Prop :=
  ∀ i j s s',
    Db.therapistSlots d !! i = Some s →
    Db.therapistSlots d !! j = Some s' →
    slot_therapistId s = slot_therapistId s' →
    slot_date s = slot_date s' →
    timeRange s = timeRange s' →
    i = j.

(** * components/VideoSDKCall.tsx: the component of a call *)

Module VideoSDKCall.

Inductive Role := as_patient | as_therapist.

Record Props := {
  participantName : string;
  participantRole : Role;
  isHost : bool;
  existingMeetingId : option string }.

Inductive PermissionStatus := checking | granted | denied.

Record State := {
  room : option string;
  permissionStatus : PermissionStatus;
  permissionDetails : bool * bool }.

(** [useState(existingMeetingId || null)] and the other initial states. *)
Definition initial (props : Props) : State :=
  {| room := if truthy_opt (existingMeetingId props)
             then existingMeetingId props else None;
     permissionStatus := checking;
     permissionDetails := (false, false) |}.

(** [requestMediaPermissions()]: [both] tells whether the browser gives
    microphone and camera together, [audioOnly] whether it gives the
    microphone alone.  The result is [(audio, video)]. *)
Definition requestMediaPermissions (both audioOnly : bool) : bool * bool :=
  if both then (true, true)
  else if audioOnly then (true, false)
  else (false, false).

(** [checkPermissions()], the effect run when the component mounts. *)
Definition checkPermissions (both audioOnly : bool) (st : State) : State :=
  let permissions := requestMediaPermissions both audioOnly in
  {| room := room st;
     permissionStatus :=
       if permissions.1 || permissions.2 then granted else denied;
     permissionDetails := permissions |}.

(** The name the participant has in the meeting. *)
Definition displayName (props : Props) : string :=
  match participantRole props with
  | as_therapist => "Dr. " +:+ participantName props
  | as_patient => participantName props
  end.

Inductive View :=
  | TokenNotConfigured
  | RequestingAccess
  | AccessRequired
  | Meeting (meetingId name : string)
  | JoinScreen (host : bool).

(** What the component shows; [Meeting] is the [MeetingProvider] with its
    [meetingId] and [name]. *)
Definition render (authToken : string) (props : Props) (st : State) : View :=
  if negb (truthy authToken) then TokenNotConfigured
  else
    match permissionStatus st with
    | checking => RequestingAccess
    | denied => AccessRequired
    | granted =>
        match room st with
        | Some m =>
            if truthy m then Meeting m (displayName props)
            else JoinScreen (isHost props)
        | None => JoinScreen (isHost props)
        end
    end.

End VideoSDKCall.

(** The call component as the therapist's page renders it. *)
Definition therapist_call_props (a : TherapistSessions.ActiveVideoCall)
    : VideoSDKCall.Props :=
  {| VideoSDKCall.participantName := TherapistSessions.call_patientName a;
     VideoSDKCall.participantRole := VideoSDKCall.as_patient;
     VideoSDKCall.isHost := true;
     VideoSDKCall.existingMeetingId := TherapistSessions.call_meetingId a |}.

(** The call component as the patient's page renders it. *)
Definition patient_call_props (a : PatientSessions.ActiveVideoCall)
    : VideoSDKCall.Props :=
  {| VideoSDKCall.participantName := PatientSessions.call_therapistName a;
     VideoSDKCall.participantRole := VideoSDKCall.as_therapist;
     VideoSDKCall.isHost := false;
     VideoSDKCall.existingMeetingId := Some (PatientSessions.call_meetingId a) |}.

(** * Concrete runs *)

(** A browser that has just opened a page on the database [d]. *)
Definition browser {P} (p : P) (d : Firestore) : Client P :=
  {| db := d; page := p; alerts := []; console := []; timers := [];
     requests := [] |}.

(** The browser [c] once the database has become [d]. *)
Definition sees {P} (d : Firestore) (c : Client P) : Client P :=
  {| db := d; page := page c; alerts := alerts c; console := console c;
     timers := timers c; requests := requests c |}.

(** The browser [c] once its timer [i] has run. *)
Definition take_timer {P} (i : nat) (c : Client P) : Client P :=
  {| db := db c; page := page c; alerts := alerts c; console := console c;
     timers := delete i (timers c); requests := requests c |}.

Module Scenario.

Definition ann : User := {| user_id := "ann"; user_name := "Ann" |}.
Definition bob : User := {| user_id := "bob"; user_name := "Bob" |}.
Definition tess : User := {| user_id := "tess"; user_name := "Tess" |}.
Definition dr_tess : Therapist :=
  {| therapist_id := "tess"; therapist_name := "Tess" |}.

Definition slot10 : Slot :=
  {| slot_therapistId := "tess"; slot_date := "2025-06-01";
     timeRange := "10:00 - 11:00";
     isBooked := false; bookedBy := None; bookedAt := None |}.

(** The therapist has opened one slot. *)
Definition db_open : Firestore :=
  {| Db.sessions := ∅;
     Db.therapistSlots := {[ "slot1" := slot10 ]};
     Db.sessionNotes := ∅ |}.

Definition finder (u : User) : Therapists.State :=
  {| Therapists.user := Some u;
     Therapists.selectedTherapist := Some dr_tess;
     Therapists.availableSlots := [];
     Therapists.booking := false |}.

(** Ann and Bob both look at the slots of that day. *)
Definition ann_looks : Client Therapists.State :=
  (Therapists.loadSlots (Some "2025-06-01") (browser (finder ann) db_open)).2.
Definition bob_looks : Client Therapists.State :=
  (Therapists.loadSlots (Some "2025-06-01") (browser (finder bob) db_open)).2.

(** Ann books the slot, then Bob books it from the list he still sees. *)
Definition ann_books : Outcome unit * Client Therapists.State :=
  Therapists.bookSession "sA" 1000 ("slot1", slot10) ann_looks.
Definition bob_books : Outcome unit * Client Therapists.State :=
  Therapists.bookSession "sB" 2000 ("slot1", slot10)
    (sees (db ann_books.2) bob_looks).

(** The same two bookings, step by step: both add their session before
    either writes the slot. *)
Definition ann_booking : Race.Booking :=
  Race.start ann dr_tess ("slot1", slot10) "sA" 1000.
Definition bob_booking : Race.Booking :=
  Race.start bob dr_tess ("slot1", slot10) "sB" 2000.
Definition interleaved : list Race.Turn :=
  [Race.First; Race.Second; Race.First; Race.Second].
Definition race : Race.World :=
  Race.run interleaved
    {| Race.first := ann_booking; Race.second := bob_booking;
       Race.store := db_open |}.

(** Tess, the therapist, has the page of her sessions open; it holds
    Ann's session as the database has it.  She accepts the booking and
    starts a video call, which no one has requested. *)
Definition ann_session : Session :=
  Therapists.new_session ann dr_tess ("slot1", slot10) 1000.

Definition tess_page (l : list (Local Session)) : TherapistSessions.State :=
  {| TherapistSessions.user := Some tess;
     TherapistSessions.sessions := l;
     TherapistSessions.loading := false;
     TherapistSessions.patients := ∅;
     TherapistSessions.sessionNotes := ∅;
     TherapistSessions.updating := None;
     TherapistSessions.activeVideoCall := None;
     TherapistSessions.videoCallLoading := None |}.

Definition tess_opens : Client TherapistSessions.State :=
  browser (tess_page [("sA", ann_session)]) (db ann_books.2).

Definition tess_accepts : Client TherapistSessions.State :=
  (TherapistSessions.press "token" (FetchFails "unused") "n1" 3000
     (TherapistSessions.AcceptBooking "sA") tess_opens).2.

Definition tess_starts : Client TherapistSessions.State :=
  (TherapistSessions.press "token" (Responds (Some "room1")) "n2" 4000
     (TherapistSessions.StartCall "sA" "ann" "Ann") tess_accepts).2.

(** What the database holds of Ann's session during the call. *)
Definition ann_session_in_call : Session :=
  write_call_started "room1" 4000 (write_status to_confirmed 3000 ann_session).

(** Tess opens the page again during the call, and starts the call again. *)
Definition tess_opens_again : Client TherapistSessions.State :=
  browser (tess_page [("sA", ann_session_in_call)]) (db tess_starts).

Definition tess_starts_again : Client TherapistSessions.State :=
  (TherapistSessions.press "token" (Responds (Some "room2")) "n3" 5000
     (TherapistSessions.StartCall "sA" "ann" "Ann") tess_opens_again).2.

(** Tess has the page of her slots open and removes the slot that Ann has
    booked. *)
Definition booked_slot : Slot := Therapists.mark_booked "ann" 1000 slot10.

Definition tess_slots : Client TherapistSlots.State :=
  browser {| TherapistSlots.slots := [("slot1", booked_slot)];
             TherapistSlots.loading := false;
             TherapistSlots.error := None |}
    (db ann_books.2).

Definition tess_removes : Outcome unit * Client TherapistSlots.State :=
  TherapistSlots.removeSlot "slot1" tess_slots.

(** Tess has the page open in a second tab, from before she accepted.  In
    the first tab she marks the session complete; in the second, which
    still holds the session as pending, she accepts the booking. *)
Definition tess_completes : Client TherapistSessions.State :=
  (TherapistSessions.press "token" (FetchFails "unused") "n4" 6000
     (TherapistSessions.MarkComplete "sA") tess_accepts).2.

Definition tess_second_tab : Client TherapistSessions.State :=
  sees (db tess_completes) tess_opens.

Definition tess_accepts_late : Outcome unit * Client TherapistSessions.State :=
  TherapistSessions.press "token" (FetchFails "unused") "n5" 7000
    (TherapistSessions.AcceptBooking "sA") tess_second_tab.

(** Tess declines Ann's booking instead. *)
Definition tess_declines : Outcome unit * Client TherapistSessions.State :=
  TherapistSessions.press "token" (FetchFails "unused") "n1" 3000
    (TherapistSessions.DeclineBooking "sA") tess_opens.

(** A page of slots with a free slot. *)
Definition tess_free_slots : Client TherapistSlots.State :=
  browser {| TherapistSlots.slots := [("slot1", slot10)];
             TherapistSlots.loading := false;
             TherapistSlots.error := None |}
    db_open.

(** Ann has the page of her sessions open, with her confirmed session, and
    asks for a video call. *)
Definition ann_confirmed : Session := write_status to_confirmed 3000 ann_session.

Definition ann_page (l : list (Local Session)) : PatientSessions.State :=
  {| PatientSessions.user := Some ann;
     PatientSessions.sessions := l;
     PatientSessions.loading := false;
     PatientSessions.therapists := ∅;
     PatientSessions.activeVideoCall := None;
     PatientSessions.requestingVideoCall := None;
     PatientSessions.roomIdInput := ∅ |}.

Definition ann_opens : Client PatientSessions.State :=
  browser (ann_page [("sA", ann_confirmed)]) (db tess_accepts).

Definition ann_requests : Client PatientSessions.State :=
  (PatientSessions.press 3500
     (PatientSessions.RequestCall "sA" "tess" "Tess") ann_opens).2.

(** The handler itself, run two minutes after the request. *)
Definition ann_asks_again : Outcome unit * Client PatientSessions.State :=
  PatientSessions.requestVideoCall (3500 + 2 * 60 * 1000)
    "sA" "tess" "Tess" ann_requests.

(** The session with Ann's request, made at 3500. *)
Definition ann_asks : Session := write_request "ann" 3500 ann_confirmed.

(** Tess sees the request. *)
Definition tess_is_asked : Client TherapistSessions.State :=
  browser (tess_page [("sA", ann_asks)]) (db ann_requests).

End Scenario.

(** * Further runs *)

(** A handler that always returns: no exception leaves it. *)
Definition returns {P} (m : M P unit) : Prop := ∀ c, (m c).1 = Returned tt.

Module Cases.
Import Scenario.

(** Ann presses the button again while her booking runs. *)
Definition ann_busy : Client Therapists.State :=
  browser {| Therapists.user := Some ann;
             Therapists.selectedTherapist := Some dr_tess;
             Therapists.availableSlots := [("slot1", slot10)];
             Therapists.booking := true |}
    db_open.

(** Tess removes the slot while Ann still has it in her list. *)
Definition ann_late : Client Therapists.State :=
  sees (db (TherapistSlots.removeSlot "slot1" tess_free_slots).2) ann_looks.

(** Ann has the same slot on her dashboard. *)
Definition ann_dashboard : Client Dashboard.State :=
  browser {| Dashboard.user := Some ann;
             Dashboard.selectedTherapist := Some dr_tess;
             Dashboard.selectedDate := Some "2025-06-01";
             Dashboard.availableSlots := [("slot1", slot10)];
             Dashboard.booking := false |}
    db_open.

(** Tess's pages on a database that does not hold Ann's session. *)
Definition tess_stale : Client TherapistSessions.State :=
  sees db_open tess_opens.
Definition tess_call_stale : Client TherapistSessions.State :=
  sees db_open tess_starts.

(** Tess has typed notes for Ann's confirmed session. *)
Definition tess_notes : Client TherapistSessions.State :=
  browser {| TherapistSessions.user := Some tess;
             TherapistSessions.sessions := [("sA", ann_confirmed)];
             TherapistSessions.loading := false;
             TherapistSessions.patients := ∅;
             TherapistSessions.sessionNotes := {[ "sA" := "Went well" ]};
             TherapistSessions.updating := None;
             TherapistSessions.activeVideoCall := None;
             TherapistSessions.videoCallLoading := None |}
    (db tess_accepts).

(** Ann's session once Tess has accepted her request. *)
Definition ann_accepted : Session := write_response resp_accepted 3600 ann_asks.

(** Ann's page on a database that does not hold her session. *)
Definition ann_stale : Client PatientSessions.State := sees db_open ann_opens.

(** Tess accepts Ann's request for a call; half a second later the timer
    runs [startVideoCall], and the provider cannot be reached. *)
Definition tess_accepts_call : Client TherapistSessions.State :=
  (TherapistSessions.press "token" (FetchFails "unused") "n1" 3600
     (TherapistSessions.AcceptCall "sA" "ann" "Ann") tess_is_asked).2.

Definition tess_call_fails : Client TherapistSessions.State :=
  (TherapistSessions.fire "token" (FetchFails "offline") 4100
     (StartVideoCall "sA" "ann" "Ann") (take_timer 0 tess_accepts_call)).2.

(** A browser that keeps the sessions in the order of the query. *)
Definition as_queried (l : list (Local Session)) : list (Local Session) := l.


(** Ann's page, with her request made at 3500, rendered at the time [r]. *)
Definition ann_screen (r : Timestamp) : PatientScreen.Screen :=
  {| PatientScreen.shown := ann_requests;
     PatientScreen.renderedAt := r;
     PatientScreen.clock := r;
     PatientScreen.sending := [] |}.

(** Ann opens the page of her sessions on the database [d]. *)

Definition ann_loads (d : Firestore) : Client PatientSessions.State :=
  (PatientSessions.load as_queried
     {[ "tess" := {| PatientSessions.info_name := Some "Tess" |} ]}
     (browser (PatientSessions.initial (Some ann)) d)).2.

(** Tess starts the call of the request she has accepted, and ends it. *)
Definition tess_starts_call : Client TherapistSessions.State :=
  (TherapistSessions.startVideoCall "token" (Responds (Some "room1")) 4200
     "sA" "ann" "Ann" (take_timer 0 tess_accepts_call)).2.

Definition tess_ends_call : Client TherapistSessions.State :=
  (TherapistSessions.endVideoCall 9000 tess_starts_call).2.

(** A browser that keeps the slots in the order of the query. *)
Definition unsorted (l : list (Local Slot)) : list (Local Slot) := l.

(** Tess's page of slots with the dialog open and the two times chosen. *)
Definition tess_dialog (start stop : string) : Client SlotsPage.State :=
  browser {| SlotsPage.user := Some tess;
             SlotsPage.date := Some "2025-06-01";
             SlotsPage.isAddDialogOpen := true;
             SlotsPage.startTime := start;
             SlotsPage.endTime := stop;
             SlotsPage.adding := false;
             SlotsPage.hook := page tess_free_slots |}
    db_open.

End Cases.

(** * Proofs *)

(** Unfolds the monad of a handler. *)
Ltac run_handler :=
  unfold bind, try_catch, finally, ret, throw, get_page, set_page, get_db,
    set_db, alert, console_error, setTimeout, http_request, getAuthToken,
    createMeeting, addDoc_session, addDoc_note, addDoc_slot,
    updateDoc_session, updateDoc_slot, deleteDoc_slot;
  cbn.

(** ** Booking *)

Lemma loadSlots_unbooked (c : Client Therapists.State) ds x :
  x ∈ Therapists.availableSlots (page (Therapists.loadSlots ds c).2) →
  x ∈ Therapists.availableSlots (page c)
  ∨ (isBooked x.2 = false ∧ Db.therapistSlots (db c) !! x.1 = Some x.2).
Proof.
  unfold Therapists.loadSlots. run_handler.
  destruct (Therapists.selectedTherapist (page c)) as [t|]; [|by left].
  destruct ds as [ds|]; [|by left].
  run_handler. unfold Therapists.query_slots.
  intros [Hfree [_ Hin]%list_elem_of_filter]%list_elem_of_filter.
  right. split; [done|].
  destruct x as [id s]. by apply elem_of_map_to_list.
Qed.

(** C1, as the code has it: a booking that passes the guard of
    [bookSession], on a slot whose document exists, succeeds whatever the
    [isBooked] of the slot: it adds a session with status [pending] and
    writes [isBooked = true] and [bookedBy = patient] on the slot; there is
    no conflict.  Only the list of the page is limited to free slots: a
    slot that [loadSlots] puts on it had [isBooked = false] in the database
    at that moment. *)
Theorem bookSession_does_not_check_the_slot
    (c : Client Therapists.State) newId now slot u t sl :
  Therapists.user (page c) = Some u →
  truthy (user_id u) = true →
  Therapists.selectedTherapist (page c) = Some t →
  Therapists.booking (page c) = false →
  Db.therapistSlots (db c) !! slot.1 = Some sl →
  let r := Therapists.bookSession newId now slot c in
  r.1 = Returned tt
  ∧ Db.sessions (db r.2)
    = <[newId := Therapists.new_session u t slot now]> (Db.sessions (db c))
  ∧ status (Therapists.new_session u t slot now) = pending
  ∧ Db.therapistSlots (db r.2)
    = <[slot.1 := Therapists.mark_booked (user_id u) now sl]>
        (Db.therapistSlots (db c))
  ∧ isBooked (Therapists.mark_booked (user_id u) now sl) = true
  ∧ bookedBy (Therapists.mark_booked (user_id u) now sl) = Some (user_id u)
  ∧ alerts r.2
    = alerts c
      ++ ["Session booked successfully! Waiting for therapist confirmation."]
  ∧ ∀ ds x,
      Therapists.availableSlots (page c) = [] →
      x ∈ Therapists.availableSlots (page (Therapists.loadSlots ds c).2) →
      isBooked x.2 = false ∧ Db.therapistSlots (db c) !! x.1 = Some x.2.
Proof.
  intros Hu Hid Ht Hb Hs r.
  assert (∀ ds x,
      Therapists.availableSlots (page c) = [] →
      x ∈ Therapists.availableSlots (page (Therapists.loadSlots ds c).2) →
      isBooked x.2 = false ∧ Db.therapistSlots (db c) !! x.1 = Some x.2)
    as Hlist.
  { intros ds x Hnil Hx. apply loadSlots_unbooked in Hx as [Hx|Hx]; [|done].
    rewrite Hnil in Hx. by apply elem_of_nil in Hx. }
  revert Hlist. generalize (Therapists.loadSlots). intros load Hlist.
  subst r. unfold Therapists.bookSession. run_handler.
  rewrite Hu, Ht, Hid, Hb. cbn. run_handler. rewrite Hs. cbn.
  split_and!; done.
Qed.

Lemma bookSession_does_not_check_the_slot_witness :
  let r := Scenario.bob_books in
  r.1 = Returned tt
  ∧ Db.sessions (db r.2) !! "sB"
    = Some (Therapists.new_session Scenario.bob Scenario.dr_tess
              ("slot1", Scenario.slot10) 2000).
Proof.
  destruct (bookSession_does_not_check_the_slot
              (sees (db Scenario.ann_books.2) Scenario.bob_looks)
              "sB" 2000 ("slot1", Scenario.slot10)
              Scenario.bob Scenario.dr_tess
              (Therapists.mark_booked "ann" 1000 Scenario.slot10))
    as (Hret & Hsessions & _).
  - vm_compute; reflexivity.
  - vm_compute; reflexivity.
  - vm_compute; reflexivity.
  - vm_compute; reflexivity.
  - vm_compute; reflexivity.
  - split; [exact Hret|].
    unfold Scenario.bob_books. rewrite Hsessions. apply lookup_insert_eq.
Defined.

(** C1, as the specification has it, fails: Bob books the slot that Ann
    has booked.  The slot is booked in the database, Bob's page still lists
    it, and his booking succeeds: it adds his session and takes the slot
    over. *)
Lemma bookSession_on_a_booked_slot :
  (isBooked <$> Db.therapistSlots (db Scenario.ann_books.2) !! "slot1")
  = Some true
  ∧ (bookedBy <$> Db.therapistSlots (db Scenario.ann_books.2) !! "slot1")
    = Some (Some "ann")
  ∧ Therapists.availableSlots (page Scenario.bob_looks)
    = [("slot1", Scenario.slot10)]
  ∧ Scenario.bob_books.1 = Returned tt
  ∧ alerts Scenario.bob_books.2
    = ["Session booked successfully! Waiting for therapist confirmation."]
  ∧ Db.sessions (db Scenario.ann_books.2) !! "sB" = None
  ∧ (status <$> Db.sessions (db Scenario.bob_books.2) !! "sB") = Some pending
  ∧ (bookedBy <$> Db.therapistSlots (db Scenario.bob_books.2) !! "slot1")
    = Some (Some "bob").
Proof.
  repeat split; vm_compute; reflexivity.
Qed.

(** ** Two bookings of one slot *)

Section Race.
Import Race.

(** [advance] twice is [bookSession]: the same writes, and the success
    alert when the booking has succeeded. *)
Lemma bookSession_is_two_steps (c : Client Therapists.State)
    newId now sl u t :
  Therapists.user (page c) = Some u →
  truthy (user_id u) = true →
  Therapists.selectedTherapist (page c) = Some t →
  Therapists.booking (page c) = false →
  let r := Therapists.bookSession newId now sl c in
  let a := advance (start u t sl newId now) (db c) in
  let b := advance a.1 a.2 in
  db r.2 = b.2
  ∧ (pc b.1 = Succeeded ↔
     alerts r.2
     = alerts c
       ++ ["Session booked successfully! Waiting for therapist confirmation."]).
Proof.
  intros Hu Hid Ht Hb.
  unfold Therapists.bookSession, advance, start. run_handler.
  rewrite Hu, Ht, Hid, Hb. cbn. run_handler.
  destruct (Db.therapistSlots (db c) !! sl.1) as [s|]; cbn.
  - split; [done|]. split; done.
  - split; [done|]. split; [done|].
    intros H%(f_equal (λ l, last l)). rewrite !last_snoc in H. done.
Qed.

Lemma at_pc_same b : at_pc (pc b) b = b.
Proof. by destruct b. Qed.

Variables (b1 b2 : Booking).
Hypothesis same_slot : (slot b1).1 = (slot b2).1.
Hypothesis other_session : sessionId b1 ≠ sessionId b2.

Lemma at_pc_fields q b b' :
  at_pc q b' = b →
  patient b' = patient b ∧ therapist b' = therapist b ∧ slot b' = slot b
  ∧ sessionId b' = sessionId b ∧ clock b' = clock b
  ∧ session_of b' = session_of b.
Proof. intros <-. by destruct b'. Qed.

Lemma at_pc_at_pc q q' b : at_pc q (at_pc q' b) = at_pc q b.
Proof. done. Qed.

Lemma Inv_turn t w : Inv b1 b2 w → Inv b1 b2 (turn t w).
Proof.
  intros [H1 H2 [s0 Hs0] Ha1 Ha2 Hs1 Hs2 Hbk].
  destruct (at_pc_fields _ _ _ H1) as (Hp1 & _ & Hsl1 & Hid1 & Hck1 & Hso1).
  destruct (at_pc_fields _ _ _ H2) as (Hp2 & _ & Hsl2 & Hid2 & Hck2 & Hso2).
  destruct t; unfold turn, advance; cbn.
  - destruct (pc (first w)) eqn:Hpc; cbn.
    + split; cbn; try done.
      * by rewrite Hid1, Hso1, lookup_insert_eq.
      * intros Hq. rewrite Hid1, lookup_insert_ne by done. auto.
      * intros [?|Hq]; [done|]. apply Hbk. by right.
    + rewrite Hsl1, Hs0. split; cbn; try done.
      * rewrite lookup_insert_eq. by eexists.
      * intros _. by apply Hs1.
      * intros _. eexists. rewrite lookup_insert_eq. split; [done|].
        cbn. rewrite Hp1. auto.
    + split; cbn; rewrite ?Hpc; done.
    + congruence.
  - destruct (pc (second w)) eqn:Hpc; cbn.
    + split; cbn; try done.
      * intros Hq. rewrite Hid2, lookup_insert_ne by done. auto.
      * by rewrite Hid2, Hso2, lookup_insert_eq.
      * intros [Hq|?]; [|done]. apply Hbk. by left.
    + rewrite Hsl2, <-same_slot, Hs0. split; cbn; try done.
      * rewrite lookup_insert_eq. by eexists.
      * intros _. by apply Hs2.
      * intros _. eexists. rewrite lookup_insert_eq. split; [done|].
        cbn. rewrite Hp2. auto.
    + split; cbn; rewrite ?Hpc; done.
    + congruence.
Qed.

Lemma Inv_run schedule w : Inv b1 b2 w → Inv b1 b2 (run schedule w).
Proof.
  revert w. induction schedule as [|t schedule IH]; intros w Hw; [done|].
  apply IH. by apply Inv_turn.
Qed.

Lemma Inv_start d :
  pc b1 = AtAddDoc → pc b2 = AtAddDoc →
  is_Some (Db.therapistSlots d !! (slot b1).1) →
  Inv b1 b2 {| first := b1; second := b2; store := d |}.
Proof.
  intros Hpc1 Hpc2 Hs.
  split; cbn; rewrite ?at_pc_same, ?Hpc1, ?Hpc2; try done.
  intros [?|?]; congruence.
Qed.
End Race.

(** C2, as the code has it: two bookings of one slot, run in any order of
    their steps (each is the [addDoc] of its session, then the [updateDoc]
    of the slot), both succeed once both have finished: both sessions are
    in the database with status [pending], and the slot is booked by one of
    the two patients.  The write on the slot is unconditional: nothing is
    asked of the [isBooked] the slot has, and no booking ends in conflict. *)
Theorem both_bookings_of_a_slot_succeed
    (b1 b2 : Race.Booking) (d : Firestore) (schedule : list Race.Turn) :
  Race.pc b1 = Race.AtAddDoc →
  Race.pc b2 = Race.AtAddDoc →
  (Race.slot b1).1 = (Race.slot b2).1 →
  Race.sessionId b1 ≠ Race.sessionId b2 →
  is_Some (Db.therapistSlots d !! (Race.slot b1).1) →
  let w :=
    Race.run schedule {| Race.first := b1; Race.second := b2; Race.store := d |}
  in
  Race.finished (Race.first w) →
  Race.finished (Race.second w) →
  Race.pc (Race.first w) = Race.Succeeded
  ∧ Race.pc (Race.second w) = Race.Succeeded
  ∧ Db.sessions (Race.store w) !! Race.sessionId b1
    = Some (Race.session_of b1)
  ∧ Db.sessions (Race.store w) !! Race.sessionId b2
    = Some (Race.session_of b2)
  ∧ status (Race.session_of b1) = pending
  ∧ status (Race.session_of b2) = pending
  ∧ ∃ s, Db.therapistSlots (Race.store w) !! (Race.slot b1).1 = Some s
         ∧ isBooked s = true
         ∧ (bookedBy s = Some (user_id (Race.patient b1))
            ∨ bookedBy s = Some (user_id (Race.patient b2))).
Proof.
  intros Hpc1 Hpc2 Hslot Hid Hs w Hf1 Hf2.
  pose proof (Inv_run b1 b2 Hslot Hid schedule _
                (Inv_start b1 b2 d Hpc1 Hpc2 Hs)) as HI.
  fold w in HI. destruct HI as [H1 H2 _ Ha1 Ha2 Hs1 Hs2 Hbk].
  assert (Race.pc (Race.first w) = Race.Succeeded) as Hok1.
  { destruct Hf1; congruence. }
  assert (Race.pc (Race.second w) = Race.Succeeded) as Hok2.
  { destruct Hf2; congruence. }
  split_and!; try done.
  - apply Hs1. by rewrite Hok1.
  - apply Hs2. by rewrite Hok2.
  - apply Hbk. by left.
Qed.

Lemma both_bookings_of_a_slot_succeed_witness :
  Race.pc (Race.first Scenario.race) = Race.Succeeded
  ∧ Race.pc (Race.second Scenario.race) = Race.Succeeded.
Proof.
  destruct (both_bookings_of_a_slot_succeed
              Scenario.ann_booking Scenario.bob_booking Scenario.db_open
              Scenario.interleaved)
    as (H1 & H2 & _).
  - reflexivity.
  - reflexivity.
  - reflexivity.
  - vm_compute. discriminate.
  - vm_compute. eexists. reflexivity.
  - left. vm_compute. reflexivity.
  - left. vm_compute. reflexivity.
  - split; [exact H1 | exact H2].
Defined.

(** C2, as the specification has it, fails: of the two bookings of the
    slot, none is refused.  Both end with success, both sessions are in the
    database, and the slot goes to the last writer. *)
Lemma two_bookings_no_conflict :
  Race.pc (Race.first Scenario.race) = Race.Succeeded
  ∧ Race.pc (Race.second Scenario.race) = Race.Succeeded
  ∧ (slotId <$> Db.sessions (Race.store Scenario.race) !! "sA")
    = Some (Some "slot1")
  ∧ (slotId <$> Db.sessions (Race.store Scenario.race) !! "sB")
    = Some (Some "slot1")
  ∧ (bookedBy <$> Db.therapistSlots (Race.store Scenario.race) !! "slot1")
    = Some (Some "bob")
  ∧ Scenario.ann_books.1 = Returned tt
  ∧ Scenario.bob_books.1 = Returned tt
  ∧ db Scenario.bob_books.2 = Race.store Scenario.race.
Proof. repeat split; vm_compute; reflexivity. Qed.

(** ** Starting a video call *)

(** C7: when the provider gives no room ([createMeeting] throws, or
    returns no room id), [startVideoCall] writes nothing: the database is as
    it was, so the request of every session keeps its status and no call
    becomes active; the page keeps its sessions and its active call; the
    failure is shown with an alert that asks to try again, and the button
    is released. *)
Theorem startVideoCall_without_room_writes_nothing
    (c : Client TherapistSessions.State) authToken answer now
    sessionId patientId patientName :
  provisioning_fails answer →
  let r :=
    TherapistSessions.startVideoCall authToken answer now
      sessionId patientId patientName c in
  r.1 = Returned tt
  ∧ db r.2 = db c
  ∧ TherapistSessions.sessions (page r.2)
    = TherapistSessions.sessions (page c)
  ∧ TherapistSessions.activeVideoCall (page r.2)
    = TherapistSessions.activeVideoCall (page c)
  ∧ TherapistSessions.videoCallLoading (page r.2) = None
  ∧ alerts r.2
    = alerts c ++ ["Failed to start video call. Please try again."].
Proof.
  intros Hfail. unfold TherapistSessions.startVideoCall. run_handler.
  destruct answer as [e|[room|]]; cbn in *; [done| |done].
  rewrite Hfail. done.
Qed.

Lemma startVideoCall_without_room_writes_nothing_witness :
  db (TherapistSessions.startVideoCall "token" (Responds None) 4000
        "sA" "ann" "Ann" Scenario.tess_accepts).2
  = db Scenario.tess_accepts.
Proof.
  refine (proj1 (proj2 (startVideoCall_without_room_writes_nothing
                          Scenario.tess_accepts "token" (Responds None) 4000
                          "sA" "ann" "Ann" _))).
  reflexivity.
Defined.

(** C6, as the code has it: [startVideoCall] always asks the provider for
    a room and, given one, writes it on the session, whatever the call
    state of the session: on a session whose call is active with a room,
    the room is replaced by the new one. *)
Theorem startVideoCall_always_creates_a_room
    (c : Client TherapistSessions.State) authToken room now
    sessionId patientId patientName s :
  Db.sessions (db c) !! sessionId = Some s →
  truthy room = true →
  let r :=
    TherapistSessions.startVideoCall authToken (Responds (Some room)) now
      sessionId patientId patientName c in
  requests r.2 = requests c ++ ["POST https://api.videosdk.live/v2/rooms"]
  ∧ Db.sessions (db r.2)
    = <[sessionId := write_call_started room now s]> (Db.sessions (db c))
  ∧ videoCallRoomId (write_call_started room now s) = Some room
  ∧ meetingId (write_call_started room now s) = Some room
  ∧ videoCallStatus (write_call_started room now s) = Some active.
Proof.
  intros Hs Hroom. unfold TherapistSessions.startVideoCall. run_handler.
  rewrite Hroom. run_handler. rewrite Hs. done.
Qed.

Lemma startVideoCall_always_creates_a_room_witness :
  requests Scenario.tess_starts_again
  = ["POST https://api.videosdk.live/v2/rooms"].
Proof.
  refine (proj1 (startVideoCall_always_creates_a_room
                   Scenario.tess_opens_again "token" "room2" 5000
                   "sA" "ann" "Ann" Scenario.ann_session_in_call _ _)).
  - vm_compute; reflexivity.
  - reflexivity.
Defined.

(** C6, as the specification has it, fails: Ann's session is in a call,
    with the room [room1]; the page, opened again, lets the therapist start
    the call; the provider is asked for a room and the room of the session
    becomes [room2]. *)
Lemma startVideoCall_twice_two_rooms :
  Db.sessions (db Scenario.tess_starts) !! "sA"
  = Some Scenario.ann_session_in_call
  ∧ videoCallStatus Scenario.ann_session_in_call = Some active
  ∧ videoCallRoomId Scenario.ann_session_in_call = Some "room1"
  ∧ TherapistSessions.buttons (page Scenario.tess_opens_again)
    = [TherapistSessions.StartCall "sA" "ann" "Ann";
       TherapistSessions.MarkComplete "sA"]
  ∧ requests Scenario.tess_starts_again
    = ["POST https://api.videosdk.live/v2/rooms"]
  ∧ (videoCallRoomId <$> Db.sessions (db Scenario.tess_starts_again) !! "sA")
    = Some (Some "room2").
Proof. repeat split; vm_compute; reflexivity. Qed.

(** C10, as the code has it.  On a session that exists,
    [respondToVideoCallRequest] with ['accepted'] writes the accepted
    status on the request and sets the timer that runs [startVideoCall]
    half a second later; it asks the provider nothing and starts no call
    itself, and nothing of the kind is set for ['declined'].  When the
    timer fires, [startVideoCall] sends one request for a room to the
    provider.  Given a room, it writes the call active in that room, the
    request still accepted.  Given none, it writes nothing: the request
    stays accepted and no call is active, the therapist is told to try
    again and the page stays out of the call. *)
Theorem accepting_a_request_schedules_the_call
    (c : Client TherapistSessions.State) now later
    sessionId patientId patientName s authToken answer :
  Db.sessions (db c) !! sessionId = Some s →
  let r :=
    TherapistSessions.respondToVideoCallRequest now sessionId resp_accepted
      patientId patientName c in
  let r' :=
    TherapistSessions.fire authToken answer later
      (StartVideoCall sessionId patientId patientName) r.2 in
  let no :=
    TherapistSessions.respondToVideoCallRequest now sessionId resp_declined
      patientId patientName c in
  let accepted_session := write_response resp_accepted now s in
  r.1 = Returned tt
  ∧ timers r.2
    = timers c ++ [(500%nat, StartVideoCall sessionId patientId patientName)]
  ∧ requests r.2 = requests c
  ∧ Db.sessions (db r.2)
    = <[sessionId := accepted_session]> (Db.sessions (db c))
  ∧ (request_status <$> videoCallRequest accepted_session) = Some accepted
  ∧ videoCallStatus accepted_session = videoCallStatus s
  ∧ videoCallRoomId accepted_session = videoCallRoomId s
  ∧ meetingId accepted_session = meetingId s
  ∧ TherapistSessions.activeVideoCall (page r.2)
    = TherapistSessions.activeVideoCall (page c)
  ∧ timers no.2 = timers c
  ∧ requests r'.2
    = requests c ++ ["POST https://api.videosdk.live/v2/rooms"]
  ∧ (∀ room,
       answer = Responds (Some room) → truthy room = true →
       let started := write_call_started room later accepted_session in
       Db.sessions (db r'.2) = <[sessionId := started]> (Db.sessions (db r.2))
       ∧ videoCallStatus started = Some active
       ∧ videoCallRoomId started = Some room
       ∧ meetingId started = Some room
       ∧ (request_status <$> videoCallRequest started) = Some accepted
       ∧ (TherapistSessions.call_meetingId
            <$> TherapistSessions.activeVideoCall (page r'.2))
         = Some (Some room))
  ∧ (provisioning_fails answer →
     db r'.2 = db r.2
     ∧ TherapistSessions.activeVideoCall (page r'.2)
       = TherapistSessions.activeVideoCall (page c)
     ∧ alerts r'.2
       = alerts c ++ ["Failed to start video call. Please try again."]).
Proof.
  intros Hs.
  unfold TherapistSessions.fire, TherapistSessions.startVideoCall,
    TherapistSessions.respondToVideoCallRequest.
  run_handler. rewrite Hs. run_handler.
  split_and!; try done.
  - by destruct (videoCallRequest s).
  - by destruct answer as [e|[room|]]; run_handler;
      try destruct (truthy room); run_handler;
      rewrite ?lookup_insert_eq.
  - intros room -> Hroom. run_handler. rewrite Hroom. run_handler.
    rewrite lookup_insert_eq. cbn. split_and!; try done.
    by destruct (videoCallRequest s).
  - intros Hfail. destruct answer as [e|[room|]]; cbn in Hfail; run_handler;
      rewrite ?Hfail; done.
Qed.

Lemma accepting_a_request_schedules_the_call_witness :
  timers
    (TherapistSessions.respondToVideoCallRequest 3600 "sA" resp_accepted
       "ann" "Ann" Scenario.tess_is_asked).2
  = [(500%nat, StartVideoCall "sA" "ann" "Ann")].
Proof.
  refine (proj1 (proj2 (accepting_a_request_schedules_the_call
                          Scenario.tess_is_asked 3600 4100 "sA" "ann" "Ann"
                          Scenario.ann_asks "token" (FetchFails "offline")
                          _))).
  vm_compute; reflexivity.
Defined.

(** C10, as the claim has it, fails: Tess accepts Ann's request; the timer
    runs [startVideoCall], which asks the provider for a room, and the
    provider cannot be reached.  The request is accepted, no call is active
    and the session has no room; no timer is left, and the page waits for
    Tess to start the call herself. *)
Lemma accepted_call_is_not_started :
  TherapistSessions.buttons (page Scenario.tess_is_asked)
  = [TherapistSessions.AcceptCall "sA" "ann" "Ann";
     TherapistSessions.DeclineCall "sA" "ann";
     TherapistSessions.MarkComplete "sA"]
  ∧ timers Cases.tess_accepts_call = [(500%nat, StartVideoCall "sA" "ann" "Ann")]
  ∧ requests Cases.tess_call_fails
    = ["POST https://api.videosdk.live/v2/rooms"]
  ∧ alerts Cases.tess_call_fails
    = ["Failed to start video call. Please try again."]
  ∧ timers Cases.tess_call_fails = []
  ∧ (request_status
       <$> (Db.sessions (db Cases.tess_call_fails) !! "sA"
              ≫= videoCallRequest))
    = Some accepted
  ∧ (videoCallStatus <$> Db.sessions (db Cases.tess_call_fails) !! "sA")
    = Some None
  ∧ (videoCallRoomId <$> Db.sessions (db Cases.tess_call_fails) !! "sA")
    = Some None
  ∧ TherapistSessions.activeVideoCall (page Cases.tess_call_fails) = None
  ∧ TherapistSessions.buttons (page Cases.tess_call_fails)
    = [TherapistSessions.StartCall "sA" "ann" "Ann";
       TherapistSessions.MarkComplete "sA"].
Proof. repeat split; vm_compute; reflexivity. Qed.

(** ** Removing a slot *)

(** C9, as the code has it: [removeSlot] deletes the document of the slot
    and never fails, whatever the [isBooked] of the slot.  The page guards
    the button instead: a slot can be removed from the list only when the
    page holds it with [isBooked = false]. *)
Theorem removeSlot_is_guarded_by_the_button_only
    (c : Client TherapistSlots.State) slotId :
  let r := TherapistSlots.removeSlot slotId c in
  r.1 = Returned tt
  ∧ Db.therapistSlots (db r.2) = delete slotId (Db.therapistSlots (db c))
  ∧ Db.therapistSlots (db r.2) !! slotId = None
  ∧ ∀ id, id ∈ TherapistSlots.remove_buttons (page c) →
      ∃ sl, (id, sl) ∈ TherapistSlots.slots (page c) ∧ isBooked sl = false.
Proof.
  unfold TherapistSlots.removeSlot, TherapistSlots.remove_buttons.
  run_handler. split_and!; try done.
  - apply lookup_delete_eq.
  - intros id. destruct (TherapistSlots.loading (page c)).
    + by intros ?%elem_of_nil.
    + intros ([id' sl] & -> & [Hfree Hin]%list_elem_of_filter)%list_elem_of_fmap.
      by exists sl.
Qed.

Lemma removeSlot_is_guarded_by_the_button_only_witness :
  ∃ sl, ("slot1", sl) ∈ TherapistSlots.slots (page Scenario.tess_free_slots)
        ∧ isBooked sl = false.
Proof.
  refine (proj2 (proj2 (proj2 (removeSlot_is_guarded_by_the_button_only
                                 Scenario.tess_free_slots "slot1")))
            "slot1" _).
  vm_compute. apply list_elem_of_here.
Defined.

(** C9, as the specification has it, fails: the slot that Ann has booked
    is removed without error, and her session is left with it. *)
Lemma removeSlot_of_a_booked_slot :
  (isBooked <$> Db.therapistSlots (db Scenario.tess_slots) !! "slot1")
  = Some true
  ∧ Scenario.tess_removes.1 = Returned tt
  ∧ alerts Scenario.tess_removes.2 = []
  ∧ Db.therapistSlots (db Scenario.tess_removes.2) !! "slot1" = None
  ∧ (slotId <$> Db.sessions (db Scenario.tess_removes.2) !! "sA")
    = Some (Some "slot1").
Proof. repeat split; vm_compute; reflexivity. Qed.

(** ** Asking for a video call *)

(** The two parts of [requestVideoCall], run one after the other at the
    same time, are the handler. *)
Lemma request_is_two_steps (v : PatientScreen.Screen) id tid name u :
  PatientSessions.user (page (PatientScreen.shown v)) = Some u →
  let v1 := PatientScreen.click (PatientSessions.RequestCall id tid name) v in
  let t := {| PatientScreen.sending_session := id;
              PatientScreen.sending_therapistName := name;
              PatientScreen.sending_by := u;
              PatientScreen.sending_at := PatientScreen.clock v |} in
  PatientScreen.sending v1 = PatientScreen.sending v ++ [t]
  ∧ PatientScreen.settle (PatientScreen.clock v1) t (PatientScreen.shown v1)
    = PatientSessions.press (PatientScreen.clock v)
        (PatientSessions.RequestCall id tid name) (PatientScreen.shown v).
Proof.
  intros Hu. unfold PatientScreen.click, PatientScreen.settle. rewrite Hu.
  cbn [PatientSessions.press]. unfold PatientSessions.requestVideoCall.
  run_handler. rewrite Hu. done.
Qed.

(** A page that shows one session, whose request waits within the
    cooldown, has nothing to press and nothing to type in. *)
Lemma waiting_screen_is_still (v : PatientScreen.Screen) x q t :
  PatientSessions.sessions (page (PatientScreen.shown v)) = [x] →
  PatientSessions.activeVideoCall (page (PatientScreen.shown v)) = None →
  status x.2 = confirmed →
  videoCallRequest x.2 = Some q →
  request_status q = requested →
  requestedAt q = Some t →
  PatientScreen.renderedAt v - t ≤ 5 * 60 * 1000 →
  PatientScreen.buttons v = [] ∧ PatientScreen.room_inputs v = [].
Proof.
  intros Hl Hact Hst Hq Hreq Ht Hle.
  unfold PatientScreen.buttons, PatientSessions.buttons,
    PatientScreen.room_inputs, PatientScreen.room_input,
    PatientSessions.session_buttons, canRequestAgain.
  rewrite Hl, Hact. cbn. rewrite Hst, Hq, Hreq, Ht.
  rewrite bool_decide_eq_false_2 by lia.
  by destruct (PatientSessions.loading (page (PatientScreen.shown v))).
Qed.

(** C5, as the code has it.  The page decides while it is rendered, from
    the time of that render.  On a confirmed session whose request is
    pending since [t]: a render made up to and including five minutes after
    [t] gives no button to press for the session, so no request is sent
    again (and no error is raised); a render made later gives the request
    button.  The button is there when the session has no request, and when
    its request was declined.  Pressing it writes a new pending request,
    dated at the press, on the session.  Nothing renders the page but a
    change of its state: a loaded page that shows one session, waiting
    within the cooldown at its last render, with no call joined and no
    request on its way, stays as it is whatever time passes and whatever
    others write to the store; it never gets the button back. *)
Theorem call_request_cooldown :
  (∀ (p : PatientSessions.State) (rendered : Timestamp) (x : Local Session),
     status x.2 = confirmed →
     (∀ q t,
        videoCallRequest x.2 = Some q → request_status q = requested →
        requestedAt q = Some t → rendered - t ≤ 5 * 60 * 1000 →
        PatientSessions.session_buttons p rendered x = [])
     ∧ (∀ q t,
          videoCallRequest x.2 = Some q → request_status q = requested →
          requestedAt q = Some t → 5 * 60 * 1000 < rendered - t →
          same_id (PatientSessions.requestingVideoCall p) x.1 = false →
          PatientSessions.session_buttons p rendered x
          = [PatientSessions.request_button p x])
     ∧ (videoCallRequest x.2 = None →
        same_id (PatientSessions.requestingVideoCall p) x.1 = false →
        PatientSessions.session_buttons p rendered x
        = [PatientSessions.request_button p x])
     ∧ (∀ q,
          videoCallRequest x.2 = Some q → request_status q = declined →
          PatientSessions.session_buttons p rendered x
          = [PatientSessions.request_button p x]))
  ∧ (∀ (c : Client PatientSessions.State) (now : Timestamp)
         (x : Local Session) u s,
       PatientSessions.user (page c) = Some u →
       Db.sessions (db c) !! x.1 = Some s →
       let r :=
         PatientSessions.press now (PatientSessions.request_button (page c) x) c
       in
       r.1 = Returned tt
       ∧ Db.sessions (db r.2) !! x.1 = Some (write_request (user_id u) now s)
       ∧ videoCallRequest (write_request (user_id u) now s)
         = Some {| request_status := requested; requestedAt := Some now;
                   respondedAt := None; requestedBy := Some (user_id u) |})
  ∧ (∀ (v v' : PatientScreen.Screen) x q t,
       PatientSessions.sessions (page (PatientScreen.shown v)) = [x] →
       PatientSessions.loading (page (PatientScreen.shown v)) = false →
       PatientSessions.activeVideoCall (page (PatientScreen.shown v)) = None →
       PatientScreen.sending v = [] →
       status x.2 = confirmed →
       videoCallRequest x.2 = Some q →
       request_status q = requested →
       requestedAt q = Some t →
       PatientScreen.renderedAt v - t ≤ 5 * 60 * 1000 →
       rtc PatientScreen.step v v' →
       page (PatientScreen.shown v') = page (PatientScreen.shown v)
       ∧ PatientScreen.renderedAt v' = PatientScreen.renderedAt v
       ∧ PatientScreen.sending v' = []
       ∧ PatientScreen.buttons v' = []).
Proof.
  split_and!.
  - intros p rendered x Hst. unfold PatientSessions.session_buttons.
    rewrite Hst. split_and!.
    + intros q t -> -> Ht Hle. unfold canRequestAgain. rewrite Ht.
      rewrite bool_decide_eq_false_2; [done|lia].
    + intros q t -> -> Ht Hlt ->. unfold canRequestAgain. rewrite Ht.
      rewrite bool_decide_eq_true_2; [done|lia].
    + by intros -> ->.
    + by intros q -> ->.
  - intros c now x u s Hu Hs. unfold PatientSessions.request_button.
    cbn [PatientSessions.press]. unfold PatientSessions.requestVideoCall.
    run_handler. rewrite Hu. run_handler. rewrite Hs. cbn.
    by rewrite lookup_insert_eq.
  - intros v v' x q t Hl Hload Hact Hsend Hst Hq Hreq Ht Hle Hrun.
    assert (page (PatientScreen.shown v') = page (PatientScreen.shown v)
            ∧ PatientScreen.renderedAt v' = PatientScreen.renderedAt v
            ∧ PatientScreen.sending v' = []) as (Hpage & Hrend & Hsend').
    { revert v' Hrun. apply rtc_ind_r; [done|].
      intros v1 v2 _ Hstep (Hpage & Hrend & Hsend1).
      assert (PatientScreen.buttons v1 = []
              ∧ PatientScreen.room_inputs v1 = []) as [Hb Hi].
      { apply (waiting_screen_is_still v1 x q t); rewrite ?Hpage, ?Hrend;
          done. }
      destruct Hstep as [v1 d Hd|v1 d|v1 k Hk|v1 i t1 Hi1|v1 id text Hid].
      - done.
      - done.
      - rewrite Hb in Hk. by apply elem_of_nil in Hk.
      - by rewrite Hsend1 in Hi1.
      - rewrite Hi in Hid. by apply elem_of_nil in Hid. }
    split_and!; try done.
    apply (waiting_screen_is_still v' x q t); rewrite ?Hpage, ?Hrend; done.
Qed.

Lemma call_request_cooldown_witness :
  PatientSessions.session_buttons (page Scenario.ann_requests)
    (3500 + 2 * 60 * 1000) ("sA", Scenario.ann_asks)
  = []
  ∧ PatientScreen.buttons
      (PatientScreen.others (db Cases.tess_accepts_call)
         (PatientScreen.wait (6 * 60 * 1000) (Cases.ann_screen 3500)))
    = [].
Proof.
  split.
  - refine (proj1 (proj1 call_request_cooldown (page Scenario.ann_requests)
                     (3500 + 2 * 60 * 1000) ("sA", Scenario.ann_asks) _)
              _ 3500 _ _ _ _).
    + reflexivity.
    + reflexivity.
    + reflexivity.
    + reflexivity.
    + vm_compute. discriminate.
  - refine (proj2 (proj2 (proj2
              (proj2 (proj2 call_request_cooldown)
                 (Cases.ann_screen 3500)
                 (PatientScreen.others (db Cases.tess_accepts_call)
                    (PatientScreen.wait (6 * 60 * 1000)
                       (Cases.ann_screen 3500)))
                 ("sA", Scenario.ann_asks) _ 3500 _ _ _ _ _ _ _ _ _ _)))).
    + reflexivity.
    + reflexivity.
    + reflexivity.
    + reflexivity.
    + reflexivity.
    + reflexivity.
    + reflexivity.
    + reflexivity.
    + vm_compute. discriminate.
    + eapply rtc_l; [|apply rtc_once].
      * apply (PatientScreen.step_wait (Cases.ann_screen 3500)
                 (6 * 60 * 1000)).
        vm_compute. discriminate.
      * apply PatientScreen.step_others.
Defined.

(** C5, as the specification has it, fails.  At the boundary: a render
    made exactly five minutes after Ann's request gives no button to ask
    again; one made a millisecond later gives it.  On the open page: the
    page rendered when Ann made her request shows no button six minutes
    later, for nothing has rendered it since.  Nor is there a refusal in
    the handler: run two minutes after the request, [requestVideoCall]
    sends it again. *)
Lemma request_at_five_minutes :
  PatientSessions.sessions (page Scenario.ann_requests)
  = [("sA", Scenario.ann_asks)]
  ∧ Db.sessions (db Scenario.ann_requests) !! "sA" = Some Scenario.ann_asks
  ∧ (requestedAt <$> videoCallRequest Scenario.ann_asks) = Some (Some 3500)
  ∧ PatientScreen.buttons (Cases.ann_screen (3500 + 5 * 60 * 1000)) = []
  ∧ PatientScreen.buttons (Cases.ann_screen (3500 + 5 * 60 * 1000 + 1))
    = [PatientSessions.RequestCall "sA" "tess" "Tess"]
  ∧ PatientScreen.clock
      (PatientScreen.wait (6 * 60 * 1000) (Cases.ann_screen 3500))
    = 3500 + 6 * 60 * 1000
  ∧ PatientScreen.buttons
      (PatientScreen.wait (6 * 60 * 1000) (Cases.ann_screen 3500))
    = []
  ∧ Scenario.ann_asks_again.1 = Returned tt
  ∧ (videoCallRequest <$> Db.sessions (db Scenario.ann_asks_again.2) !! "sA")
    = Some (Some {| request_status := requested;
                    requestedAt := Some (3500 + 2 * 60 * 1000);
                    respondedAt := None;
                    requestedBy := Some "ann" |}).
Proof. repeat split; vm_compute; reflexivity. Qed.

(** ** The status of a session *)

Lemma write_status_not_pending n now s : status (write_status n now s) ≠ pending.
Proof. by destruct n. Qed.

Lemma insert_not_pending (m : gmap string Session) sid s id s' :
  status s ≠ pending →
  <[sid := s]> m !! id = Some s' → status s' = pending → m !! id = Some s'.
Proof.
  intros Hs Hl Hp. destruct (decide (sid = id)) as [->|Hne].
  - rewrite lookup_insert_eq in Hl. congruence.
  - by rewrite lookup_insert_ne in Hl.
Qed.

Section TherapistPage.
Import TherapistSessions.

Lemma updateSessionStatus_sessions (c : Client State) noteId now sid n :
  let r := updateSessionStatus noteId now sid n c in
  match Db.sessions (db c) !! sid with
  | Some s =>
      Db.sessions (db r.2)
      = <[sid := write_status n now s]> (Db.sessions (db c))
      ∧ sessions (page r.2)
        = map_session sid (set_status (status_of n)) (sessions (page c))
  | None =>
      Db.sessions (db r.2) = Db.sessions (db c)
      ∧ sessions (page r.2) = sessions (page c)
  end.
Proof.
  unfold updateSessionStatus, save_notes. run_handler.
  destruct (Db.sessions (db c) !! sid) as [s|]; cbn; [|done].
  destruct n; run_handler;
    repeat (case_match; simplify_eq/=; run_handler); by split.
Qed.

Lemma startVideoCall_sessions (c : Client State) tok answer now sid pid name :
  let r := startVideoCall tok answer now sid pid name c in
  (Db.sessions (db r.2) = Db.sessions (db c)
   ∧ sessions (page r.2) = sessions (page c))
  ∨ ∃ s room,
      Db.sessions (db c) !! sid = Some s
      ∧ Db.sessions (db r.2)
        = <[sid := write_call_started room now s]> (Db.sessions (db c))
      ∧ sessions (page r.2)
        = map_session sid (local_call_started room) (sessions (page c))
      ∧ truthy room = true.
Proof.
  unfold startVideoCall. run_handler.
  destruct answer as [e|[room|]]; run_handler; [by left| |by left].
  destruct (truthy room) eqn:Hroom; run_handler; [|by left].
  destruct (Db.sessions (db c) !! sid) as [s|] eqn:Hs; run_handler; [|by left].
  right. by exists s, room.
Qed.

Lemma respondToVideoCallRequest_sessions (c : Client State)
    now sid resp pid name :
  let r := respondToVideoCallRequest now sid resp pid name c in
  match Db.sessions (db c) !! sid with
  | Some s =>
      Db.sessions (db r.2)
      = <[sid := write_response resp now s]> (Db.sessions (db c))
      ∧ sessions (page r.2)
        = map_session sid (local_response resp now) (sessions (page c))
  | None =>
      Db.sessions (db r.2) = Db.sessions (db c)
      ∧ sessions (page r.2) = sessions (page c)
  end.
Proof.
  unfold respondToVideoCallRequest. run_handler.
  destruct (Db.sessions (db c) !! sid) as [s|]; run_handler; [|done].
  by destruct resp.
Qed.

Lemma endVideoCall_sessions (c : Client State) now :
  let r := endVideoCall now c in
  sessions (page r.2) = sessions (page c)
  ∧ (Db.sessions (db r.2) = Db.sessions (db c)
     ∨ ∃ sid s,
         Db.sessions (db c) !! sid = Some s
         ∧ Db.sessions (db r.2)
           = <[sid := write_call_ended now s]> (Db.sessions (db c))).
Proof.
  unfold endVideoCall. run_handler.
  destruct (activeVideoCall (page c)) as [a|]; run_handler;
    [|by split; [|left]].
  destruct (Db.sessions (db c) !! call_sessionId a) as [s|] eqn:Hs;
    run_handler.
  - split; [done|]. right. by exists (call_sessionId a), s.
  - split; [done|]. by left.
Qed.

(** A button that can be pressed belongs to a session of the page, or ends
    the call. *)
Lemma buttons_inv (p : State) k :
  k ∈ buttons p →
  k = EndCall ∨ ∃ x, x ∈ sessions p ∧ k ∈ session_buttons p x.
Proof.
  unfold buttons. destruct (loading p); [by intros ?%elem_of_nil|].
  destruct (user p) as [u|]; [|by intros ?%elem_of_nil].
  destruct (sessions p) as [|x0 l] eqn:Hl; [by intros ?%elem_of_nil|].
  destruct (truthy (user_id u)); [|by intros ?%elem_of_nil].
  rewrite elem_of_app, list_elem_of_bind.
  intros [(x & Hk & Hx)|Hk].
  - right. by exists x.
  - left. destruct (activeVideoCall p); [|by apply elem_of_nil in Hk].
    by apply list_elem_of_singleton in Hk.
Qed.

(** The status the page holds for the session of a status button. *)
Lemma status_button_inv (p : State) (x : Local Session) k :
  k ∈ session_buttons p x →
  match k with
  | AcceptBooking id | DeclineBooking id => id = x.1 ∧ status x.2 = pending
  | MarkComplete id => id = x.1 ∧ status x.2 = confirmed
  | AcceptCall id _ _ | DeclineCall id _ | StartCall id _ _ =>
      id = x.1 ∧ status x.2 = confirmed
  | EndCall => status x.2 = confirmed
  end.
Proof.
  unfold session_buttons. destruct (status x.2).
  - case_match; [by intros ?%elem_of_nil|].
    rewrite !elem_of_cons, elem_of_nil. by intros [->|[->|[]]].
  - rewrite !elem_of_app.
    intros [Hk|[Hk|Hk]];
      repeat (destruct (_ : bool) in Hk);
      rewrite ?elem_of_cons, ?elem_of_nil in Hk;
      destruct_or?; subst; done.
  - by intros ?%elem_of_nil.
  - by intros ?%elem_of_nil.
Qed.

(** The session and the local status of a button that changes the
    status. *)
Lemma status_change_inv (p : State) (x : Local Session) k sid n :
  k ∈ session_buttons p x →
  status_change k = Some (sid, n) →
  sid = x.1
  ∧ move (status x.2) (status_of n)
  ∧ same_id (updating p) sid = false.
Proof.
  unfold session_buttons. destruct (status x.2).
  - destruct (same_id (updating p) x.1) eqn:Hu; [by intros ?%elem_of_nil|].
    rewrite !elem_of_cons, elem_of_nil.
    intros [->|[->|[]]] [= <- <-]; split_and!; try done; constructor.
  - destruct (same_id (updating p) x.1) eqn:Hu,
      (same_id (videoCallLoading p) x.1), (request_pending x.2),
      (same_id (call_sessionId <$> activeVideoCall p) x.1); cbn;
      rewrite ?elem_of_cons, ?elem_of_nil; intros Hk;
      destruct_or?; subst; try done;
      intros [= <- <-]; split_and!; try done; constructor.
  - by intros ?%elem_of_nil.
  - by intros ?%elem_of_nil.
Qed.

End TherapistPage.

Section TherapistOldPage.
Import TherapistSessionsOld.

Lemma old_updateSessionStatus_sessions (c : Client State) noteId now sid n :
  let r := updateSessionStatus noteId now sid n c in
  match Db.sessions (db c) !! sid with
  | Some s =>
      Db.sessions (db r.2)
      = <[sid := write_status n now s]> (Db.sessions (db c))
      ∧ sessions (page r.2)
        = map_session sid (set_status (status_of n)) (sessions (page c))
      ∧ Db.therapistSlots (db r.2) = Db.therapistSlots (db c)
  | None =>
      Db.sessions (db r.2) = Db.sessions (db c)
      ∧ sessions (page r.2) = sessions (page c)
      ∧ Db.therapistSlots (db r.2) = Db.therapistSlots (db c)
  end.
Proof.
  unfold updateSessionStatus, save_notes. run_handler.
  destruct (Db.sessions (db c) !! sid) as [s|]; cbn; [|done].
  destruct n; run_handler;
    repeat (case_match; simplify_eq/=; run_handler); by split.
Qed.

End TherapistOldPage.

(** C3, as the code has it.  [updateSessionStatus] cannot write [pending]:
    a session that is pending after a call was pending before, untouched.
    The handler does not read the status the session has and refuses no
    move: on any session that exists it writes the status it is given.
    The order is kept by the buttons alone: a button that changes the
    status is offered only for a session that the page holds in a status
    from which the change is a move of the order (pending to confirmed or
    to cancelled, confirmed to completed), and not while [updating] is that
    session.  So a press makes a move of the order when the page holds the
    session with the status that the store has when the write arrives;
    nothing makes the page hold it so. *)
Theorem status_order_is_kept_by_the_buttons :
  (∀ (c : Client TherapistSessions.State) noteId now sid n id s',
     Db.sessions
       (db (TherapistSessions.updateSessionStatus noteId now sid n c).2) !! id
     = Some s' →
     status s' = pending → Db.sessions (db c) !! id = Some s')
  ∧ (∀ (c : Client TherapistSessions.State) noteId now sid n s,
       Db.sessions (db c) !! sid = Some s →
       let r := TherapistSessions.updateSessionStatus noteId now sid n c in
       Db.sessions (db r.2)
       = <[sid := write_status n now s]> (Db.sessions (db c))
       ∧ status (write_status n now s) = status_of n)
  ∧ (∀ (p : TherapistSessions.State) k sid n,
       k ∈ TherapistSessions.buttons p →
       TherapistSessions.status_change k = Some (sid, n) →
       same_id (TherapistSessions.updating p) sid = false
       ∧ ∃ y, (sid, y) ∈ TherapistSessions.sessions p
              ∧ move (status y) (status_of n))
  ∧ (∀ (c : Client TherapistSessions.State) authToken answer noteId now
         k sid n s,
       k ∈ TherapistSessions.buttons (page c) →
       TherapistSessions.status_change k = Some (sid, n) →
       Db.sessions (db c) !! sid = Some s →
       (∀ y, (sid, y) ∈ TherapistSessions.sessions (page c) →
             status y = status s) →
       let r := TherapistSessions.press authToken answer noteId now k c in
       Db.sessions (db r.2)
       = <[sid := write_status n now s]> (Db.sessions (db c))
       ∧ move (status s) (status (write_status n now s))).
Proof.
  assert (∀ (p : TherapistSessions.State) k sid n,
    k ∈ TherapistSessions.buttons p →
    TherapistSessions.status_change k = Some (sid, n) →
    same_id (TherapistSessions.updating p) sid = false
    ∧ ∃ y, (sid, y) ∈ TherapistSessions.sessions p
           ∧ move (status y) (status_of n)) as Hbuttons.
  { intros p k sid n [->|([i y] & Hin & Hk)]%buttons_inv Hch; [done|].
    destruct (status_change_inv p (i, y) k sid n Hk Hch) as (-> & Hm & Hu).
    split; [done|]. by exists y. }
  assert (∀ (c : Client TherapistSessions.State) noteId now sid n s,
    Db.sessions (db c) !! sid = Some s →
    Db.sessions
      (db (TherapistSessions.updateSessionStatus noteId now sid n c).2)
    = <[sid := write_status n now s]> (Db.sessions (db c))) as Hwrite.
  { intros c noteId now sid n s Hs.
    pose proof (updateSessionStatus_sessions c noteId now sid n) as H.
    cbn zeta in H. rewrite Hs in H. by destruct H as [-> _]. }
  split_and!.
  - intros c noteId now sid n id s'.
    pose proof (updateSessionStatus_sessions c noteId now sid n) as H.
    cbn zeta in H. destruct (Db.sessions (db c) !! sid) as [s|].
    + destruct H as [-> _]. apply insert_not_pending.
      apply write_status_not_pending.
    + destruct H as [-> _]. done.
  - intros c noteId now sid n s Hs. split; [by apply Hwrite|done].
  - exact Hbuttons.
  - intros c tok answer noteId now k sid n s Hk Hch Hs Hcopy.
    destruct (Hbuttons _ _ _ _ Hk Hch) as (_ & y & Hin & Hm).
    rewrite (Hcopy _ Hin) in Hm.
    destruct k; cbn in Hch; simplify_eq; cbn [TherapistSessions.press];
      (split; [by apply Hwrite|done]).
Qed.

Lemma status_order_is_kept_by_the_buttons_witness :
  move (status Scenario.ann_session)
    (status (write_status to_confirmed 3000 Scenario.ann_session)).
Proof.
  refine (proj2 (proj2 (proj2 (proj2 status_order_is_kept_by_the_buttons))
                   Scenario.tess_opens "token" (FetchFails "unused") "n1" 3000
                   (TherapistSessions.AcceptBooking "sA") "sA" to_confirmed
                   Scenario.ann_session _ _ _ _)).
  - vm_compute. apply list_elem_of_here.
  - reflexivity.
  - vm_compute; reflexivity.
  - intros y Hin. apply list_elem_of_singleton in Hin. by injection Hin as <-.
Defined.

(** C3, as the specification has it, fails: the session is completed; a
    second tab of the page, which still holds it as pending, has the button
    that accepts the booking; pressing it raises no error and the session
    is confirmed again. *)
Lemma status_leaves_completed :
  (status <$> Db.sessions (db Scenario.tess_second_tab) !! "sA")
  = Some completed
  ∧ TherapistSessions.buttons (page Scenario.tess_second_tab)
    = [TherapistSessions.AcceptBooking "sA";
       TherapistSessions.DeclineBooking "sA"]
  ∧ Scenario.tess_accepts_late.1 = Returned tt
  ∧ alerts Scenario.tess_accepts_late.2 = []
  ∧ (status <$> Db.sessions (db Scenario.tess_accepts_late.2) !! "sA")
    = Some confirmed.
Proof. repeat split; vm_compute; reflexivity. Qed.

(** ** Cancelling a session *)

(** [updateSessionStatus] releases the slot of a session it cancels. *)
Lemma updateSessionStatus_cancel_releases
    (c : Client TherapistSessions.State) noteId now sid s y slot sl :
  Db.sessions (db c) !! sid = Some s →
  find_session sid (TherapistSessions.sessions (page c)) = Some y →
  slotId y = Some slot →
  truthy slot = true →
  Db.therapistSlots (db c) !! slot = Some sl →
  let r := TherapistSessions.updateSessionStatus noteId now sid to_cancelled c in
  r.1 = Returned tt
  ∧ Db.sessions (db r.2) !! sid = Some (write_status to_cancelled now s)
  ∧ Db.therapistSlots (db r.2)
    = <[slot := release sl]> (Db.therapistSlots (db c)).
Proof.
  intros Hs Hy Hslot Htruthy Hsl.
  unfold TherapistSessions.updateSessionStatus. run_handler.
  rewrite Hs. run_handler. rewrite Hy. cbn. rewrite Hslot, Htruthy.
  run_handler. rewrite Hsl. cbn.
  by rewrite lookup_insert_eq.
Qed.





(** ** The call of a session *)

Lemma bookSession_sessions (c : Client Therapists.State) newId now slot :
  let r := Therapists.bookSession newId now slot c in
  Db.sessions (db r.2) = Db.sessions (db c)
  ∨ ∃ u t,
      Db.sessions (db r.2)
      = <[newId := Therapists.new_session u t slot now]> (Db.sessions (db c)).
Proof.
  unfold Therapists.bookSession. run_handler.
  destruct (Therapists.user (page c)) as [u|]; [|by left].
  destruct (Therapists.selectedTherapist (page c)) as [t|]; [|by left].
  destruct (negb (truthy (user_id u)) || Therapists.booking (page c));
    [by left|].
  run_handler. right. exists u, t.
  by destruct (Db.therapistSlots (db c) !! slot.1).
Qed.

Lemma dashboard_bookSession_sessions
    (c : Client Dashboard.State) newId now slot :
  let r := Dashboard.bookSession newId now slot c in
  Db.sessions (db r.2) = Db.sessions (db c)
  ∨ ∃ u t,
      Db.sessions (db r.2)
      = <[newId := Therapists.new_session u t slot now]> (Db.sessions (db c)).
Proof.
  unfold Dashboard.bookSession. run_handler.
  destruct (Dashboard.user (page c)) as [u|]; [|by left].
  destruct (Dashboard.selectedTherapist (page c)) as [t|]; [|by left].
  destruct (negb (truthy (user_id u)) || Dashboard.booking (page c));
    [by left|].
  run_handler. right. exists u, t.
  by destruct (Db.therapistSlots (db c) !! slot.1).
Qed.

Lemma requestVideoCall_sessions (c : Client PatientSessions.State)
    now sid tid name :
  let r := PatientSessions.requestVideoCall now sid tid name c in
  Db.sessions (db r.2) = Db.sessions (db c)
  ∨ ∃ u s,
      Db.sessions (db c) !! sid = Some s
      ∧ Db.sessions (db r.2)
        = <[sid := write_request u now s]> (Db.sessions (db c)).
Proof.
  unfold PatientSessions.requestVideoCall. run_handler.
  destruct (PatientSessions.user (page c)) as [u|]; run_handler; [|by left].
  destruct (Db.sessions (db c) !! sid) as [s|] eqn:Hs; run_handler; [|by left].
  right. by exists (user_id u), s.
Qed.

Section CallInvariant.

Variable d : Firestore.
Hypothesis inv : call_invariant d.

Lemma invariant_same (d' : Firestore) :
  Db.sessions d' = Db.sessions d → call_invariant d'.
Proof. unfold call_invariant. by intros ->. Qed.

(** A write that keeps the call fields, or ends the call, or starts it
    with a room. *)
Lemma invariant_insert (d' : Firestore) sid s f :
  Db.sessions d !! sid = Some s →
  Db.sessions d' = <[sid := f s]> (Db.sessions d) →
  (active_has_room s → active_has_room (f s)) →
  call_invariant d'.
Proof.
  unfold call_invariant. intros Hs -> Hf.
  apply map_Forall_insert_2; [|done]. apply Hf. by eapply inv.
Qed.

Lemma invariant_insert_new (d' : Firestore) newId u t slot now :
  Db.sessions d'
  = <[newId := Therapists.new_session u t slot now]> (Db.sessions d) →
  call_invariant d'.
Proof.
  unfold call_invariant. intros ->. by apply map_Forall_insert_2.
Qed.

End CallInvariant.

Lemma write_status_keeps_room n now s :
  active_has_room s → active_has_room (write_status n now s).
Proof. done. Qed.

Lemma write_response_keeps_room r now s :
  active_has_room s → active_has_room (write_response r now s).
Proof. done. Qed.

Lemma write_request_keeps_room u now s :
  active_has_room s → active_has_room (write_request u now s).
Proof. done. Qed.

Lemma write_call_ended_no_call now s : active_has_room (write_call_ended now s).
Proof. done. Qed.

Lemma write_call_started_has_room room now s :
  truthy room = true → active_has_room (write_call_started room now s).
Proof. intros Hroom _. by exists room. Qed.

Lemma therapist_startVideoCall_invariant
    (c : Client TherapistSessions.State) tok answer now sid pid name :
  call_invariant (db c) →
  call_invariant
    (db (TherapistSessions.startVideoCall tok answer now sid pid name c).2).
Proof.
  intros Hinv.
  destruct (startVideoCall_sessions c tok answer now sid pid name)
    as [[Hdb _]|(s & room & Hs & Hdb & _ & Hroom)].
  - by eapply invariant_same.
  - eapply invariant_insert; [done..|]. intros _.
    by apply write_call_started_has_room.
Qed.

Lemma therapist_updateSessionStatus_invariant
    (c : Client TherapistSessions.State) noteId now sid n :
  call_invariant (db c) →
  call_invariant
    (db (TherapistSessions.updateSessionStatus noteId now sid n c).2).
Proof.
  intros Hinv.
  pose proof (updateSessionStatus_sessions c noteId now sid n) as H.
  cbn zeta in H. destruct (Db.sessions (db c) !! sid) as [s|] eqn:Hs;
    destruct H as [Hdb _].
  - eapply invariant_insert; [done..|]. apply write_status_keeps_room.
  - by eapply invariant_same.
Qed.

Lemma therapist_respond_invariant
    (c : Client TherapistSessions.State) now sid resp pid name :
  call_invariant (db c) →
  call_invariant
    (db (TherapistSessions.respondToVideoCallRequest
           now sid resp pid name c).2).
Proof.
  intros Hinv.
  pose proof (respondToVideoCallRequest_sessions c now sid resp pid name) as H.
  cbn zeta in H. destruct (Db.sessions (db c) !! sid) as [s|] eqn:Hs;
    destruct H as [Hdb _].
  - eapply invariant_insert; [done..|]. apply write_response_keeps_room.
  - by eapply invariant_same.
Qed.

Lemma db_step_invariant d d' :
  db_step d d' → call_invariant d → call_invariant d'.
Proof.
  intros Hstep Hinv.
  destruct Hstep as [c newId now slot|c newId now slot
                    |c tok answer noteId now k|c tok answer now t
                    |c noteId now k|c now k|c answer slotId|d d' Hsame].
  - destruct (bookSession_sessions c newId now slot) as [Hdb|(u & t & Hdb)].
    + by eapply invariant_same.
    + by eapply invariant_insert_new.
  - destruct (dashboard_bookSession_sessions c newId now slot)
      as [Hdb|(u & t & Hdb)].
    + by eapply invariant_same.
    + by eapply invariant_insert_new.
  - destruct k as [sid|sid|sid pid name|sid pid|sid pid name| |sid];
      cbn [TherapistSessions.press].
    + by apply therapist_updateSessionStatus_invariant.
    + by apply therapist_updateSessionStatus_invariant.
    + by apply therapist_respond_invariant.
    + by apply therapist_respond_invariant.
    + by apply therapist_startVideoCall_invariant.
    + destruct (endVideoCall_sessions c now)
        as [_ [Hdb|(sid & s & Hs & Hdb)]].
      * by eapply invariant_same.
      * eapply invariant_insert; [done..|]. intros _.
        apply write_call_ended_no_call.
    + by apply therapist_updateSessionStatus_invariant.
  - destruct t as [|sid pid name]; cbn [TherapistSessions.fire]; [done|].
    by apply therapist_startVideoCall_invariant.
  - pose proof (old_updateSessionStatus_sessions c noteId now) as H.
    destruct k as [sid|sid|sid]; cbn [TherapistSessionsOld.press];
      match goal with
      | |- context [TherapistSessionsOld.updateSessionStatus _ _ ?i ?n] =>
          specialize (H i n)
      end;
      cbn zeta in H;
      destruct (Db.sessions (db c) !! sid) as [s|] eqn:Hs;
      destruct H as (Hdb & _);
      solve [ by eapply invariant_same
            | eapply invariant_insert; [done..|];
              apply write_status_keeps_room ].
  - destruct k as [sid tid name|sid tid name room|];
      cbn [PatientSessions.press]; [|done..].
    destruct (requestVideoCall_sessions c now sid tid name)
      as [Hdb|(u & s & Hs & Hdb)].
    + by eapply invariant_same.
    + eapply invariant_insert; [done..|]. apply write_request_keeps_room.
  - eapply invariant_same; [done|].
    unfold TherapistSlots.handleRemoveSlot, TherapistSlots.removeSlot.
    by destruct answer.
  - by eapply invariant_same.
Qed.

Lemma db_run_invariant d d' :
  rtc db_step d d' → call_invariant d → call_invariant d'.
Proof.
  induction 1 as [|d1 d2 d3 Hstep _ IH]; [done|].
  intros Hinv. apply IH. by eapply db_step_invariant.
Qed.

Lemma reachable_invariant d : reachable d → call_invariant d.
Proof.
  intros (d0 & Hempty & Hrun). eapply db_run_invariant; [done|].
  unfold call_invariant. rewrite Hempty. apply map_Forall_empty.
Qed.

Lemma patient_buttons_inv (p : PatientSessions.State) now k id :
  k ∈ PatientSessions.buttons p now →
  PatientSessions.call_session k = Some id →
  ∃ y, (id, y) ∈ PatientSessions.sessions p ∧ status y = confirmed.
Proof.
  unfold PatientSessions.buttons.
  destruct (PatientSessions.loading p); [by intros ?%elem_of_nil|].
  rewrite elem_of_app, list_elem_of_bind.
  intros [([i y] & Hk & Hin)|Hk] Hid.
  - exists y. revert Hk.
    unfold PatientSessions.session_buttons, PatientSessions.join_buttons,
      PatientSessions.request_button.
    cbn. destruct (status y); try by intros ?%elem_of_nil.
    intros Hk. split; [|done].
    repeat case_match; rewrite ?elem_of_cons, ?elem_of_nil in Hk;
      destruct_or?; subst; try done; cbn in Hid; by simplify_eq.
  - repeat case_match; rewrite ?elem_of_cons, ?elem_of_nil in Hk;
      destruct_or?; subst; done.
Qed.

Lemma therapist_buttons_inv (p : TherapistSessions.State) k id :
  k ∈ TherapistSessions.buttons p →
  TherapistSessions.call_session k = Some id →
  ∃ y, (id, y) ∈ TherapistSessions.sessions p ∧ status y = confirmed.
Proof.
  intros [->|([i y] & Hin & Hk)]%buttons_inv Hid; [done|].
  apply status_button_inv in Hk. exists y.
  destruct k; cbn in *; simplify_eq; by destruct Hk as [-> ?].
Qed.

(** C8, as the code has it.  In every state of the database that the pages
    can produce, a session whose call is active has a room: the same
    non-empty [videoCallRoomId] and [meetingId].  Its request need not be
    accepted.  The buttons of the call negotiation (request and join on
    the patient's page; accept, decline and start on the therapist's) are
    there only for sessions that the page holds as confirmed. *)
Theorem active_call_has_a_room :
  (∀ d id s,
     reachable d → Db.sessions d !! id = Some s → active_has_room s)
  ∧ (∀ (p : PatientSessions.State) now k id,
       k ∈ PatientSessions.buttons p now →
       PatientSessions.call_session k = Some id →
       ∃ y, (id, y) ∈ PatientSessions.sessions p ∧ status y = confirmed)
  ∧ (∀ (p : TherapistSessions.State) k id,
       k ∈ TherapistSessions.buttons p →
       TherapistSessions.call_session k = Some id →
       ∃ y, (id, y) ∈ TherapistSessions.sessions p ∧ status y = confirmed).
Proof.
  split_and!.
  - intros d id s Hd Hs. by apply (reachable_invariant d Hd id s).
  - apply patient_buttons_inv.
  - apply therapist_buttons_inv.
Qed.

(** The database in which Tess has started the call: Ann books, Tess
    accepts the booking and starts the call. *)
Lemma tess_starts_reachable : reachable (db Scenario.tess_starts).
Proof.
  exists Scenario.db_open. split; [reflexivity|].
  eapply rtc_l.
  { exact (db_bookSession Scenario.ann_looks "sA" 1000
             ("slot1", Scenario.slot10)). }
  eapply rtc_l.
  { exact (db_therapist_press Scenario.tess_opens
             "token" (FetchFails "unused") "n1" 3000
             (TherapistSessions.AcceptBooking "sA")). }
  apply rtc_once.
  exact (db_therapist_press Scenario.tess_accepts
           "token" (Responds (Some "room1")) "n2" 4000
           (TherapistSessions.StartCall "sA" "ann" "Ann")).
Qed.

Lemma active_call_has_a_room_witness :
  active_has_room Scenario.ann_session_in_call.
Proof.
  refine (proj1 active_call_has_a_room
            (db Scenario.tess_starts) "sA" Scenario.ann_session_in_call _ _).
  - exact tess_starts_reachable.
  - vm_compute; reflexivity.
Defined.

(** C8, as the specification has it, fails: on Ann's confirmed session,
    which has no request, the therapist's page has the button that starts
    the call; once pressed, the call is active and no request is accepted. *)
Lemma active_call_without_request :
  TherapistSessions.buttons (page Scenario.tess_accepts)
  = [TherapistSessions.StartCall "sA" "ann" "Ann";
     TherapistSessions.MarkComplete "sA"]
  ∧ reachable (db Scenario.tess_starts)
  ∧ Db.sessions (db Scenario.tess_starts) !! "sA"
    = Some Scenario.ann_session_in_call
  ∧ videoCallStatus Scenario.ann_session_in_call = Some active
  ∧ videoCallRequest Scenario.ann_session_in_call = None
  ∧ ¬ active_is_accepted Scenario.ann_session_in_call.
Proof.
  split_and!; try (vm_compute; reflexivity).
  - exact tess_starts_reachable.
  - intros H. destruct H as (q & Hq & _); [reflexivity|]. discriminate Hq.
Qed.

(** * Further properties of the handlers *)

(** ** Booking *)

(** X1: [bookSession] does nothing at all (no write, no alert, no change of
    the page) when no user is logged in, the user has no id, no therapist
    is selected, or a booking is already running. *)
Theorem bookSession_guard (c : Client Therapists.State) newId now slot :
  Therapists.user (page c) = None
  ∨ (∃ u, Therapists.user (page c) = Some u ∧ truthy (user_id u) = false)
  ∨ Therapists.selectedTherapist (page c) = None
  ∨ Therapists.booking (page c) = true →
  Therapists.bookSession newId now slot c = (Returned tt, c).
Proof.
  unfold Therapists.bookSession. run_handler.
  intros [Hu|[(u & Hu & Hid)|[Ht|Hb]]].
  - by rewrite Hu.
  - rewrite Hu, Hid. by destruct (Therapists.selectedTherapist (page c)).
  - rewrite Ht. by destruct (Therapists.user (page c)).
  - rewrite Hb.
    destruct (Therapists.user (page c)) as [u|]; [|done].
    destruct (Therapists.selectedTherapist (page c)); [|done].
    by rewrite orb_true_r.
Qed.

Lemma bookSession_guard_witness :
  Therapists.bookSession "sA" 1000 ("slot1", Scenario.slot10) Cases.ann_busy
  = (Returned tt, Cases.ann_busy).
Proof.
  apply bookSession_guard. do 3 right. reflexivity.
Defined.

(** X2: when the slot's document no longer exists, [bookSession] has
    already added the session: the session stays in the database, no slot
    is written, the patient is told that the booking failed, and no
    navigation is scheduled. *)
Theorem bookSession_without_slot_document
    (c : Client Therapists.State) newId now slot u t :
  Therapists.user (page c) = Some u →
  truthy (user_id u) = true →
  Therapists.selectedTherapist (page c) = Some t →
  Therapists.booking (page c) = false →
  Db.therapistSlots (db c) !! slot.1 = None →
  let r := Therapists.bookSession newId now slot c in
  r.1 = Returned tt
  ∧ Db.sessions (db r.2)
    = <[newId := Therapists.new_session u t slot now]> (Db.sessions (db c))
  ∧ Db.therapistSlots (db r.2) = Db.therapistSlots (db c)
  ∧ alerts r.2 = alerts c ++ ["Failed to book session. Please try again."]
  ∧ timers r.2 = timers c
  ∧ page r.2 = page c.
Proof.
  intros Hu Hid Ht Hb Hs.
  unfold Therapists.bookSession. run_handler.
  rewrite Hu, Ht, Hid, Hb. cbn. run_handler. rewrite Hs. cbn.
  split_and!; try done.
  destruct (page c); cbn in *. by subst.
Qed.

Lemma bookSession_without_slot_document_witness :
  alerts (Therapists.bookSession "sA" 1000 ("slot1", Scenario.slot10)
            Cases.ann_late).2
  = alerts Cases.ann_late ++ ["Failed to book session. Please try again."].
Proof.
  refine (proj1 (proj2 (proj2 (proj2
            (bookSession_without_slot_document Cases.ann_late "sA" 1000
               ("slot1", Scenario.slot10) Scenario.ann Scenario.dr_tess
               _ _ _ _ _))))).
  - reflexivity.
  - reflexivity.
  - reflexivity.
  - reflexivity.
  - vm_compute; reflexivity.
Defined.

Lemma loadSlots_lists (c : Client Therapists.State) t ds x :
  Therapists.selectedTherapist (page c) = Some t →
  x ∈ Therapists.availableSlots (page (Therapists.loadSlots (Some ds) c).2)
  ↔ Db.therapistSlots (db c) !! x.1 = Some x.2
    ∧ slot_therapistId x.2 = therapist_id t
    ∧ slot_date x.2 = ds
    ∧ isBooked x.2 = false.
Proof.
  intros Ht. unfold Therapists.loadSlots. run_handler. rewrite Ht. cbn.
  unfold Therapists.query_slots.
  rewrite !list_elem_of_filter. destruct x as [id s]. cbn.
  rewrite elem_of_map_to_list. tauto.
Qed.

Lemma bookSession_success (c : Client Therapists.State) newId now slot u t sl :
  Therapists.user (page c) = Some u →
  truthy (user_id u) = true →
  Therapists.selectedTherapist (page c) = Some t →
  Therapists.booking (page c) = false →
  Db.therapistSlots (db c) !! slot.1 = Some sl →
  let r := Therapists.bookSession newId now slot c in
  Db.therapistSlots (db r.2)
  = <[slot.1 := Therapists.mark_booked (user_id u) now sl]>
      (Db.therapistSlots (db c))
  ∧ Therapists.availableSlots (page r.2)
    = filter (λ s : Local Slot, s.1 ≠ slot.1)
        (Therapists.availableSlots (page c)).
Proof.
  intros Hu Hid Ht Hb Hs.
  unfold Therapists.bookSession. run_handler.
  rewrite Hu, Ht, Hid, Hb. cbn. run_handler. by rewrite Hs.
Qed.

(** X3: after a booking that found the slot's document, the slot is
    stored as booked and is no longer in the list of the patient who booked
    it; and whenever the store does not hold the slot as free, that is, for
    as long as no cancellation has released it, no patient who loads the
    slots, for any therapist and day, is offered it. *)
Theorem booked_slot_leaves_the_lists
    (c c2 : Client Therapists.State) newId now slot u t sl t2 ds
    (later : Firestore) :
  Therapists.user (page c) = Some u →
  truthy (user_id u) = true →
  Therapists.selectedTherapist (page c) = Some t →
  Therapists.booking (page c) = false →
  Db.therapistSlots (db c) !! slot.1 = Some sl →
  Therapists.selectedTherapist (page c2) = Some t2 →
  (isBooked <$> Db.therapistSlots later !! slot.1) ≠ Some false →
  let r := Therapists.bookSession newId now slot c in
  (∀ x, x ∈ Therapists.availableSlots (page r.2) → x.1 ≠ slot.1)
  ∧ Db.therapistSlots (db r.2) !! slot.1
    = Some (Therapists.mark_booked (user_id u) now sl)
  ∧ isBooked (Therapists.mark_booked (user_id u) now sl) = true
  ∧ (∀ x,
       x ∈ Therapists.availableSlots
             (page (Therapists.loadSlots (Some ds) (sees later c2)).2) →
       x.1 ≠ slot.1).
Proof.
  intros Hu Hid Ht Hb Hs Ht2 Hlater r.
  destruct (bookSession_success c newId now slot u t sl Hu Hid Ht Hb Hs)
    as [Hslots Hlist].
  fold r in Hslots, Hlist. split_and!.
  - intros x. rewrite Hlist. by intros [? _]%list_elem_of_filter.
  - by rewrite Hslots, lookup_insert_eq.
  - done.
  - intros x [Hx (_ & _ & Hfree)]%(loadSlots_lists _ t2); [|done].
    intros Heq. apply Hlater.
    change (Db.therapistSlots later !! x.1 = Some x.2) in Hx.
    by rewrite <-Heq, Hx, <-Hfree.
Qed.

Lemma booked_slot_leaves_the_lists_witness :
  Forall (λ x : Local Slot, x.1 ≠ "slot1")
    (Therapists.availableSlots
       (page (Therapists.loadSlots (Some "2025-06-01")
                (sees (db Scenario.tess_accepts) Scenario.bob_looks)).2)).
Proof.
  apply Forall_forall.
  refine (proj2 (proj2 (proj2
            (booked_slot_leaves_the_lists Scenario.ann_looks
               Scenario.bob_looks "sA" 1000 ("slot1", Scenario.slot10)
               Scenario.ann Scenario.dr_tess Scenario.slot10
               Scenario.dr_tess "2025-06-01" (db Scenario.tess_accepts)
               _ _ _ _ _ _ _)))).
  - reflexivity.
  - reflexivity.
  - reflexivity.
  - reflexivity.
  - vm_compute; reflexivity.
  - reflexivity.
  - vm_compute. discriminate.
Defined.

(** X4: the two pages that book, the list of therapists and the
    dashboard, book alike: from the same database, alerts, user,
    therapist and booking flag, they give the same outcome, database and
    alerts. *)
Theorem dashboard_books_like_the_list
    (c1 : Client Therapists.State) (c2 : Client Dashboard.State)
    newId now slot :
  db c1 = db c2 →
  alerts c1 = alerts c2 →
  Therapists.user (page c1) = Dashboard.user (page c2) →
  Therapists.selectedTherapist (page c1)
  = Dashboard.selectedTherapist (page c2) →
  Therapists.booking (page c1) = Dashboard.booking (page c2) →
  let r1 := Therapists.bookSession newId now slot c1 in
  let r2 := Dashboard.bookSession newId now slot c2 in
  r1.1 = r2.1
  ∧ db r1.2 = db r2.2
  ∧ alerts r1.2 = alerts r2.2
  ∧ Therapists.booking (page r1.2) = Dashboard.booking (page r2.2).
Proof.
  intros Hdb Hal Hu Ht Hb.
  unfold Therapists.bookSession, Dashboard.bookSession. run_handler.
  rewrite <-Hu, <-Ht, <-Hb.
  destruct (Therapists.user (page c1)) as [u|]; [|done].
  destruct (Therapists.selectedTherapist (page c1)) as [t|]; [|done].
  destruct (negb (truthy (user_id u)) || Therapists.booking (page c1)) eqn:Hg;
    [done|].
  run_handler. rewrite <-Hdb, <-Hal.
  by destruct (Db.therapistSlots (db c1) !! slot.1).
Qed.

Lemma dashboard_books_like_the_list_witness :
  db (Therapists.bookSession "sA" 1000 ("slot1", Scenario.slot10)
        Scenario.ann_looks).2
  = db (Dashboard.bookSession "sA" 1000 ("slot1", Scenario.slot10)
          Cases.ann_dashboard).2.
Proof.
  refine (proj1 (proj2
            (dashboard_books_like_the_list Scenario.ann_looks
               Cases.ann_dashboard "sA" 1000 ("slot1", Scenario.slot10)
               _ _ _ _ _))).
  - reflexivity.
  - reflexivity.
  - reflexivity.
  - reflexivity.
  - reflexivity.
Defined.

(** ** The status of a session *)

(** X5: cancelling a session whose slot is booked writes the status
    [cancelled], clears the booking of the slot, and a patient who then
    loads the slots of that therapist and day is offered the slot
    again. *)
Theorem cancelled_slot_is_offered_again
    (c : Client TherapistSessions.State) (c2 : Client Therapists.State)
    noteId now sid s y slot sl t2 :
  Db.sessions (db c) !! sid = Some s →
  find_session sid (TherapistSessions.sessions (page c)) = Some y →
  slotId y = Some slot →
  truthy slot = true →
  Db.therapistSlots (db c) !! slot = Some sl →
  Therapists.selectedTherapist (page c2) = Some t2 →
  slot_therapistId sl = therapist_id t2 →
  let r :=
    TherapistSessions.updateSessionStatus noteId now sid to_cancelled c in
  (status <$> Db.sessions (db r.2) !! sid) = Some cancelled
  ∧ Db.therapistSlots (db r.2) !! slot = Some (release sl)
  ∧ isBooked (release sl) = false
  ∧ bookedBy (release sl) = None
  ∧ bookedAt (release sl) = None
  ∧ (slot, release sl)
    ∈ Therapists.availableSlots
        (page (Therapists.loadSlots (Some (slot_date sl))
                 (sees (db r.2) c2)).2).
Proof.
  intros Hs Hy Hslot Htruthy Hsl Ht2 Htid r.
  destruct (updateSessionStatus_cancel_releases c noteId now sid s y slot sl
              Hs Hy Hslot Htruthy Hsl) as (_ & Hsession & Hslots).
  fold r in Hsession, Hslots.
  assert (Db.therapistSlots (db r.2) !! slot = Some (release sl)) as Hrel.
  { by rewrite Hslots, lookup_insert_eq. }
  split_and!; try done.
  - by rewrite Hsession.
  - apply (loadSlots_lists _ t2); [done|]. by split_and!.
Qed.

Lemma cancelled_slot_is_offered_again_witness :
  Db.therapistSlots
    (db (TherapistSessions.updateSessionStatus "n1" 3000 "sA" to_cancelled
           Scenario.tess_opens).2) !! "slot1"
  = Some (release Scenario.booked_slot).
Proof.
  refine (proj1 (proj2
            (cancelled_slot_is_offered_again Scenario.tess_opens
               Scenario.bob_looks "n1" 3000 "sA" Scenario.ann_session
               Scenario.ann_session "slot1" Scenario.booked_slot
               Scenario.dr_tess _ _ _ _ _ _ _))).
  - vm_compute; reflexivity.
  - reflexivity.
  - reflexivity.
  - reflexivity.
  - vm_compute; reflexivity.
  - reflexivity.
  - reflexivity.
Defined.

(** X6: [updateSessionStatus] writes a slot only when it cancels, and a
    note only when it completes. *)
Theorem updateSessionStatus_other_collections
    (c : Client TherapistSessions.State) noteId now sid n :
  let r := TherapistSessions.updateSessionStatus noteId now sid n c in
  (n ≠ to_cancelled →
   Db.therapistSlots (db r.2) = Db.therapistSlots (db c))
  ∧ (n ≠ to_completed →
     Db.sessionNotes (db r.2) = Db.sessionNotes (db c)).
Proof.
  unfold TherapistSessions.updateSessionStatus, TherapistSessions.save_notes.
  run_handler.
  destruct (Db.sessions (db c) !! sid) as [s|]; cbn; [|done].
  destruct n; run_handler;
    repeat (case_match; simplify_eq/=; run_handler); by split.
Qed.

Lemma updateSessionStatus_other_collections_witness :
  Db.therapistSlots
    (db (TherapistSessions.updateSessionStatus "n1" 3000 "sA" to_confirmed
           Scenario.tess_opens).2)
  = Db.therapistSlots (db Scenario.tess_opens).
Proof.
  refine (proj1 (updateSessionStatus_other_collections Scenario.tess_opens
                   "n1" 3000 "sA" to_confirmed) _).
  discriminate.
Defined.

(** X7: when the session's document does not exist, [updateSessionStatus]
    writes nothing, leaves the sessions of the page as they are, tells the
    therapist that the update failed, and clears [updating]. *)
Theorem updateSessionStatus_missing_session
    (c : Client TherapistSessions.State) noteId now sid n :
  Db.sessions (db c) !! sid = None →
  let r := TherapistSessions.updateSessionStatus noteId now sid n c in
  r.1 = Returned tt
  ∧ db r.2 = db c
  ∧ TherapistSessions.sessions (page r.2)
    = TherapistSessions.sessions (page c)
  ∧ TherapistSessions.updating (page r.2) = None
  ∧ alerts r.2 = alerts c ++ ["Failed to update session status"].
Proof.
  intros Hs. unfold TherapistSessions.updateSessionStatus. run_handler.
  by rewrite Hs.
Qed.

Lemma updateSessionStatus_missing_session_witness :
  db (TherapistSessions.updateSessionStatus "n1" 3000 "sA" to_confirmed
        Cases.tess_stale).2
  = db Cases.tess_stale.
Proof.
  refine (proj1 (proj2
            (updateSessionStatus_missing_session Cases.tess_stale
               "n1" 3000 "sA" to_confirmed _))).
  vm_compute; reflexivity.
Defined.

(** X8: completing a session for which the therapist has typed notes
    marks it completed and adds exactly one note, with the session, the
    therapist, the patient of the session and the text typed; no alert is
    raised. *)
Theorem completing_saves_the_notes
    (c : Client TherapistSessions.State) noteId now sid s u y text :
  Db.sessions (db c) !! sid = Some s →
  TherapistSessions.user (page c) = Some u →
  find_session sid (TherapistSessions.sessions (page c)) = Some y →
  TherapistSessions.sessionNotes (page c) !! sid = Some text →
  truthy text = true →
  let r := TherapistSessions.updateSessionStatus noteId now sid to_completed c in
  r.1 = Returned tt
  ∧ alerts r.2 = alerts c
  ∧ (status <$> Db.sessions (db r.2) !! sid) = Some completed
  ∧ Db.sessionNotes (db r.2)
    = <[noteId := {| note_sessionId := sid;
                     note_therapistId := user_id u;
                     note_patientId := patientId y;
                     content := text;
                     note_createdAt := now |}]> (Db.sessionNotes (db c)).
Proof.
  intros Hs Hu Hy Htext Htruthy.
  unfold TherapistSessions.updateSessionStatus, TherapistSessions.save_notes.
  run_handler. rewrite Hs. run_handler. rewrite Htext, Htruthy, Hu, Hy.
  run_handler. by rewrite lookup_insert_eq.
Qed.

Lemma completing_saves_the_notes_witness :
  (status
   <$> Db.sessions
         (db (TherapistSessions.updateSessionStatus "n4" 6000 "sA"
                to_completed Cases.tess_notes).2) !! "sA")
  = Some completed.
Proof.
  refine (proj1 (proj2 (proj2
            (completing_saves_the_notes Cases.tess_notes "n4" 6000 "sA"
               Scenario.ann_confirmed Scenario.tess Scenario.ann_confirmed
               "Went well" _ _ _ _ _)))).
  - vm_compute; reflexivity.
  - reflexivity.
  - reflexivity.
  - vm_compute; reflexivity.
  - reflexivity.
Defined.

(** X9: completing a session for which no notes, or empty notes, are
    typed adds no note. *)
Theorem completing_without_notes
    (c : Client TherapistSessions.State) noteId now sid :
  default EmptyString (TherapistSessions.sessionNotes (page c) !! sid)
  = EmptyString →
  let r := TherapistSessions.updateSessionStatus noteId now sid to_completed c in
  Db.sessionNotes (db r.2) = Db.sessionNotes (db c).
Proof.
  intros Htext.
  unfold TherapistSessions.updateSessionStatus, TherapistSessions.save_notes.
  run_handler.
  destruct (Db.sessions (db c) !! sid) as [s|]; run_handler; [|done].
  destruct (TherapistSessions.sessionNotes (page c) !! sid) as [text|];
    cbn in *; [|done].
  by rewrite Htext.
Qed.

Lemma completing_without_notes_witness :
  Db.sessionNotes
    (db (TherapistSessions.updateSessionStatus "n4" 6000 "sA" to_completed
           Scenario.tess_accepts).2)
  = Db.sessionNotes (db Scenario.tess_accepts).
Proof.
  apply completing_without_notes. vm_compute; reflexivity.
Defined.

(** X10: once no button of the page is busy, none is left busy by any
    press: whatever the press does, and however it fails, [updating] and
    [videoCallLoading] are cleared again. *)
Theorem press_releases_the_buttons
    (c : Client TherapistSessions.State) authToken answer noteId now k :
  TherapistSessions.updating (page c) = None →
  TherapistSessions.videoCallLoading (page c) = None →
  let r := TherapistSessions.press authToken answer noteId now k c in
  TherapistSessions.updating (page r.2) = None
  ∧ TherapistSessions.videoCallLoading (page r.2) = None
  ∧ TherapistSessions.user (page r.2) = TherapistSessions.user (page c)
  ∧ TherapistSessions.loading (page r.2) = TherapistSessions.loading (page c).
Proof.
  intros Hu Hl.
  destruct k; cbn [TherapistSessions.press];
    unfold TherapistSessions.updateSessionStatus, TherapistSessions.save_notes,
      TherapistSessions.respondToVideoCallRequest,
      TherapistSessions.startVideoCall, TherapistSessions.endVideoCall;
    run_handler;
    repeat (case_match;
            unfold bind, try_catch, finally, ret, throw, get_page, set_page,
              get_db, set_db, alert, console_error, setTimeout, http_request,
              addDoc_note in *;
            simplify_eq/=);
    by split_and!.
Qed.

Lemma press_releases_the_buttons_witness :
  TherapistSessions.updating
    (page (TherapistSessions.press "token" (FetchFails "offline") "n1" 3000
             (TherapistSessions.StartCall "sA" "ann" "Ann")
             Scenario.tess_accepts).2)
  = None.
Proof.
  refine (proj1 (press_releases_the_buttons Scenario.tess_accepts "token"
                   (FetchFails "offline") "n1" 3000
                   (TherapistSessions.StartCall "sA" "ann" "Ann") _ _)).
  - reflexivity.
  - reflexivity.
Defined.

(** ** Video calls *)

(** X11: ending the call marks it ended at that time and keeps the room
    of the session; the page leaves the call, and ending once more does
    nothing. *)
Theorem endVideoCall_ends_once
    (c : Client TherapistSessions.State) now later a s :
  TherapistSessions.activeVideoCall (page c) = Some a →
  Db.sessions (db c) !! TherapistSessions.call_sessionId a = Some s →
  let r := TherapistSessions.endVideoCall now c in
  r.1 = Returned tt
  ∧ alerts r.2 = alerts c
  ∧ Db.sessions (db r.2)
    = <[TherapistSessions.call_sessionId a := write_call_ended now s]>
        (Db.sessions (db c))
  ∧ videoCallStatus (write_call_ended now s) = Some ended
  ∧ videoCallEnded (write_call_ended now s) = Some now
  ∧ videoCallRoomId (write_call_ended now s) = videoCallRoomId s
  ∧ meetingId (write_call_ended now s) = meetingId s
  ∧ TherapistSessions.activeVideoCall (page r.2) = None
  ∧ TherapistSessions.endVideoCall later r.2 = (Returned tt, r.2).
Proof.
  intros Ha Hs. unfold TherapistSessions.endVideoCall. run_handler.
  rewrite Ha. run_handler. rewrite Hs. done.
Qed.

Lemma endVideoCall_ends_once_witness :
  TherapistSessions.activeVideoCall
    (page (TherapistSessions.endVideoCall 9000 Scenario.tess_starts).2)
  = None.
Proof.
  refine (proj1 (proj2 (proj2 (proj2 (proj2 (proj2 (proj2 (proj2
            (endVideoCall_ends_once Scenario.tess_starts 9000 9500
               {| TherapistSessions.call_sessionId := "sA";
                  TherapistSessions.call_patientName := "Ann";
                  TherapistSessions.call_patientId := "ann";
                  TherapistSessions.call_meetingId := Some "room1" |}
               Scenario.ann_session_in_call _ _))))))))).
  - vm_compute; reflexivity.
  - vm_compute; reflexivity.
Defined.

(** X12: when the session's document does not exist, ending the call
    writes nothing, tells the therapist that it failed, and the page stays
    in the call. *)
Theorem endVideoCall_missing_session
    (c : Client TherapistSessions.State) now a :
  TherapistSessions.activeVideoCall (page c) = Some a →
  Db.sessions (db c) !! TherapistSessions.call_sessionId a = None →
  let r := TherapistSessions.endVideoCall now c in
  r.1 = Returned tt
  ∧ db r.2 = db c
  ∧ TherapistSessions.activeVideoCall (page r.2) = Some a
  ∧ alerts r.2 = alerts c ++ ["Failed to end video call properly."].
Proof.
  intros Ha Hs. unfold TherapistSessions.endVideoCall. run_handler.
  rewrite Ha. run_handler. rewrite Hs. done.
Qed.

Lemma endVideoCall_missing_session_witness :
  db (TherapistSessions.endVideoCall 9000 Cases.tess_call_stale).2
  = db Cases.tess_call_stale.
Proof.
  refine (proj1 (proj2
            (endVideoCall_missing_session Cases.tess_call_stale 9000
               {| TherapistSessions.call_sessionId := "sA";
                  TherapistSessions.call_patientName := "Ann";
                  TherapistSessions.call_patientId := "ann";
                  TherapistSessions.call_meetingId := Some "room1" |}
               _ _))).
  - vm_compute; reflexivity.
  - vm_compute; reflexivity.
Defined.

(** X13: the therapist's page offers the start of a call only on a
    confirmed session whose request is not pending, and then the only
    other button of the session is the one that completes it: starting
    and answering a request are never offered together. *)
Theorem start_is_offered_alone
    (p : TherapistSessions.State) (x : Local Session) sid pid name :
  TherapistSessions.StartCall sid pid name
  ∈ TherapistSessions.session_buttons p x →
  status x.2 = confirmed
  ∧ request_pending x.2 = false
  ∧ ∀ k, k ∈ TherapistSessions.session_buttons p x →
      k = TherapistSessions.StartCall x.1 (patientId x.2)
            (TherapistSessions.display_name p x.2)
      ∨ k = TherapistSessions.MarkComplete x.1.
Proof.
  unfold TherapistSessions.session_buttons.
  destruct (status x.2); [| |by intros ?%elem_of_nil..].
  - destruct (same_id _ _); rewrite ?elem_of_cons, ?elem_of_nil;
      intros Hk; destruct_or?; done.
  - destruct (request_pending x.2) eqn:Hp; cbn;
      repeat (destruct (same_id _ _); cbn);
      rewrite ?elem_of_cons, ?elem_of_nil;
      intros Hk; destruct_or?; try done;
      (split; [done|]); (split; [done|]); intros k;
      rewrite ?elem_of_cons, ?elem_of_nil; tauto.
Qed.

Lemma start_is_offered_alone_witness :
  request_pending Scenario.ann_confirmed = false.
Proof.
  refine (proj1 (proj2
            (start_is_offered_alone (page Scenario.tess_accepts)
               ("sA", Scenario.ann_confirmed) "sA" "ann" "Ann" _))).
  vm_compute. apply list_elem_of_here.
Defined.

(** X14: declining a request records the refusal, schedules no call, and
    the alert that confirms it names no patient: the button passes an
    empty name. *)
Theorem decline_alert_has_no_name
    (c : Client TherapistSessions.State) authToken answer noteId now
    sid pid s :
  Db.sessions (db c) !! sid = Some s →
  let r :=
    TherapistSessions.press authToken answer noteId now
      (TherapistSessions.DeclineCall sid pid) c in
  alerts r.2 = alerts c ++ ["Video call request declined for ."]
  ∧ timers r.2 = timers c
  ∧ (request_status <$> (Db.sessions (db r.2) !! sid ≫= videoCallRequest))
    = Some declined.
Proof.
  intros Hs. cbn [TherapistSessions.press].
  unfold TherapistSessions.respondToVideoCallRequest. run_handler.
  rewrite Hs. run_handler. rewrite lookup_insert_eq. cbn.
  by destruct (videoCallRequest s).
Qed.

Lemma decline_alert_has_no_name_witness :
  alerts (TherapistSessions.press "token" (FetchFails "unused") "n1" 3600
            (TherapistSessions.DeclineCall "sA" "ann")
            Scenario.tess_is_asked).2
  = alerts Scenario.tess_is_asked ++ ["Video call request declined for ."].
Proof.
  refine (proj1 (decline_alert_has_no_name Scenario.tess_is_asked "token"
                   (FetchFails "unused") "n1" 3600 "sA" "ann"
                   Scenario.ann_asks _)).
  vm_compute; reflexivity.
Defined.

(** X15: when the therapist accepts a request and the provider then
    gives no room, the request stays accepted and the call is not
    started; the therapist is told that the start failed, and the page
    offers the start again. *)
Theorem failed_start_after_accept_can_be_retried
    (c : Client TherapistSessions.State) now later sid pid name
    s y u answer authToken :
  Db.sessions (db c) !! sid = Some s →
  TherapistSessions.sessions (page c) = [(sid, y)] →
  status y = confirmed →
  TherapistSessions.user (page c) = Some u →
  truthy (user_id u) = true →
  TherapistSessions.loading (page c) = false →
  TherapistSessions.updating (page c) = None →
  TherapistSessions.activeVideoCall (page c) = None →
  request_pending y = true →
  provisioning_fails answer →
  let r :=
    TherapistSessions.respondToVideoCallRequest now sid resp_accepted
      pid name c in
  let r' :=
    TherapistSessions.fire authToken answer later
      (StartVideoCall sid pid name) r.2 in
  Db.sessions (db r'.2) !! sid = Some (write_response resp_accepted now s)
  ∧ videoCallStatus (write_response resp_accepted now s) = videoCallStatus s
  ∧ alerts r'.2
    = alerts c ++ ["Failed to start video call. Please try again."]
  ∧ TherapistSessions.buttons (page r'.2)
    = [TherapistSessions.StartCall sid (patientId y)
         (TherapistSessions.display_name (page c) y);
       TherapistSessions.MarkComplete sid].
Proof.
  intros Hs Hl Hst Hu Hid Hload Hupd Hact Hpend Hfail.
  unfold TherapistSessions.fire, TherapistSessions.startVideoCall,
    TherapistSessions.respondToVideoCallRequest.
  run_handler. rewrite Hs. run_handler.
  assert (∃ q, videoCallRequest y = Some q) as [q Hq].
  { unfold request_pending in Hpend. destruct (videoCallRequest y); [eauto|done]. }
  destruct answer as [e|[room|]]; cbn in Hfail; run_handler;
    rewrite ?Hfail; run_handler; rewrite ?lookup_insert_eq;
    (split_and!; [done|by destruct (videoCallRequest s)|done|]);
    unfold TherapistSessions.buttons; cbn; rewrite Hload, Hu, Hl; cbn;
    rewrite Hid; unfold map_session; cbn; rewrite String.eqb_refl; cbn;
    unfold TherapistSessions.session_buttons, request_pending,
      TherapistSessions.display_name, local_response; cbn;
    rewrite Hst, Hq, Hupd, Hact; cbn; done.
Qed.

Lemma failed_start_after_accept_can_be_retried_witness :
  alerts
    (TherapistSessions.fire "token" (FetchFails "offline") 4100
       (StartVideoCall "sA" "ann" "Ann")
       (TherapistSessions.respondToVideoCallRequest 3600 "sA" resp_accepted
          "ann" "Ann" Scenario.tess_is_asked).2).2
  = alerts Scenario.tess_is_asked
    ++ ["Failed to start video call. Please try again."].
Proof.
  refine (proj1 (proj2 (proj2
            (failed_start_after_accept_can_be_retried Scenario.tess_is_asked
               3600 4100 "sA" "ann" "Ann" Scenario.ann_asks Scenario.ann_asks
               Scenario.tess (FetchFails "offline") "token"
               _ _ _ _ _ _ _ _ _ _)))).
  - vm_compute; reflexivity.
  - reflexivity.
  - reflexivity.
  - reflexivity.
  - reflexivity.
  - reflexivity.
  - reflexivity.
  - reflexivity.
  - reflexivity.
  - exact I.
Defined.

(** X16: a request cannot be sent when no user is logged in or the
    session's document does not exist: nothing is written, the sessions
    of the page stay as they are, and the patient is told that the request
    failed. *)
Theorem requestVideoCall_cannot_write
    (c : Client PatientSessions.State) now sid tid name :
  PatientSessions.user (page c) = None ∨ Db.sessions (db c) !! sid = None →
  let r := PatientSessions.requestVideoCall now sid tid name c in
  r.1 = Returned tt
  ∧ db r.2 = db c
  ∧ PatientSessions.sessions (page r.2) = PatientSessions.sessions (page c)
  ∧ PatientSessions.requestingVideoCall (page r.2) = None
  ∧ alerts r.2
    = alerts c ++ ["Failed to send video call request. Please try again."].
Proof.
  intros H. unfold PatientSessions.requestVideoCall. run_handler.
  destruct (PatientSessions.user (page c)) as [u|]; run_handler; [|done].
  destruct H as [?|Hs]; [done|]. by rewrite Hs.
Qed.

Lemma requestVideoCall_cannot_write_witness :
  db (PatientSessions.requestVideoCall 3500 "sA" "tess" "Tess"
        Cases.ann_stale).2
  = db Cases.ann_stale.
Proof.
  refine (proj1 (proj2
            (requestVideoCall_cannot_write Cases.ann_stale 3500 "sA" "tess"
               "Tess" _))).
  right. vm_compute; reflexivity.
Defined.

(** X17: the patient's page offers to join a call only on a confirmed
    session whose request is accepted, and only with a room: the room the
    session stores, or, when it stores none, the one typed in. *)
Theorem join_needs_an_accepted_request
    (p : PatientSessions.State) now (x : Local Session) id tid name room :
  PatientSessions.JoinCall id tid name room
  ∈ PatientSessions.session_buttons p now x →
  id = x.1
  ∧ status x.2 = confirmed
  ∧ (∃ q, videoCallRequest x.2 = Some q ∧ request_status q = accepted)
  ∧ truthy room = true
  ∧ (stored_room x.2 = Some room
     ∨ (stored_room x.2 = None
        ∧ PatientSessions.roomIdInput p !! x.1 = Some room)).
Proof.
  unfold PatientSessions.session_buttons, PatientSessions.request_button.
  destruct (status x.2); try by intros ?%elem_of_nil.
  destruct (videoCallRequest x.2) as [q|] eqn:Hq.
  - destruct (request_status q) eqn:Hst.
    + repeat case_match; rewrite ?elem_of_cons, ?elem_of_nil;
        intros Hk; destruct_or?; done.
    + unfold PatientSessions.join_buttons.
      destruct (stored_room x.2) as [r|] eqn:Hr.
      * rewrite list_elem_of_singleton. intros [= -> -> -> ->].
        split_and!; try done; [by exists q| |by left].
        revert Hr. unfold stored_room, truthy_opt.
        repeat case_match; intros; simplify_eq; done.
      * destruct (PatientSessions.roomIdInput p !! x.1) as [r|] eqn:Hi;
          [|by intros ?%elem_of_nil].
        destruct (truthy r) eqn:Htr; [|by intros ?%elem_of_nil].
        rewrite list_elem_of_singleton. intros [= -> -> -> ->].
        split_and!; try done; [by exists q|by right].
    + rewrite list_elem_of_singleton. done.
  - case_match; rewrite ?elem_of_cons, ?elem_of_nil;
      intros Hk; destruct_or?; done.
Qed.

Lemma stored_room_started room now s :
  truthy room = true → stored_room (write_call_started room now s) = Some room.
Proof. intros H. unfold stored_room. cbn. by rewrite H. Qed.

(** What the page holds once its sessions are loaded. *)
Lemma load_lists (c : Client PatientSessions.State) sort users u x :
  PatientSessions.user (page c) = Some u →
  truthy (user_id u) = true →
  (∀ l, sort l ≡ₚ l) →
  let p := page (PatientSessions.load sort users c).2 in
  PatientSessions.loading p = false
  ∧ PatientSessions.roomIdInput p = PatientSessions.roomIdInput (page c)
  ∧ (x ∈ PatientSessions.sessions p
     ↔ Db.sessions (db c) !! x.1 = Some x.2 ∧ patientId x.2 = user_id u).
Proof.
  intros Hu Hid Hsort. unfold PatientSessions.load. run_handler.
  rewrite Hu, Hid. run_handler. split_and!; try done.
  rewrite Hsort. unfold PatientSessions.query_sessions.
  rewrite list_elem_of_filter. destruct x as [id y]. cbn.
  unfold Local. rewrite elem_of_map_to_list. tauto.
Qed.

(** The join button of a session that stores a room. *)
Lemma join_offered (p : PatientSessions.State) rendered sid y q room :
  PatientSessions.loading p = false →
  (sid, y) ∈ PatientSessions.sessions p →
  status y = confirmed →
  videoCallRequest y = Some q →
  request_status q = accepted →
  stored_room y = Some room →
  PatientSessions.JoinCall sid (therapistId y)
    (PatientSessions.display_name p y) room
  ∈ PatientSessions.buttons p rendered.
Proof.
  intros Hload Hin Hst Hq Hacc Hroom.
  unfold PatientSessions.buttons. rewrite Hload.
  apply elem_of_app. left. apply list_elem_of_bind. exists (sid, y).
  split; [|done].
  unfold PatientSessions.session_buttons, PatientSessions.join_buttons.
  cbn. rewrite Hst, Hq, Hacc, Hroom. apply list_elem_of_here.
Qed.

(** The button of an accepted session that stores no room. *)
Lemma join_typed (p : PatientSessions.State) rendered (x : Local Session)
    q k sid :
  k ∈ PatientSessions.session_buttons p rendered x →
  PatientSessions.call_session k = Some sid →
  sid = x.1
  ∧ (status x.2 = confirmed →
     videoCallRequest x.2 = Some q →
     request_status q = accepted →
     stored_room x.2 = None →
     ∃ typed,
       k = PatientSessions.JoinCall x.1 (therapistId x.2)
             (PatientSessions.display_name p x.2) typed
       ∧ PatientSessions.roomIdInput p !! x.1 = Some typed).
Proof.
  unfold PatientSessions.session_buttons, PatientSessions.join_buttons,
    PatientSessions.request_button.
  intros Hk Hid. split.
  - revert Hk. repeat case_match; rewrite ?elem_of_cons, ?elem_of_nil;
      intros Hk; destruct_or?; subst; try done; cbn in Hid; by simplify_eq.
  - intros Hst Hq Hacc Hroom. revert Hk. rewrite Hst, Hq, Hacc, Hroom.
    destruct (PatientSessions.roomIdInput p !! x.1) as [typed|];
      [|by intros ?%elem_of_nil].
    destruct (truthy typed); [|by intros ?%elem_of_nil].
    intros ->%list_elem_of_singleton. by exists typed.
Qed.

(** What a start with a room, and the end of a call, write. *)
Lemma startVideoCall_starts (c : Client TherapistSessions.State)
    authToken room now sid pid pname s :
  Db.sessions (db c) !! sid = Some s →
  truthy room = true →
  let r :=
    TherapistSessions.startVideoCall authToken (Responds (Some room)) now
      sid pid pname c in
  Db.sessions (db r.2)
  = <[sid := write_call_started room now s]> (Db.sessions (db c))
  ∧ TherapistSessions.activeVideoCall (page r.2)
    = Some {| TherapistSessions.call_sessionId := sid;
              TherapistSessions.call_patientName := pname;
              TherapistSessions.call_patientId := pid;
              TherapistSessions.call_meetingId := Some room |}.
Proof.
  intros Hs Hroom. unfold TherapistSessions.startVideoCall. run_handler.
  rewrite Hroom. run_handler. by rewrite Hs.
Qed.

Lemma endVideoCall_ends (c : Client TherapistSessions.State) now a s :
  TherapistSessions.activeVideoCall (page c) = Some a →
  Db.sessions (db c) !! TherapistSessions.call_sessionId a = Some s →
  Db.sessions (db (TherapistSessions.endVideoCall now c).2)
  = <[TherapistSessions.call_sessionId a := write_call_ended now s]>
      (Db.sessions (db c)).
Proof.
  intros Ha Hs. unfold TherapistSessions.endVideoCall. run_handler.
  rewrite Ha. run_handler. by rewrite Hs.
Qed.

(** X18: the patient's page reads the sessions when it is opened, and
    never again.  For a session whose request the therapist has accepted
    and that stores no room: a page opened before the therapist starts the
    call offers to join only a room that the patient types in; a page
    opened after the start offers to join exactly the room that was
    written, and so does a page opened after the therapist has ended the
    call. *)
Theorem patient_joins_the_started_room
    (ct : Client TherapistSessions.State) (cp : Client PatientSessions.State)
    sort users authToken room start stop rendered sid pid pname s q u :
  Db.sessions (db ct) !! sid = Some s →
  status s = confirmed →
  videoCallRequest s = Some q →
  request_status q = accepted →
  stored_room s = None →
  patientId s = user_id u →
  PatientSessions.user (page cp) = Some u →
  truthy (user_id u) = true →
  truthy room = true →
  (∀ l, sort l ≡ₚ l) →
  let started :=
    (TherapistSessions.startVideoCall authToken (Responds (Some room)) start
       sid pid pname ct).2 in
  let ended := (TherapistSessions.endVideoCall stop started).2 in
  let opened d := page (PatientSessions.load sort users (sees d cp)).2 in
  (∀ k,
     k ∈ PatientSessions.buttons (opened (db ct)) rendered →
     PatientSessions.call_session k = Some sid →
     ∃ name typed,
       k = PatientSessions.JoinCall sid (therapistId s) name typed
       ∧ PatientSessions.roomIdInput (page cp) !! sid = Some typed)
  ∧ (∃ name,
       PatientSessions.JoinCall sid (therapistId s) name room
       ∈ PatientSessions.buttons (opened (db started)) rendered)
  ∧ (∃ name,
       PatientSessions.JoinCall sid (therapistId s) name room
       ∈ PatientSessions.buttons (opened (db ended)) rendered).
Proof.
  intros Hs Hst Hq Hacc Hnone Hpid Hu Hid Hroom Hsort started ended opened.
  assert (Db.sessions (db started)
          = <[sid := write_call_started room start s]> (Db.sessions (db ct))
          ∧ TherapistSessions.activeVideoCall (page started)
            = Some {| TherapistSessions.call_sessionId := sid;
                      TherapistSessions.call_patientName := pname;
                      TherapistSessions.call_patientId := pid;
                      TherapistSessions.call_meetingId := Some room |})
    as [Hstarted Hcall]
    by exact (startVideoCall_starts ct authToken room start sid pid pname s
                Hs Hroom).
  assert (Db.sessions (db ended)
          = <[sid := write_call_ended stop (write_call_started room start s)]>
              (Db.sessions (db started))) as Hended.
  { apply (endVideoCall_ends started stop _ _ Hcall). cbn.
    by rewrite Hstarted, lookup_insert_eq. }
  assert (∀ d y,
    Db.sessions d !! sid = Some y → patientId y = user_id u →
    status y = confirmed → videoCallRequest y = Some q →
    stored_room y = Some room → therapistId y = therapistId s →
    ∃ name,
      PatientSessions.JoinCall sid (therapistId s) name room
      ∈ PatientSessions.buttons (opened d) rendered) as Hjoin.
  { intros d y Hy Hp Hsty Hqy Hry Htid.
    destruct (load_lists (sees d cp) sort users u (sid, y) Hu Hid Hsort)
      as (Hload & _ & Hin).
    exists (PatientSessions.display_name (opened d) y). rewrite <-Htid.
    by apply (join_offered _ _ _ _ q); [|apply Hin|..]. }
  split_and!.
  - intros k Hk Hsid. unfold PatientSessions.buttons in Hk.
    destruct (load_lists (sees (db ct) cp) sort users u (sid, s) Hu Hid Hsort)
      as (Hload & Hinput & _).
    fold (opened (db ct)) in Hload, Hinput. rewrite Hload in Hk.
    apply elem_of_app in Hk as [Hk|Hk].
    + apply list_elem_of_bind in Hk as (x & Hk & Hin).
      destruct (join_typed _ _ _ q _ _ Hk Hsid) as [-> Htyped].
      apply (load_lists (sees (db ct) cp) sort users u x Hu Hid Hsort) in Hin
        as [Hx _].
      change (Db.sessions (db ct) !! x.1 = Some x.2) in Hx.
      rewrite Hs in Hx. injection Hx as Hx. rewrite <-Hx in Htyped.
      destruct (Htyped Hst Hq Hacc Hnone) as (typed & -> & Hin).
      rewrite Hinput in Hin. eauto.
    + repeat case_match; rewrite ?elem_of_cons, ?elem_of_nil in Hk;
        destruct_or?; subst; done.
  - apply (Hjoin _ (write_call_started room start s)); try done.
    + by rewrite Hstarted, lookup_insert_eq.
    + by apply stored_room_started.
  - apply (Hjoin _ (write_call_ended stop (write_call_started room start s)));
      try done.
    + by rewrite Hended, lookup_insert_eq.
    + change (stored_room (write_call_started room start s) = Some room).
      by apply stored_room_started.
Qed.

Lemma patient_joins_the_started_room_witness :
  ∃ name,
    PatientSessions.JoinCall "sA" (therapistId Cases.ann_accepted) name "room1"
    ∈ PatientSessions.buttons (page (Cases.ann_loads (db Cases.tess_ends_call)))
        9600.
Proof.
  refine (proj2 (proj2
            (patient_joins_the_started_room
               (take_timer 0 Cases.tess_accepts_call)
               (browser (PatientSessions.initial (Some Scenario.ann))
                  Scenario.db_open)
               Cases.as_queried
               {[ "tess" := {| PatientSessions.info_name := Some "Tess" |} ]}
               "token" "room1" 4200 9000 9600 "sA" "ann" "Ann"
               Cases.ann_accepted _ Scenario.ann _ _ _ _ _ _ _ _ _ _))).
  - vm_compute; reflexivity.
  - reflexivity.
  - reflexivity.
  - reflexivity.
  - reflexivity.
  - reflexivity.
  - reflexivity.
  - reflexivity.
  - reflexivity.
  - intros l. reflexivity.
Defined.

Lemma join_needs_an_accepted_request_witness :
  status (write_call_started "room1" 4000 Cases.ann_accepted) = confirmed.
Proof.
  refine (proj1 (proj2
            (join_needs_an_accepted_request (page Scenario.ann_requests) 9600
               ("sA", write_call_started "room1" 4000 Cases.ann_accepted)
               "sA" (therapistId Cases.ann_accepted)
               (PatientSessions.display_name (page Scenario.ann_requests)
                  Cases.ann_accepted)
               "room1" _))).
  vm_compute. apply list_elem_of_here.
Defined.

(** X19: both sides of a call reach the same room.  When the therapist
    starts a call in the room the provider gives, her page shows the
    meeting of that room under the patient's name; when the patient joins
    that room, the patient's page shows the meeting of the same room under
    the therapist's name with the title added, and joining writes nothing
    to the database. *)
Theorem call_component_room_and_names
    (c : Client TherapistSessions.State) (cp : Client PatientSessions.State)
    authToken room now sid pid pname tid tname s both audioOnly :
  Db.sessions (db c) !! sid = Some s →
  truthy room = true →
  truthy authToken = true →
  both || audioOnly = true →
  let r :=
    TherapistSessions.startVideoCall authToken (Responds (Some room)) now
      sid pid pname c in
  let rp := PatientSessions.joinVideoCall sid tid tname room cp in
  (∃ a, TherapistSessions.activeVideoCall (page r.2) = Some a
        ∧ VideoSDKCall.render authToken (therapist_call_props a)
            (VideoSDKCall.checkPermissions both audioOnly
               (VideoSDKCall.initial (therapist_call_props a)))
          = VideoSDKCall.Meeting room pname)
  ∧ (∃ a, PatientSessions.activeVideoCall (page rp.2) = Some a
          ∧ VideoSDKCall.render authToken (patient_call_props a)
              (VideoSDKCall.checkPermissions both audioOnly
                 (VideoSDKCall.initial (patient_call_props a)))
            = VideoSDKCall.Meeting room ("Dr. " +:+ tname))
  ∧ db rp.2 = db cp.
Proof.
  intros Hs Hroom Htok Hperm.
  unfold TherapistSessions.startVideoCall, PatientSessions.joinVideoCall.
  run_handler. rewrite Hroom. run_handler. rewrite Hs. cbn.
  split_and!; [| |done]; eexists; (split; [done|]);
    unfold VideoSDKCall.render, VideoSDKCall.checkPermissions,
      VideoSDKCall.initial, VideoSDKCall.requestMediaPermissions;
    cbn; rewrite Htok, Hroom; cbn;
    destruct both, audioOnly; cbn in *; try done; by rewrite Hroom.
Qed.

Lemma call_component_room_and_names_witness :
  db (PatientSessions.joinVideoCall "sA" "tess" "Tess" "room1"
        Scenario.ann_requests).2
  = db Scenario.ann_requests.
Proof.
  refine (proj2 (proj2
            (call_component_room_and_names Scenario.tess_accepts
               Scenario.ann_requests "token" "room1" 4000 "sA" "ann" "Ann"
               "tess" "Tess" Scenario.ann_confirmed false true _ _ _ _))).
  - vm_compute; reflexivity.
  - reflexivity.
  - reflexivity.
  - reflexivity.
Defined.

(** ** Errors *)

Section Returns.
Context {P : Type}.
Implicit Types m : M P unit.

Lemma returns_bind {A} (m : M P A) (k : A → M P unit) :
  (∀ c, ∃ a, (m c).1 = Returned a) → (∀ a, returns (k a)) → returns (bind m k).
Proof.
  intros Hm Hk c. unfold bind. destruct (Hm c) as [a Ha].
  destruct (m c) as [[a'|e] c']; cbn in *; [|done]. apply Hk.
Qed.

Lemma returns_seq m (k : M P unit) :
  returns m → returns k → returns (bind m (λ _, k)).
Proof.
  intros Hm Hk. apply returns_bind; [|done]. intros c. exists tt. apply Hm.
Qed.

Lemma returns_guarded m (h : string → M P unit) (f : M P unit) :
  (∀ e, returns (h e)) → returns f → returns (finally (try_catch m h) f).
Proof.
  intros Hh Hf c. unfold finally, try_catch.
  destruct (m c) as [[[]|e] c'].
  - specialize (Hf c'). by destruct (f c') as [[[]|] ?].
  - specialize (Hh e c'). destruct (h e c') as [o c'']. cbn in Hh. subst o.
    specialize (Hf c''). by destruct (f c'') as [[[]|] ?].
Qed.

Lemma returns_try_catch m (h : string → M P unit) :
  (∀ e, returns (h e)) → returns (try_catch m h).
Proof.
  intros Hh c. unfold try_catch. destruct (m c) as [[[]|e] c']; [done|].
  apply Hh.
Qed.

Lemma returns_get_page (k : P → M P unit) :
  (∀ p, returns (k p)) → returns (bind get_page k).
Proof. intros Hk c. apply Hk. Qed.

Lemma returns_set_page f : returns (set_page (P:=P) f).
Proof. done. Qed.

Lemma returns_alert s : returns (alert (P:=P) s).
Proof. done. Qed.

Lemma returns_console s : returns (console_error (P:=P) s).
Proof. done. Qed.

Lemma returns_ret : returns (ret (P:=P) tt).
Proof. done. Qed.

End Returns.

Ltac returns_tac :=
  repeat first
    [ apply returns_guarded; [intros ?|]
    | apply returns_try_catch; intros ?
    | apply returns_seq
    | apply returns_set_page | apply returns_alert | apply returns_console
    | apply returns_ret ].

(** X20: no exception leaves a handler of a page: whatever the database
    holds and whatever fails, every booking, every press of a button of
    the therapist's and the patient's pages of sessions, the delayed start
    of a call, the removal of a slot and every press in the dialog of
    slots returns; each failure is caught and reported. *)
Theorem every_error_is_caught :
  (∀ newId now slot, returns (Therapists.bookSession newId now slot))
  ∧ (∀ newId now slot, returns (Dashboard.bookSession newId now slot))
  ∧ (∀ authToken answer noteId now k,
       returns (TherapistSessions.press authToken answer noteId now k))
  ∧ (∀ authToken answer now t,
       returns (TherapistSessions.fire authToken answer now t))
  ∧ (∀ noteId now k, returns (TherapistSessionsOld.press noteId now k))
  ∧ (∀ now k, returns (PatientSessions.press now k))
  ∧ (∀ answer slotId, returns (TherapistSlots.handleRemoveSlot answer slotId))
  ∧ (∀ sort newId k, returns (SlotsPage.press sort newId k)).
Proof.
  split_and!.
  - intros newId now slot. unfold Therapists.bookSession.
    apply returns_get_page. intros p.
    destruct (Therapists.user p); [|done].
    destruct (Therapists.selectedTherapist p); [|done].
    case_match; [done|]. returns_tac.
  - intros newId now slot. unfold Dashboard.bookSession.
    apply returns_get_page. intros p.
    destruct (Dashboard.user p); [|done].
    destruct (Dashboard.selectedTherapist p); [|done].
    case_match; [done|]. returns_tac.
  - intros tok answer noteId now k.
    assert (∀ sid pid name,
      returns (TherapistSessions.startVideoCall tok answer now sid pid name))
      as Hstart.
    { intros. unfold TherapistSessions.startVideoCall. returns_tac. }
    destruct k as [sid|sid|sid pid name|sid pid|sid pid name| |sid];
      cbn [TherapistSessions.press];
      unfold TherapistSessions.updateSessionStatus,
        TherapistSessions.respondToVideoCallRequest.
    + returns_tac.
    + returns_tac.
    + returns_tac.
    + returns_tac.
    + apply Hstart.
    + unfold TherapistSessions.endVideoCall.
      apply returns_get_page. intros p.
      destruct (TherapistSessions.activeVideoCall p); [|done].
      returns_tac.
    + returns_tac.
  - intros tok answer now [|sid pid name]; cbn [TherapistSessions.fire].
    + done.
    + unfold TherapistSessions.startVideoCall. returns_tac.
  - intros noteId now k. destruct k; cbn [TherapistSessionsOld.press];
      unfold TherapistSessionsOld.updateSessionStatus; returns_tac.
  - intros now k. destruct k; cbn [PatientSessions.press]; [|done..].
    unfold PatientSessions.requestVideoCall. returns_tac.
  - intros answer slotId. unfold TherapistSlots.handleRemoveSlot.
    destruct answer; returns_tac.
  - intros sort newId k. destruct k; cbn [SlotsPage.press]; try done.
    unfold SlotsPage.handleAddSlot.
    apply returns_get_page. intros p.
    repeat (case_match; [done|]). returns_tac.
Qed.

(** ** Slots *)

Arguments UseTherapistSlots.existing_slots : simpl never.
Arguments Therapists.query_slots : simpl never.

Lemma list_is_nil_or_elem {A} (l : list A) : l = [] ∨ ∃ x, x ∈ l.
Proof.
  destruct l as [|x l]; [by left|]. right. exists x. apply list_elem_of_here.
Qed.

Lemma elem_of_existing_slots tid day range d (x : Local Slot) :
  x ∈ UseTherapistSlots.existing_slots tid day range d
  ↔ Db.therapistSlots d !! x.1 = Some x.2
    ∧ slot_therapistId x.2 = tid ∧ slot_date x.2 = day
    ∧ timeRange x.2 = range.
Proof.
  unfold UseTherapistSlots.existing_slots, Therapists.query_slots.
  rewrite !list_elem_of_filter. destruct x as [id s]. cbn.
  unfold Local. rewrite elem_of_map_to_list. tauto.
Qed.

Lemma db_open_slots id s :
  Db.therapistSlots Scenario.db_open !! id = Some s →
  id = "slot1" ∧ s = Scenario.slot10.
Proof.
  intros H.
  change (({[ "slot1" := Scenario.slot10 ]} : gmap string Slot) !! id = Some s)
    in H.
  by apply lookup_singleton_Some in H as [<- <-].
Qed.



(** X22: adding a time range that the therapist does not have on that
    day returns, adds one unbooked slot with that therapist, day and
    range, and shows the slots of the day as the database then has them;
    adding the same range again is refused and writes nothing. *)
Theorem addSlot_adds_once
    (c : Client TherapistSlots.State) sort tid day newId newId' range :
  truthy tid = true → truthy day = true →
  (∀ id s, Db.therapistSlots (db c) !! id = Some s →
     slot_therapistId s = tid → slot_date s = day → timeRange s ≠ range) →
  let r :=
    UseTherapistSlots.addSlot sort (Some tid) (Some day) newId range c in
  let r' :=
    UseTherapistSlots.addSlot sort (Some tid) (Some day) newId' range r.2 in
  r.1 = Returned tt
  ∧ Db.therapistSlots (db r.2)
    = <[newId := UseTherapistSlots.new_slot tid day range]>
        (Db.therapistSlots (db c))
  ∧ isBooked (UseTherapistSlots.new_slot tid day range) = false
  ∧ TherapistSlots.slots (page r.2)
    = sort (Therapists.query_slots tid day (db r.2))
  ∧ r'.1 = Thrown "A slot with this time range already exists for this date"
  ∧ db r'.2 = db r.2.
Proof.
  intros Htid Hday Hnone.
  assert (UseTherapistSlots.existing_slots tid day range (db c) = []) as Hex.
  { destruct (list_is_nil_or_elem
                (UseTherapistSlots.existing_slots tid day range (db c)))
      as [?|[[id s] Hin]]; [done|].
    apply elem_of_existing_slots in Hin as (Hs & ? & ? & ?).
    by destruct (Hnone id s Hs). }
  assert (∃ x l,
            UseTherapistSlots.existing_slots tid day range
              (with_slots <[newId := UseTherapistSlots.new_slot tid day range]>
                 (db c)) = x :: l) as (x & l & Hex').
  { destruct (UseTherapistSlots.existing_slots tid day range
                (with_slots
                   <[newId := UseTherapistSlots.new_slot tid day range]>
                   (db c))) as [|x l] eqn:Hex'; [|by eauto].
    assert ((newId, UseTherapistSlots.new_slot tid day range)
            ∈ UseTherapistSlots.existing_slots tid day range
                (with_slots
                   <[newId := UseTherapistSlots.new_slot tid day range]>
                   (db c))) as Hin.
    { apply elem_of_existing_slots. cbn. by rewrite lookup_insert_eq. }
    rewrite Hex' in Hin. by apply elem_of_nil in Hin. }
  unfold UseTherapistSlots.addSlot. rewrite Htid, Hday. run_handler.
  rewrite Hex. run_handler. by rewrite Hex'.
Qed.

Lemma addSlot_adds_once_witness :
  (UseTherapistSlots.addSlot Cases.unsorted (Some "tess") (Some "2025-06-01")
     "slot2" "11:00 - 12:00" Scenario.tess_free_slots).1
  = Returned tt.
Proof.
  refine (proj1
            (addSlot_adds_once Scenario.tess_free_slots Cases.unsorted
               "tess" "2025-06-01" "slot2" "slot3" "11:00 - 12:00" _ _ _)).
  - reflexivity.
  - reflexivity.
  - intros id s [_ ->]%db_open_slots _ _. cbn. discriminate.
Defined.

Lemma distinct_insert_same (d : Firestore) id s s' :
  no_duplicate_slots d →
  Db.therapistSlots d !! id = Some s →
  slot_therapistId s' = slot_therapistId s → slot_date s' = slot_date s →
  timeRange s' = timeRange s →
  no_duplicate_slots (with_slots <[id := s']> d).
Proof.
  intros Hd Hs H1 H2 H3 i j a b. cbn.
  destruct (decide (i = id)) as [->|Hi]; destruct (decide (j = id)) as [->|Hj];
    rewrite ?lookup_insert_eq, ?lookup_insert_ne by done; try done.
  - intros [= <-] Hb. rewrite H1, H2, H3. intros. by eapply Hd.
  - intros Ha [= <-]. rewrite H1, H2, H3. intros. by eapply Hd.
  - apply Hd.
Qed.

Lemma distinct_delete (d : Firestore) id :
  no_duplicate_slots d → no_duplicate_slots (with_slots (delete id) d).
Proof.
  intros Hd i j a b. cbn.
  intros [_ Ha]%lookup_delete_Some [_ Hb]%lookup_delete_Some. by apply Hd.
Qed.

Lemma distinct_same_slots (d d' : Firestore) :
  Db.therapistSlots d' = Db.therapistSlots d →
  no_duplicate_slots d → no_duplicate_slots d'.
Proof. unfold no_duplicate_slots. by intros ->. Qed.

Lemma db_open_distinct : no_duplicate_slots Scenario.db_open.
Proof. by intros i j s s' [-> _]%db_open_slots [-> _]%db_open_slots. Qed.

(** X23: the handlers that write slots, each run on its own, keep the
    slots distinct: if no two slots of a therapist have the same day and
    time range, this still holds after [addSlot] of the hook (with a new
    id), after a booking, after a change of a session's status, and after
    the removal of a slot. *)
Theorem slots_stay_distinct :
  (∀ (c : Client TherapistSlots.State) sort therapistId ymd newId range,
     Db.therapistSlots (db c) !! newId = None →
     no_duplicate_slots (db c) →
     no_duplicate_slots
       (db (UseTherapistSlots.addSlot sort therapistId ymd newId range c).2))
  ∧ (∀ (c : Client Therapists.State) newId now slot,
       no_duplicate_slots (db c) →
       no_duplicate_slots (db (Therapists.bookSession newId now slot c).2))
  ∧ (∀ (c : Client TherapistSessions.State) noteId now sid n,
       no_duplicate_slots (db c) →
       no_duplicate_slots
         (db (TherapistSessions.updateSessionStatus noteId now sid n c).2))
  ∧ (∀ (c : Client TherapistSlots.State) slotId,
       no_duplicate_slots (db c) →
       no_duplicate_slots (db (TherapistSlots.removeSlot slotId c).2)).
Proof.
  split_and!.
  - intros c sort therapistId ymd newId range Hfresh Hd.
    unfold UseTherapistSlots.addSlot, UseTherapistSlots.missing_ids.
    destruct therapistId as [tid|]; [|done].
    destruct ymd as [day|]; [|done].
    destruct (truthy tid && truthy day); [|done].
    run_handler.
    destruct (UseTherapistSlots.existing_slots tid day range (db c))
      as [|x l] eqn:Hex; run_handler; [|done].
    intros i j a b. cbn.
    assert (∀ k s, Db.therapistSlots (db c) !! k = Some s →
              slot_therapistId s = tid → slot_date s = day →
              timeRange s = range → False) as Hnone.
    { intros k s Hs ? ? ?.
      assert ((k, s) ∈ UseTherapistSlots.existing_slots tid day range (db c))
        as Hin by by apply elem_of_existing_slots.
      rewrite Hex in Hin. by apply elem_of_nil in Hin. }
    destruct (decide (i = newId)) as [->|Hi];
      destruct (decide (j = newId)) as [->|Hj];
      rewrite ?lookup_insert_eq, ?lookup_insert_ne by done; try done.
    + intros [= <-] Hb. cbn. intros. by destruct (Hnone j b).
    + intros Ha [= <-]. cbn. intros. by destruct (Hnone i a).
    + apply Hd.
  - intros c newId now slot Hd.
    unfold Therapists.bookSession. run_handler.
    destruct (Therapists.user (page c)) as [u|]; [|done].
    destruct (Therapists.selectedTherapist (page c)) as [t|]; [|done].
    case_match; [done|]. run_handler.
    destruct (Db.therapistSlots (db c) !! slot.1) as [sl|] eqn:Hsl; cbn.
    + apply (distinct_insert_same
               (with_sessions <[newId := Therapists.new_session u t slot now]>
                  (db c)) slot.1 sl); done.
    + done.
  - intros c noteId now sid n Hd.
    unfold TherapistSessions.updateSessionStatus, TherapistSessions.save_notes.
    run_handler.
    destruct (Db.sessions (db c) !! sid) as [s|]; cbn; [|done].
    destruct n; run_handler;
      repeat (case_match;
              unfold bind, try_catch, finally, ret, throw, get_page, set_page,
                get_db, set_db, alert, console_error, setTimeout,
                http_request, addDoc_note in *;
              simplify_eq/=);
      try done;
      match goal with
      | H : Db.therapistSlots _ !! ?k = Some ?sl |- _ =>
          eapply (distinct_same_slots
                    (with_slots <[k := release sl]>
                       (with_sessions <[sid := write_status to_cancelled now s]>
                          (db c))));
          [done|];
          by apply (distinct_insert_same
                      (with_sessions
                         <[sid := write_status to_cancelled now s]> (db c))
                      k sl)
      end.
  - intros c slotId Hd. by apply distinct_delete.
Qed.

Lemma slots_stay_distinct_witness :
  no_duplicate_slots
    (db (UseTherapistSlots.addSlot Cases.unsorted (Some "tess")
           (Some "2025-06-01") "slot2" "11:00 - 12:00"
           Scenario.tess_free_slots).2).
Proof.
  refine (proj1 slots_stay_distinct Scenario.tess_free_slots Cases.unsorted
            (Some "tess") (Some "2025-06-01") "slot2" "11:00 - 12:00" _ _).
  - vm_compute; reflexivity.
  - exact db_open_distinct.
Defined.

(** ** The page of slots *)

(** X24: the hook's load of a day returns without an error and leaves
    the page not loading; the slots that can then be removed are exactly
    the unbooked slots the database holds for that therapist and day. *)
Theorem load_offers_the_unbooked_slots
    (c : Client TherapistSlots.State) sort tid day id :
  (∀ l, sort l ≡ₚ l) →
  truthy tid = true → truthy day = true →
  let r := UseTherapistSlots.load sort (Some tid) (Some day) c in
  r.1 = Returned tt
  ∧ db r.2 = db c
  ∧ TherapistSlots.loading (page r.2) = false
  ∧ TherapistSlots.error (page r.2) = None
  ∧ (id ∈ TherapistSlots.remove_buttons (page r.2)
     ↔ ∃ s, Db.therapistSlots (db c) !! id = Some s
            ∧ slot_therapistId s = tid ∧ slot_date s = day
            ∧ isBooked s = false).
Proof.
  intros Hsort Htid Hday. unfold UseTherapistSlots.load.
  rewrite Htid, Hday. run_handler. split_and!; try done.
  unfold TherapistSlots.remove_buttons. cbn.
  rewrite list_elem_of_fmap. setoid_rewrite list_elem_of_filter.
  setoid_rewrite Hsort. unfold Therapists.query_slots.
  setoid_rewrite list_elem_of_filter. unfold Local.
  setoid_rewrite elem_of_map_to_list'. split.
  - intros (x & -> & ? & [? ?] & ?). by exists x.2.
  - intros (s & ? & ? & ? & ?). by exists (id, s).
Qed.

Lemma load_offers_the_unbooked_slots_witness :
  "slot1"
  ∈ TherapistSlots.remove_buttons
      (page (UseTherapistSlots.load Cases.unsorted (Some "tess")
               (Some "2025-06-01") Scenario.tess_free_slots).2)
  ↔ ∃ s, Db.therapistSlots (db Scenario.tess_free_slots) !! "slot1" = Some s
         ∧ slot_therapistId s = "tess" ∧ slot_date s = "2025-06-01"
         ∧ isBooked s = false.
Proof.
  refine (proj2 (proj2 (proj2 (proj2
            (load_offers_the_unbooked_slots Scenario.tess_free_slots
               Cases.unsorted "tess" "2025-06-01" "slot1" _ _ _))))).
  - intros l. reflexivity.
  - reflexivity.
  - reflexivity.
Defined.



(** X26: a slot made from a start time of the dialog gives, when booked,
    a session at that start time: the time of the session is the part of
    the range before the separator. *)
Theorem session_time_is_the_start_time
    start stop u t id tid day now :
  start ∈ SlotsPage.timeOptions →
  time (Therapists.new_session u t
          (id, UseTherapistSlots.new_slot tid day
                 (SlotsPage.time_range start stop)) now)
  = start.
Proof.
  unfold SlotsPage.timeOptions. rewrite !elem_of_cons, elem_of_nil.
  intros H. destruct_or?; subst; try done; cbn; by destruct stop.
Qed.

Lemma session_time_is_the_start_time_witness :
  time (Therapists.new_session Scenario.ann Scenario.dr_tess
          ("slot2",
           UseTherapistSlots.new_slot "tess" "2025-06-01"
             (SlotsPage.time_range "11:00" "12:00")) 1000)
  = "11:00".
Proof.
  apply session_time_is_the_start_time.
  do 3 apply list_elem_of_further. apply list_elem_of_here.
Defined.

Lemma time_option_truthy t : t ∈ SlotsPage.timeOptions → truthy t = true.
Proof.
  unfold SlotsPage.timeOptions. rewrite !elem_of_cons, elem_of_nil.
  intros H. by destruct_or?; subst.
Qed.

Lemma elem_of_slot_buttons p k :
  SlotsPage.isAddDialogOpen p = true →
  k ∈ SlotsPage.buttons p
  ↔ k = SlotsPage.OpenDialog
    ∨ (∃ t, k = SlotsPage.SelectStart t ∧ t ∈ SlotsPage.timeOptions)
    ∨ (∃ t, k = SlotsPage.SelectEnd t
            ∧ SlotsPage.end_disabled p t = false
            ∧ t ∈ SlotsPage.timeOptions)
    ∨ k = SlotsPage.CancelDialog
    ∨ k = SlotsPage.DismissDialog
    ∨ (k = SlotsPage.AddSlot
       ∧ truthy (SlotsPage.startTime p) = true
       ∧ truthy (SlotsPage.endTime p) = true
       ∧ SlotsPage.adding p = false).
Proof.
  intros Hp. unfold SlotsPage.buttons. rewrite Hp.
  rewrite elem_of_cons, !elem_of_app, !list_elem_of_fmap.
  setoid_rewrite list_elem_of_filter.
  rewrite !elem_of_cons, elem_of_nil.
  assert (k ∈ (if negb (truthy (SlotsPage.startTime p))
                  || negb (truthy (SlotsPage.endTime p))
                  || SlotsPage.adding p
               then [] else [SlotsPage.AddSlot])
          ↔ k = SlotsPage.AddSlot
            ∧ truthy (SlotsPage.startTime p) = true
            ∧ truthy (SlotsPage.endTime p) = true
            ∧ SlotsPage.adding p = false) as ->; [|tauto].
  destruct (truthy (SlotsPage.startTime p)), (truthy (SlotsPage.endTime p)),
    (SlotsPage.adding p); cbn;
    rewrite ?elem_of_nil, ?list_elem_of_singleton;
    (split; [try done; by intros ->|by intros (? & ? & ? & ?)]).
Qed.

(** X27: the dialog checks the end time against the start time only when
    the end is chosen.  Once a start time is chosen, an end time can be
    selected exactly when it is later than the start.  But with no start
    chosen every end time can be selected, and any start time can be
    chosen afterwards: the add button is then enabled for any pair of
    times, also an end that is not after the start. *)
Theorem end_time_is_checked_against_the_start_only
    (c : Client SlotsPage.State) sort newId start stop :
  SlotsPage.isAddDialogOpen (page c) = true →
  SlotsPage.adding (page c) = false →
  start ∈ SlotsPage.timeOptions →
  stop ∈ SlotsPage.timeOptions →
  let started := (SlotsPage.press sort newId (SlotsPage.SelectStart start) c).2 in
  (SlotsPage.SelectEnd stop ∈ SlotsPage.buttons (page started)
   ↔ String.ltb start stop = true)
  ∧ (SlotsPage.startTime (page c) = EmptyString →
     let c1 := (SlotsPage.press sort newId (SlotsPage.SelectEnd stop) c).2 in
     let c2 := (SlotsPage.press sort newId (SlotsPage.SelectStart start) c1).2 in
     SlotsPage.SelectEnd stop ∈ SlotsPage.buttons (page c)
     ∧ SlotsPage.SelectStart start ∈ SlotsPage.buttons (page c1)
     ∧ SlotsPage.AddSlot ∈ SlotsPage.buttons (page c2)
     ∧ SlotsPage.startTime (page c2) = start
     ∧ SlotsPage.endTime (page c2) = stop).
Proof.
  intros Hopen Hadd Hstart Hstop.
  pose proof (time_option_truthy _ Hstart) as Hs.
  pose proof (time_option_truthy _ Hstop) as He.
  split.
  - assert (SlotsPage.end_disabled (SlotsPage.setStartTime start (page c)) stop
            = false ↔ String.ltb start stop = true) as Hdis.
    { unfold SlotsPage.end_disabled. cbn. rewrite Hs. cbn.
      unfold String.leb, String.ltb.
      rewrite (String.compare_antisym start stop).
      by destruct (stop ?= start)%string. }
    rewrite elem_of_slot_buttons by done. rewrite <- Hdis. split.
    + by intros [?|[(? & ? & ?)|[(t & [= <-] & ? & _)|[?|[?|[? ?]]]]]].
    + intros ?. right. right. left. by exists stop.
  - intros Hnone c1 c2. subst c1 c2. cbn.
    rewrite !elem_of_slot_buttons by done.
    unfold SlotsPage.end_disabled. cbn. rewrite Hnone, Hs, He, Hadd.
    split_and!; try done.
    + right. right. left. by exists stop.
    + right. left. by exists start.
    + by repeat right.
Qed.

Lemma end_time_is_checked_against_the_start_only_witness :
  SlotsPage.AddSlot
  ∈ SlotsPage.buttons
      (page (SlotsPage.press Cases.unsorted "slot2"
               (SlotsPage.SelectStart "10:00")
               (SlotsPage.press Cases.unsorted "slot2"
                  (SlotsPage.SelectEnd "09:00")
                  (Cases.tess_dialog EmptyString EmptyString)).2).2).
Proof.
  refine (proj1 (proj2 (proj2
            (proj2 (end_time_is_checked_against_the_start_only
                      (Cases.tess_dialog EmptyString EmptyString)
                      Cases.unsorted "slot2" "10:00" "09:00" _ _ _ _)
               _)))).
  - reflexivity.
  - reflexivity.
  - do 2 apply list_elem_of_further. apply list_elem_of_here.
  - apply list_elem_of_further. apply list_elem_of_here.
  - reflexivity.
Defined.
